(** * Event log writer, retention and compaction of [install.py]

    A shallow embedding of the logging library that [install.py] installs
    (the [AgentLogger] writer, [get_log_stats], [cleanup_logs],
    [compact_old_sessions]) and of the standalone [cleanup-logs] tool
    ([cleanup], [compact]); with them the logging methods of the writer,
    the session of the module and the hook registry, the tool's
    [get_stats] and the [find_logs] of the [query-logs] tool.

    Modelling conventions.
    - A Python [str] is a [string]; one [ascii] is one character (a code
      point below 256).  The writer serialises with [json.dumps], whose
      default [ensure_ascii] keeps every log line in that range.
    - A Python [int] is a [Z].  The size limit [max_size_mb] is a
      [float]: a double, here a primitive float of Rocq (IEEE binary64
      with rounding to nearest, as Python's).  The products
      [max_size_mb * 1024 * 1024] and [... * 0.8] are the rounded
      products of doubles, and an [int] is compared with a [float] by
      the exact values of the two, as Python does.  An [int] given for
      [max_size_mb], as the default [50] is, stands for the double of
      the same value: up to [2^33] in size its products and comparisons
      are those of that double.  [int(n * 0.8)] for a file count [n] is
      the integer part of [4 n / 5].
      Fields that only round a number for display
      ([freed_mb], [saved_mb], [freed_kb], [saved_kb]) and the echo of
      [dry_run] are left out of the reports.
    - Exceptions that the source does not catch are results [Raise e].
    - The file system is a value: the log directory is [option store]
      ([None] when the directory does not exist); a store lists its
      directories and its files in the order [Path.rglob] enumerates
      them.  Files are written with POSIX line ends.  What the operating
      system may refuse (removing a file or a directory, opening a file)
      is an oracle [os].
    - [json.loads], [json.dumps], the clock and the rounding of floats
      belong to Python's library: they are parameters of the model. *)

From Stdlib Require Import ZArith QArith Bool List Ascii String Lia.
From Stdlib Require Import Numbers.DecimalString Numbers.DecimalN.
From Stdlib Require Import Numbers.DecimalPos FinFun Sorted Permutation.
From Stdlib Require Import Structures.OrderedTypeEx.
From Stdlib Require Floats.
Import ListNotations.

Open Scope list_scope.
Open Scope string_scope.
Open Scope Z_scope.

(** ** Python values *)

Inductive exn : Type :=
| TypeError
| AttributeError.

Inductive result (A : Type) : Type :=
| Ok (a : A)
| Raise (e : exn).

Arguments Ok {A} a.
Arguments Raise {A} e.

(** The values [json.loads] returns, [**kwargs] carries and the result
    dictionaries hold. *)
#[warnings="-register-all"]
Inductive pyval : Type :=
| PNone
| PBool (b : bool)
| PInt (z : Z)
| PFloat (q : Q)
| PStr (s : string)
| PList (l : list pyval)
| PDict (m : list (string * pyval)).

(** A [dict] with string keys, in insertion order. *)
Definition dict : Type := list (string * pyval).

Fixpoint dict_get (d : dict) (k : string) : option pyval :=
  match d with
  | [] => None
  | (k', v) :: d' => if (k' =? k)%string then Some v else dict_get d' k
  end.

(** [d.get(k, default)] *)
Definition dict_get_default (d : dict) (k : string) (default : pyval)
  : pyval :=
  match dict_get d k with
  | Some v => v
  | None => default
  end.

(** [d[k] = v]: an existing key keeps its place, a new key goes last. *)
Fixpoint dict_set (d : dict) (k : string) (v : pyval) : dict :=
  match d with
  | [] => [(k, v)]
  | (k', v') :: d' =>
      if (k' =? k)%string then (k', v) :: d' else (k', v') :: dict_set d' k v
  end.

(** The dictionary display that ends in [**kw]. *)
Definition dict_update (d kw : dict) : dict :=
  fold_left (fun acc kv => dict_set acc (fst kv) (snd kv)) kw d.

Definition dict_keys (d : dict) : list string := map fst d.

Fixpoint mem_string (k : string) (l : list string) : bool :=
  match l with
  | [] => false
  | k' :: l' => (k' =? k)%string || mem_string k l'
  end.

Fixpoint distinct (l : list string) : bool :=
  match l with
  | [] => true
  | k :: l' => negb (mem_string k l') && distinct l'
  end.

(** Keywords can be bound past the named parameters [params]: no keyword
    comes twice, none names a parameter that an argument fills. *)
Definition bindable (params : list string) (kw : dict) : bool :=
  distinct (dict_keys kw)
  && negb (existsb (fun k => mem_string k params) (dict_keys kw)).

(** [bool(v)] *)
Definition truthy (v : pyval) : bool :=
  match v with
  | PNone => false
  | PBool b => b
  | PInt z => negb (z =? 0)
  | PFloat q => negb (Qeq_bool q 0)
  | PStr s => negb (s =? "")%string
  | PList l => match l with [] => false | _ :: _ => true end
  | PDict m => match m with [] => false | _ :: _ => true end
  end.

(** ** Floats *)

Module PyFloat.

(** The number that a double stands for *)
Inductive value : Type :=
| NaN
| Inf (negative : bool)
| Finite (q : Q).

Definition value_of (x : PrimFloat.float) : value :=
  match FloatOps.Prim2SF x with
  | SpecFloat.S754_zero _ => Finite 0
  | SpecFloat.S754_infinity s => Inf s
  | SpecFloat.S754_nan => NaN
  | SpecFloat.S754_finite s m e =>
      Finite (inject_Z (if s then Z.neg m else Z.pos m) * 2 ^ e)
  end.

(** [n <= x] for an [int] and a [float]: the comparison of the two
    numbers, exact; with [nan] it is [False]. *)
Definition int_le (n : Z) (x : PrimFloat.float) : bool :=
  match value_of x with
  | NaN => false
  | Inf negative => negb negative
  | Finite q => Qle_bool (inject_Z n) q
  end.

(** [n > x] *)
Definition int_gt (n : Z) (x : PrimFloat.float) : bool :=
  match value_of x with
  | NaN => false
  | Inf negative => negative
  | Finite q => negb (Qle_bool (inject_Z n) q)
  end.

(** The double [m * 2 ** e], for [abs(m) < 2 ** 53] *)
Definition dyadic (m e : Z) : PrimFloat.float :=
  match m with
  | Z0 => FloatOps.SF2Prim (SpecFloat.S754_zero false)
  | Zpos p => FloatOps.SF2Prim (SpecFloat.S754_finite false p e)
  | Zneg p => FloatOps.SF2Prim (SpecFloat.S754_finite true p e)
  end.

(** [float(1024)] and the literal [0.8], the double
    [0x1.999999999999ap-1] *)
Definition f1024 : PrimFloat.float := Eval cbv in dyadic 1024 0.

Definition point_eight : PrimFloat.float :=
  Eval cbv in dyadic 7205759403792794 (-53).

End PyFloat.

(** ** Strings *)

Module PyStr.

Definition LF : ascii := "010"%char.
Definition CR : ascii := "013"%char.

Definition len (s : string) : Z := Z.of_nat (String.length s).

(** [s[:n]] for [n >= 0] *)
Definition take (n : nat) (s : string) : string := substring 0 n s.

Fixpoint drop (n : nat) (s : string) : string :=
  match n, s with
  | O, _ => s
  | S n', String _ s' => drop n' s'
  | S _, EmptyString => EmptyString
  end.

Definition endswith (s suffix : string) : bool :=
  (String.length suffix <=? String.length s)%nat
  && (drop (String.length s - String.length suffix) s =? suffix)%string.

Definition startswith (s p : string) : bool := String.prefix p s.

Fixpoint zeros (n : nat) : string :=
  match n with
  | O => EmptyString
  | S n' => String "0" (zeros n')
  end.

(** [d.rjust(w, "0")] *)
Definition zfill (w : nat) (d : string) : string :=
  zeros (w - String.length d) ++ d.

Definition decimal (n : N) : string :=
  NilZero.string_of_uint (N.to_uint n).

(** [f"{n:03d}"]: the sign counts in the width. *)
Definition format_03d (n : Z) : string :=
  if n <? 0 then String "-" (zfill 2 (decimal (Z.abs_N n)))
  else zfill 3 (decimal (Z.abs_N n)).

(** The rest of [s] after the prefix [p], when [s.startswith(p)]. *)
Fixpoint strip_prefix (p s : string) : option string :=
  match p, s with
  | EmptyString, _ => Some s
  | String a p', String b s' =>
      if Ascii.eqb a b then strip_prefix p' s' else None
  | String _ _, EmptyString => None
  end.

(** [int(s)] on a string of decimal digits *)
Definition parse_decimal (s : string) : option N :=
  option_map N.of_uint (NilZero.uint_of_string s).

(** [c.isspace()] on the code points below 256 *)
Definition isspace (c : ascii) : bool :=
  let n := nat_of_ascii c in
  ((9 <=? n) && (n <=? 13) || (28 <=? n) && (n <=? 32)
   || (n =? 133) || (n =? 160))%nat.

Fixpoint lstrip (s : string) : string :=
  match s with
  | EmptyString => EmptyString
  | String c s' => if isspace c then lstrip s' else s
  end.

Fixpoint rstrip (s : string) : string :=
  match s with
  | EmptyString => EmptyString
  | String c s' =>
      match rstrip s' with
      | EmptyString => if isspace c then EmptyString else String c EmptyString
      | String d t => String c (String d t)
      end
  end.

(** [s.strip()] *)
Definition strip (s : string) : string := lstrip (rstrip s).

(** Reading in text mode: [CR LF] and a lone [CR] become [LF]. *)
Fixpoint universal_newlines (s : string) : string :=
  match s with
  | EmptyString => EmptyString
  | String c rest =>
      if Ascii.eqb c CR then
        match rest with
        | String d rest' =>
            if Ascii.eqb d LF then String LF (universal_newlines rest')
            else String LF (universal_newlines rest)
        | EmptyString => String LF EmptyString
        end
      else String c (universal_newlines rest)
  end.

(** [for line in f]: the lines of a text, each with its [LF]. *)
Fixpoint readlines (s : string) : list string :=
  match s with
  | EmptyString => []
  | String c rest =>
      if Ascii.eqb c LF then String LF EmptyString :: readlines rest
      else match readlines rest with
           | [] => [String c EmptyString]
           | l :: ls => String c l :: ls
           end
  end.

(** The line boundaries of [str.splitlines] below 256 *)
Definition islinebreak (c : ascii) : bool :=
  let n := nat_of_ascii c in
  ((10 <=? n) && (n <=? 13) || (28 <=? n) && (n <=? 30) || (n =? 133))%nat.

(** [s.splitlines()]: the lines without their ends, [CR LF] is one end. *)
Fixpoint splitlines (s : string) : list string :=
  match s with
  | EmptyString => []
  | String c rest =>
      if islinebreak c then
        match rest with
        | String d rest' =>
            if Ascii.eqb c CR && Ascii.eqb d LF
            then EmptyString :: splitlines rest'
            else EmptyString :: splitlines rest
        | EmptyString => [EmptyString]
        end
      else match splitlines rest with
           | [] => [String c EmptyString]
           | l :: ls => String c l :: ls
           end
  end.

(** [LF.join(ls) + LF] *)
Definition join_lines (ls : list string) : string :=
  String.concat (String LF EmptyString) ls ++ String LF EmptyString.

(** [all(p(c) for c in s)] *)
Fixpoint all_chars (p : ascii -> bool) (s : string) : bool :=
  match s with
  | EmptyString => true
  | String c s' => p c && all_chars p s'
  end.

Definition not_cr (c : ascii) : bool := negb (Ascii.eqb c CR).

Definition not_newline (c : ascii) : bool :=
  negb (Ascii.eqb c LF) && negb (Ascii.eqb c CR).

(** Bytes of the UTF-8 encoding *)
Fixpoint utf8_len (s : string) : Z :=
  match s with
  | EmptyString => 0
  | String c s' =>
      (if (nat_of_ascii c <? 128)%nat then 1 else 2) + utf8_len s'
  end.

(** [Path.stem] of a file name: the name without its last suffix. *)
Fixpoint last_dot (s : string) : option nat :=
  match s with
  | EmptyString => None
  | String c r =>
      match last_dot r with
      | Some i => Some (S i)
      | None => if Ascii.eqb c "." then Some O else None
      end
  end.

Definition stem (name : string) : string :=
  match last_dot name with
  | Some i =>
      if ((0 <? i) && (i <? String.length name - 1))%nat
      then take i name else name
  | None => name
  end.

(** [sorted(set(l))] *)
Fixpoint insert_str (s : string) (l : list string) : list string :=
  match l with
  | [] => [s]
  | t :: l' =>
      match String.compare s t with
      | Lt => s :: l
      | Eq => l
      | Gt => t :: insert_str s l'
      end
  end.

Definition sorted_set (l : list string) : list string :=
  fold_right insert_str [] l.

(** [c.lower()], for a character below 256: the capital letters of ASCII
    and of Latin-1 (the multiplication sign apart) move by 32. *)
Definition lower_char (c : ascii) : ascii :=
  let n := nat_of_ascii c in
  if ((65 <=? n) && (n <=? 90)
      || (192 <=? n) && (n <=? 222) && negb (n =? 215))%nat
  then ascii_of_nat (n + 32) else c.

(** [s.lower()] *)
Fixpoint lower (s : string) : string :=
  match s with
  | EmptyString => EmptyString
  | String c s' => String (lower_char c) (lower s')
  end.

(** [sub in s] *)
Fixpoint contains (sub s : string) : bool :=
  startswith s sub
  || match s with
     | EmptyString => false
     | String _ s' => contains sub s'
     end.

End PyStr.

(** ** The writer: class [AgentLogger] *)

Module Writer.

(** The fields [log] reads or writes; [_log_file] stands for the content
    of the session's file. *)
Record AgentLogger : Type := mkLogger {
  session_id : string;
  agent_id : string;
  _seq : Z;
  _log_file : string
}.

Definition _next_correlation_id (self : AgentLogger)
  : AgentLogger * string :=
  let seq' := _seq self + 1 in
  (mkLogger (session_id self) (agent_id self) seq' (_log_file self),
   "corr_" ++ session_id self ++ "_" ++ PyStr.format_03d seq').

(** The first statement of [log] *)
Definition truncated (msg : string) : string :=
  if 100 <? PyStr.len msg then PyStr.take 97 msg ++ "..." else msg.

(** [cid or self._next_correlation_id()] *)
Definition correlation (self : AgentLogger) (cid : pyval)
  : AgentLogger * pyval :=
  if truthy cid then (self, cid)
  else let '(self', c) := _next_correlation_id self in (self', PStr c).

(** The record [log] builds; [ts] is what [self._now()] returns. *)
Definition entry (self : AgentLogger) (ts lvl evt msg : string)
    (cid : pyval) (kwargs : dict) : dict :=
  dict_update
    [("ts", PStr ts); ("lvl", PStr lvl);
     ("cid", snd (correlation self cid)); ("aid", PStr (agent_id self));
     ("evt", PStr evt); ("msg", PStr (truncated msg))]
    kwargs.

Section Log.

(** [json.dumps(entry, separators=(",", ":"))] *)
Variable json_dumps : dict -> string.

(** The body of [log]; [cid] is [PNone] when the caller passes none.
    It returns the writer after the call and the correlation id. *)
Definition log (self : AgentLogger) (ts lvl evt msg : string)
    (cid : pyval) (kwargs : dict) : AgentLogger * pyval :=
  let '(self', correlation_id) := correlation self cid in
  (mkLogger (session_id self') (agent_id self') (_seq self')
     (_log_file self'
      ++ json_dumps (entry self ts lvl evt msg cid kwargs)
      ++ String PyStr.LF EmptyString),
   correlation_id).

(** Binding the keywords of a call [self.log(lvl, evt, msg, **kw)]: a
    repeated keyword or one that names a filled parameter is a
    [TypeError], [cid] goes to the keyword-only parameter, the others to
    [**kwargs]. *)
Definition bind_log (kw : dict) : result (pyval * dict) :=
  if negb (bindable ["self"; "lvl"; "evt"; "msg"] kw) then Raise TypeError
  else Ok (dict_get_default kw "cid" PNone,
           filter (fun kv => negb (fst kv =? "cid")%string) kw).

Definition call_log (self : AgentLogger) (ts lvl evt msg : string)
    (kw : dict) : result (AgentLogger * pyval) :=
  match bind_log kw with
  | Raise e => Raise e
  | Ok (cid, kwargs) => Ok (log self ts lvl evt msg cid kwargs)
  end.

(** The keywords [escalation] hands to [log]. *)
Definition escalation_keywords (severity : string)
    (context : option string) (kwargs : dict) : dict :=
  let extra := [("severity", PStr severity)] in
  let extra :=
    match context with
    | Some c =>
        if truthy (PStr c) then dict_set extra "context" (PStr c)
        else extra
    | None => extra
    end in
  (extra ++ kwargs)%list.

Definition escalation_level (severity : string) : string :=
  if (severity =? "security")%string then "error" else "warn".

(** [escalation(reason, *, severity="blocked", context=None, **kwargs)] *)
Definition escalation (self : AgentLogger) (ts : string)
    (reason : string) (severity : string) (context : option string)
    (kwargs : dict) : result (AgentLogger * pyval) :=
  if negb (bindable ["self"; "reason"; "severity"; "context"] kwargs)
  then Raise TypeError
  else
    call_log self ts (escalation_level severity) "escalation.raised" reason
      (escalation_keywords severity context kwargs).

(** A session: calls of [log] one after the other, each with its
    timestamp and arguments; the result lists the returned ids. *)
Record call : Type := mkCall {
  c_ts : string;
  c_lvl : string;
  c_evt : string;
  c_msg : string;
  c_cid : pyval;
  c_kwargs : dict
}.

Fixpoint run (self : AgentLogger) (calls : list call)
  : AgentLogger * list pyval :=
  match calls with
  | [] => (self, [])
  | c :: rest =>
      let '(self', id) :=
        log self (c_ts c) (c_lvl c) (c_evt c) (c_msg c) (c_cid c)
          (c_kwargs c) in
      let '(self'', ids) := run self' rest in
      (self'', id :: ids)
  end.

(** The logging methods.  As for [escalation], [kwargs] holds the
    keywords of the call besides those written for the named
    parameters: one of them that names a parameter is a second value
    for it, a [TypeError]. *)

(** The statement [if v: extra[k] = v] of the methods below *)
Definition set_if_truthy (extra : dict) (k : string) (v : pyval) : dict :=
  if truthy v then dict_set extra k v else extra.

(** [log_pre_tool(tool_name, tool_input)]; [tool_input] is given by
    [str(tool_input)]. *)
Definition log_pre_tool (self : AgentLogger) (ts tool_name : string)
    (tool_input : string) : AgentLogger * pyval :=
  log self ts "debug" "hook.pre_tool" ("Executing " ++ tool_name) PNone
    [("tool_name", PStr tool_name);
     ("tool_input", PStr (PyStr.take 500 tool_input))].

(** [log_post_tool(tool_name, tool_result, duration_ms=None)];
    [tool_result] is given by [str(tool_result)]. *)
Definition log_post_tool (self : AgentLogger) (ts tool_name : string)
    (tool_result : string) (duration_ms : option Z) : AgentLogger * pyval :=
  let extra := [("tool_name", PStr tool_name)] in
  let extra :=
    match duration_ms with
    | Some d => dict_set extra "duration_ms" (PInt d)
    | None => extra
    end in
  log self ts "debug" "hook.post_tool" ("Completed " ++ tool_name) PNone
    (("tool_result", PStr (PyStr.take 500 tool_result)) :: extra).

(** [task_started(description, **kwargs)] *)
Definition task_started (self : AgentLogger) (ts description : string)
    (kwargs : dict) : result (AgentLogger * pyval) :=
  if negb (bindable ["self"; "description"] kwargs) then Raise TypeError
  else call_log self ts "info" "task.started" description kwargs.

(** [task_completed(description, **kwargs)] *)
Definition task_completed (self : AgentLogger) (ts description : string)
    (kwargs : dict) : result (AgentLogger * pyval) :=
  if negb (bindable ["self"; "description"] kwargs) then Raise TypeError
  else call_log self ts "info" "task.completed" description kwargs.

(** [decision_made(decision, *, rationale=None, alternatives=None,
    thinking_budget=None, **kwargs)] *)
Definition decision_made (self : AgentLogger) (ts decision : string)
    (rationale alternatives thinking_budget : pyval) (kwargs : dict)
  : result (AgentLogger * pyval) :=
  if negb (bindable ["self"; "decision"; "rationale"; "alternatives";
                     "thinking_budget"] kwargs)
  then Raise TypeError
  else
    let extra := [] in
    let extra := set_if_truthy extra "rationale" rationale in
    let extra := set_if_truthy extra "alternatives" alternatives in
    let extra := set_if_truthy extra "thinking_budget" thinking_budget in
    call_log self ts "info" "decision.made" decision (extra ++ kwargs)%list.

(** [agent_spawned(child_agent_id, *, task=None, thinking_trigger=None,
    **kwargs)] *)
Definition agent_spawned (self : AgentLogger) (ts child_agent_id : string)
    (task thinking_trigger : pyval) (kwargs : dict)
  : result (AgentLogger * pyval) :=
  if negb (bindable ["self"; "child_agent_id"; "task"; "thinking_trigger"]
             kwargs)
  then Raise TypeError
  else
    let msg := "Spawned " ++ child_agent_id in
    let extra := [("child_aid", PStr child_agent_id)] in
    let extra := set_if_truthy extra "task" task in
    let extra := set_if_truthy extra "thinking_trigger" thinking_trigger in
    call_log self ts "info" "agent.spawned" msg (extra ++ kwargs)%list.

(** [handoff(target_agent_id, *, critical_decisions=None,
    open_questions=None, files_to_review=None, summary_tokens=None,
    **kwargs)] *)
Definition handoff (self : AgentLogger) (ts target_agent_id : string)
    (critical_decisions open_questions files_to_review summary_tokens : pyval)
    (kwargs : dict) : result (AgentLogger * pyval) :=
  if negb (bindable ["self"; "target_agent_id"; "critical_decisions";
                     "open_questions"; "files_to_review"; "summary_tokens"]
             kwargs)
  then Raise TypeError
  else
    let msg := "Handoff to " ++ target_agent_id in
    let extra := [("target_aid", PStr target_agent_id)] in
    let extra := set_if_truthy extra "critical_decisions" critical_decisions in
    let extra := set_if_truthy extra "open_questions" open_questions in
    let extra := set_if_truthy extra "files_to_review" files_to_review in
    let extra := set_if_truthy extra "summary_tokens" summary_tokens in
    call_log self ts "info" "handoff.initiated" msg (extra ++ kwargs)%list.

(** [__enter__]: the record of the session's start; the writer itself is
    returned. *)
Definition __enter__ (self : AgentLogger) (ts : string) : AgentLogger :=
  fst (log self ts "info" "hook.session_start"
         ("Session " ++ session_id self ++ " started") PNone []).

(** [__exit__(exc_type, exc_val, exc_tb)]: [exc] is [None] when the block
    ended normally, else [exc_type.__name__] and [str(exc_val)];
    [duration_ms] is the time since the writer's [_start_time].  The
    result [False] lets the exception go on. *)
Definition __exit__ (self : AgentLogger) (ts : string)
    (exc : option (string * string)) (duration_ms : Z)
  : AgentLogger * bool :=
  match exc with
  | Some (exc_name, exc_str) =>
      (fst (log self ts "error" "hook.session_end"
              ("Session ended with error: " ++ exc_name) PNone
              [("error", PStr exc_str); ("duration_ms", PInt duration_ms)]),
       false)
  | None =>
      (fst (log self ts "info" "hook.session_end"
              ("Session " ++ session_id self ++ " ended") PNone
              [("duration_ms", PInt duration_ms)]),
       false)
  end.

End Log.

(** The ids that the writer generated: those returned to the calls
    that passed no id of their own. *)
Definition generated (calls : list call) (ids : list pyval) : list pyval :=
  map snd
    (filter (fun ci => negb (truthy (c_cid (fst ci)))) (combine calls ids)).

(** The numeric suffix of a generated id of session [sid] *)
Definition numeric_suffix (sid : string) (id : pyval) : option N :=
  match id with
  | PStr s =>
      match PyStr.strip_prefix ("corr_" ++ sid ++ "_") s with
      | Some d => PyStr.parse_decimal d
      | None => None
      end
  | _ => None
  end.

(** The records that the calls of a session serialise, in order. *)
Fixpoint run_entries (self : AgentLogger) (calls : list call) : list dict :=
  match calls with
  | [] => []
  | c :: rest =>
      entry self (c_ts c) (c_lvl c) (c_evt c) (c_msg c) (c_cid c)
        (c_kwargs c)
      :: run_entries (fst (correlation self (c_cid c))) rest
  end.

(** The text that writing the lines one after the other appends. *)
Definition written (lines : list string) : string :=
  String.concat "" (map (fun l => l ++ String PyStr.LF EmptyString) lines).

End Writer.

(** ** The log directory *)

(** A file is known by its directory's name and its own name. *)
Definition path : Type := (string * string)%type.

Record file : Type := mkFile {
  parent_name : string;
  name : string;
  st_mtime : Z;
  content : string
}.

(** [st_dirs]: the directories right under the log directory;
    [st_files]: every file below it, in the order of [rglob]. *)
Record store : Type := mkStore {
  st_dirs : list string;
  st_files : list file
}.

Record os : Type := mkOs {
  unlink_ok : path -> bool;
  rmdir_ok : string -> bool;
  open_ok : path -> bool
}.

Definition path_of (f : file) : path := (parent_name f, name f).

Definition path_eqb (p q : path) : bool :=
  (fst p =? fst q)%string && (snd p =? snd q)%string.

(** [f.stat().st_size] *)
Definition st_size (f : file) : Z := PyStr.utf8_len (content f).

(** [f in l], on paths *)
Definition file_in (f : file) (l : list file) : bool :=
  existsb (fun g => path_eqb (path_of f) (path_of g)) l.

(** [sum(f.stat().st_size for f in l)] *)
Definition total_size (l : list file) : Z :=
  fold_right (fun f acc => st_size f + acc) 0 l.

Definition is_jsonl (f : file) : bool := PyStr.endswith (name f) ".jsonl".

(** [log_dir.rglob("*.jsonl")] *)
Definition rglob (st : store) : list file := filter is_jsonl (st_files st).

(** [sorted(l, key=lambda f: f.stat().st_mtime)], a stable sort *)
Fixpoint insert_by_mtime (f : file) (l : list file) : list file :=
  match l with
  | [] => [f]
  | g :: l' =>
      if st_mtime f <=? st_mtime g then f :: l
      else g :: insert_by_mtime f l'
  end.

Definition sorted_by_mtime (l : list file) : list file :=
  fold_right insert_by_mtime [] l.

(** [l[:e]] *)
Definition slice_to (A : Type) (e : Z) (l : list A) : list A :=
  if e <? 0 then firstn (Z.to_nat (Z.of_nat (List.length l) + e)) l
  else firstn (Z.to_nat e) l.

Arguments slice_to {A} e l.

(** [int(n * 0.8)]: the product truncated towards zero *)
Definition int_80_percent (n : Z) : Z := Z.quot (n * 4) 5.

(** [f.unlink()] for each candidate, failures passed over; the result
    is the files left and the number of successes. *)
Fixpoint unlink_all (o : os) (fs : list file) (cands : list file)
    (deleted : Z) : list file * Z :=
  match cands with
  | [] => (fs, deleted)
  | f :: rest =>
      if unlink_ok o (path_of f) && file_in f fs
      then unlink_all o
             (filter (fun g => negb (path_eqb (path_of f) (path_of g))) fs)
             rest (deleted + 1)
      else unlink_all o fs rest deleted
  end.

(** The last loop of a clean-up: an empty directory is removed. *)
Definition remove_empty_dirs (o : os) (ds : list string) (fs : list file)
  : list string :=
  filter
    (fun d =>
       negb (negb (existsb (fun f => (parent_name f =? d)%string) fs)
             && rmdir_ok o d))
    ds.

(** ** The library: [get_log_stats], [cleanup_logs],
    [compact_old_sessions] *)

Module Lib.

Section Stats.

(** [round(x, 2)] *)
Variable round2 : Q -> Q.

Definition get_log_stats (log_dir : option store) : dict :=
  match log_dir with
  | None =>
      [("total_files", PInt 0); ("total_size_bytes", PInt 0);
       ("total_size_mb", PFloat 0); ("oldest_date", PNone);
       ("newest_date", PNone)]
  | Some st =>
      let files := rglob st in
      let total := total_size files in
      let dates :=
        PyStr.sorted_set
          (filter (fun d => PyStr.startswith d "20")
             (map parent_name files)) in
      [("total_files", PInt (Z.of_nat (List.length files)));
       ("total_size_bytes", PInt total);
       ("total_size_mb",
        PFloat (round2 (inject_Z total / inject_Z (1024 * 1024))));
       ("oldest_date",
        match dates with d :: _ => PStr d | [] => PNone end);
       ("newest_date",
        match rev dates with d :: _ => PStr d | [] => PNone end);
       ("dates", PList (map PStr dates))]
  end.

End Stats.

(** The reason strings of [cleanup_logs], by their format. *)
Inductive reason : Type :=
| older_than_days (retention_days : Z)
| over_size_limit (max_size_mb : PrimFloat.float)
| over_file_limit (max_files : Z).

(** The list [files_to_delete] and the dictionary [reasons]. *)
Record marks : Type := mkMarks {
  files_to_delete : list file;
  reasons : list (path * reason)
}.

Fixpoint reasons_set (d : list (path * reason)) (p : path) (r : reason)
  : list (path * reason) :=
  match d with
  | [] => [(p, r)]
  | (q, r') :: d' =>
      if path_eqb q p then (q, r) :: d' else (q, r') :: reasons_set d' p r
  end.

Definition mark (m : marks) (f : file) (r : reason) : marks :=
  mkMarks (files_to_delete m ++ [f])%list
          (reasons_set (reasons m) (path_of f) r).

(** 1. Mark files older than retention period *)
Fixpoint age_stage (cutoff_str : string) (retention_days : Z)
    (all_files : list file) (m : marks) : marks :=
  match all_files with
  | [] => m
  | f :: rest =>
      if (parent_name f <? cutoff_str)%string
      then age_stage cutoff_str retention_days rest
             (mark m f (older_than_days retention_days))
      else age_stage cutoff_str retention_days rest m
  end.

(** The loop of stage 2 over [remaining], with its [break]. *)
Fixpoint size_loop (max_size_mb max_size_bytes : PrimFloat.float)
    (remaining : list file) (current_size : Z) (m : marks) : marks :=
  match remaining with
  | [] => m
  | f :: rest =>
      if PyFloat.int_le current_size
           (PrimFloat.mul max_size_bytes PyFloat.point_eight)
      then m
      else if negb (file_in f (files_to_delete m))
      then size_loop max_size_mb max_size_bytes rest
             (current_size - st_size f)
             (mark m f (over_size_limit max_size_mb))
      else size_loop max_size_mb max_size_bytes rest current_size m
  end.

(** 2. Check total size and mark oldest files if over limit *)
Definition size_stage (max_size_mb : PrimFloat.float)
    (all_files : list file) (m : marks) : marks :=
  let total := total_size all_files in
  let max_size_bytes :=
    PrimFloat.mul (PrimFloat.mul max_size_mb PyFloat.f1024) PyFloat.f1024 in
  if PyFloat.int_gt total max_size_bytes then
    let remaining :=
      filter (fun f => negb (file_in f (files_to_delete m))) all_files in
    size_loop max_size_mb max_size_bytes remaining (total_size remaining) m
  else m.

Fixpoint count_loop (max_files : Z) (excess : list file) (m : marks)
  : marks :=
  match excess with
  | [] => m
  | f :: rest =>
      if negb (file_in f (files_to_delete m))
      then count_loop max_files rest (mark m f (over_file_limit max_files))
      else count_loop max_files rest m
  end.

(** 3. Check file count and mark oldest if over limit *)
Definition count_stage (max_files : Z) (all_files : list file)
    (m : marks) : marks :=
  let remaining :=
    filter (fun f => negb (file_in f (files_to_delete m))) all_files in
  if max_files <? Z.of_nat (List.length remaining) then
    let excess :=
      Z.of_nat (List.length remaining) - int_80_percent max_files in
    count_loop max_files (slice_to excess remaining) m
  else m.

(** The three stages, on the files sorted by modification time. *)
Definition select (cutoff_str : string) (retention_days : Z)
    (max_size_mb : PrimFloat.float) (max_files : Z) (st : store) : marks :=
  let all_files := sorted_by_mtime (rglob st) in
  count_stage max_files all_files
    (size_stage max_size_mb all_files
       (age_stage cutoff_str retention_days all_files (mkMarks [] []))).

(** The dictionary [cleanup_logs] returns; [reason] is the key of the
    early return. *)
Record report : Type := mkReport {
  deleted_files : Z;
  freed_bytes : Z;
  files : list path;
  report_reasons : list (path * reason);
  reason_key : option string
}.

Section Cleanup.

Variable o : os.

(** [cutoff_str] is the local of that name: the date [retention_days]
    days before the call, as [YYYY-MM-DD]. *)
Definition cleanup_logs (log_dir : option store) (cutoff_str : string)
    (retention_days : Z) (max_size_mb : PrimFloat.float) (max_files : Z)
    (dry_run : bool) : option store * report :=
  match log_dir with
  | None => (None, mkReport 0 0 [] [] (Some "no_logs"))
  | Some st =>
      let m :=
        select cutoff_str retention_days max_size_mb max_files st in
      let freed := total_size (files_to_delete m) in
      if dry_run then
        (Some st,
         mkReport (Z.of_nat (List.length (files_to_delete m))) freed
           (map path_of (files_to_delete m)) (reasons m) None)
      else
        let '(fs, deleted) :=
          unlink_all o (st_files st) (files_to_delete m) 0 in
        (Some (mkStore (remove_empty_dirs o (st_dirs st) fs) fs),
         mkReport deleted freed [] [] None)
  end.

End Cleanup.

(** Events to preserve (critical for memory) *)
Definition preserve_events : list string :=
  ["decision.made"; "escalation.raised"; "handoff.initiated";
   "hook.session_start"; "hook.session_end";
   "task.started"; "task.completed"; "context.compacted"].

(** [evt in preserve_events]: a list or a dictionary cannot be hashed. *)
Definition in_set (v : pyval) (s : list string) : result bool :=
  match v with
  | PStr x => Ok (mem_string x s)
  | PList _ | PDict _ => Raise TypeError
  | _ => Ok false
  end.

(** [lvl in ("error", "fatal", "warn")] *)
Definition in_tuple (v : pyval) (t : list string) : bool :=
  match v with
  | PStr x => mem_string x t
  | _ => false
  end.

(** The test on a parsed line; [entry.get] needs a dictionary. *)
Definition keep (entry : pyval) : result bool :=
  match entry with
  | PDict d =>
      let evt := dict_get_default d "evt" (PStr "") in
      let lvl := dict_get_default d "lvl" (PStr "") in
      match in_set evt preserve_events with
      | Raise e => Raise e
      | Ok true => Ok true
      | Ok false => Ok (in_tuple lvl ["error"; "fatal"; "warn"])
      end
  | _ => Raise AttributeError
  end.

Section Compaction.

(** [json.loads]; [None] is a [JSONDecodeError]. *)
Variable json_loads : string -> option pyval.

Variable o : os.

(** The clock, for the modification time of a rewritten file *)
Variable now : Z.

(** The loop over the lines of one file: [preserved_lines]. *)
Fixpoint scan (lines : list string) : result (list string) :=
  match lines with
  | [] => Ok []
  | line :: rest =>
      let line := PyStr.strip line in
      if (line =? "")%string then scan rest
      else
        match json_loads line with
        | None => scan rest
        | Some entry =>
            match keep entry with
            | Raise e => Raise e
            | Ok k =>
                match scan rest with
                | Raise e => Raise e
                | Ok ls => Ok (if k then line :: ls else ls)
                end
            end
        end
  end.

Definition preserved_lines (log_file : file) : result (list string) :=
  scan (PyStr.readlines (PyStr.universal_newlines (content log_file))).

(** The tests that skip a file *)
Definition eligible (cutoff_str : string) (log_file : file) : bool :=
  (parent_name log_file <? cutoff_str)%string
  && negb (PyStr.endswith (PyStr.stem (name log_file)) "_compacted").

(** The body of the loop for one file of [rglob]: [Ok None] when the
    file is passed over or kept as it is, [Ok (Some (f, d))] when it is
    rewritten as [f] and [d] bytes are saved. *)
Definition compact_file (cutoff_str : string) (dry_run : bool)
    (log_file : file) : result (option (file * Z)) :=
  if negb (eligible cutoff_str log_file) then Ok None
  else if negb (open_ok o (path_of log_file)) then Ok None
  else
    match preserved_lines log_file with
    | Raise e => Raise e
    | Ok [] => Ok None
    | Ok (l :: ls) =>
        if dry_run then Ok None
        else
          let f := mkFile (parent_name log_file) (name log_file) now
                     (PyStr.join_lines (l :: ls)) in
          Ok (Some (f, st_size log_file - st_size f))
    end.

Fixpoint compact_loop (cutoff_str : string) (dry_run : bool)
    (fs : list file) (compacted saved_bytes : Z)
  : list file * result (Z * Z) :=
  match fs with
  | [] => ([], Ok (compacted, saved_bytes))
  | f :: rest =>
      if negb (is_jsonl f) then
        let '(rest', r) :=
          compact_loop cutoff_str dry_run rest compacted saved_bytes in
        (f :: rest', r)
      else
        match compact_file cutoff_str dry_run f with
        | Raise e => (f :: rest, Raise e)
        | Ok None =>
            let '(rest', r) :=
              compact_loop cutoff_str dry_run rest compacted saved_bytes in
            (f :: rest', r)
        | Ok (Some (f', d)) =>
            let '(rest', r) :=
              compact_loop cutoff_str dry_run rest (compacted + 1)
                (saved_bytes + d) in
            (f' :: rest', r)
        end
  end.

(** [cutoff_str] is the local of that name: the date [days_threshold]
    days before the call.  The result pairs [compacted_files] with
    [saved_bytes]. *)
Definition compact_old_sessions (log_dir : option store)
    (cutoff_str : string) (dry_run : bool)
  : option store * result (Z * Z) :=
  match log_dir with
  | None => (None, Ok (0, 0))
  | Some st =>
      let '(fs, r) := compact_loop cutoff_str dry_run (st_files st) 0 0 in
      (Some (mkStore (st_dirs st) fs), r)
  end.

End Compaction.

End Lib.

(** ** The tool [cleanup-logs]: [cleanup], [compact] *)

Module Cli.

Inductive reason : Type :=
| older_than_d (retention_days : Z)
| size_limit
| file_limit.

(** The list [to_delete] and the dictionary [reasons]. *)
Record marks : Type := mkMarks {
  to_delete : list file;
  reasons : list (path * reason)
}.

Fixpoint reasons_set (d : list (path * reason)) (p : path) (r : reason)
  : list (path * reason) :=
  match d with
  | [] => [(p, r)]
  | (q, r') :: d' =>
      if path_eqb q p then (q, r) :: d' else (q, r') :: reasons_set d' p r
  end.

(** [reasons.get(f, "")] *)
Fixpoint reasons_get (d : list (path * reason)) (p : path)
  : option reason :=
  match d with
  | [] => None
  | (q, r) :: d' => if path_eqb q p then Some r else reasons_get d' p
  end.

Definition mark (m : marks) (f : file) (r : reason) : marks :=
  mkMarks (to_delete m ++ [f])%list (reasons_set (reasons m) (path_of f) r).

(** 1. Old files *)
Fixpoint age_stage (cutoff : string) (retention_days : Z)
    (files : list file) (m : marks) : marks :=
  match files with
  | [] => m
  | f :: rest =>
      if (parent_name f <? cutoff)%string
      then age_stage cutoff retention_days rest
             (mark m f (older_than_d retention_days))
      else age_stage cutoff retention_days rest m
  end.

Fixpoint size_loop (limit : PrimFloat.float) (remaining : list file)
    (total : Z) (m : marks) : marks :=
  match remaining with
  | [] => m
  | f :: rest =>
      if PyFloat.int_le total (PrimFloat.mul limit PyFloat.point_eight)
      then m
      else size_loop limit rest (total - st_size f) (mark m f size_limit)
  end.

(** 2. Size limit *)
Definition size_stage (max_size_mb : PrimFloat.float) (files : list file)
    (m : marks) : marks :=
  let remaining :=
    filter (fun f => negb (file_in f (to_delete m))) files in
  let total := total_size remaining in
  let limit :=
    PrimFloat.mul (PrimFloat.mul max_size_mb PyFloat.f1024) PyFloat.f1024 in
  if PyFloat.int_gt total limit
  then size_loop limit remaining total m
  else m.

Fixpoint count_loop (excess : list file) (m : marks) : marks :=
  match excess with
  | [] => m
  | f :: rest => count_loop rest (mark m f file_limit)
  end.

(** 3. File count limit *)
Definition count_stage (max_files : Z) (files : list file) (m : marks)
  : marks :=
  let remaining :=
    filter (fun f => negb (file_in f (to_delete m))) files in
  if max_files <? Z.of_nat (List.length remaining) then
    count_loop
      (slice_to (Z.of_nat (List.length remaining) - int_80_percent max_files)
         remaining)
      m
  else m.

Definition select (cutoff : string) (retention_days : Z)
    (max_size_mb : PrimFloat.float) (max_files : Z) (st : store) : marks :=
  let files := sorted_by_mtime (rglob st) in
  count_stage max_files files
    (size_stage max_size_mb files
       (age_stage cutoff retention_days files (mkMarks [] []))).

(** The dictionary [cleanup] returns; [freed] is the local from which
    [freed_kb] and [freed_mb] are rounded. *)
Record report : Type := mkReport {
  deleted : Z;
  freed : Z;
  files : list (path * option reason)
}.

Section Cleanup.

Variable o : os.

Definition cleanup (log_dir : option store) (cutoff : string)
    (retention_days : Z) (max_size_mb : PrimFloat.float) (max_files : Z)
    (dry_run : bool) : option store * report :=
  match log_dir with
  | None => (None, mkReport 0 0 [])
  | Some st =>
      let m := select cutoff retention_days max_size_mb max_files st in
      let freed := total_size (to_delete m) in
      let count := Z.of_nat (List.length (to_delete m)) in
      if dry_run then
        (Some st,
         mkReport count freed
           (map (fun f => (path_of f, reasons_get (reasons m) (path_of f)))
              (to_delete m)))
      else
        let '(fs, _) := unlink_all o (st_files st) (to_delete m) 0 in
        (Some (mkStore (remove_empty_dirs o (st_dirs st) fs) fs),
         mkReport count freed [])
  end.

End Cleanup.

(** Events to keep (critical memory) *)
Definition keep_events : list string :=
  ["decision.made"; "escalation.raised"; "handoff.initiated";
   "hook.session_start"; "hook.session_end";
   "task.started"; "task.completed"; "context.compacted"].

Definition keep (entry : pyval) : result bool :=
  match entry with
  | PDict d =>
      let evt := dict_get_default d "evt" (PStr "") in
      let lvl := dict_get_default d "lvl" (PStr "") in
      match Lib.in_set evt keep_events with
      | Raise e => Raise e
      | Ok true => Ok true
      | Ok false => Ok (Lib.in_tuple lvl ["error"; "fatal"; "warn"])
      end
  | _ => Raise AttributeError
  end.

Section Compaction.

Variable json_loads : string -> option pyval.

Variable o : os.

Variable now : Z.

(** The loop over [f.read_text().splitlines()]: [kept] holds the lines
    as they are read. *)
Fixpoint scan (lines : list string) : result (list string) :=
  match lines with
  | [] => Ok []
  | line :: rest =>
      if (PyStr.strip line =? "")%string then scan rest
      else
        match json_loads line with
        | None => scan rest
        | Some entry =>
            match keep entry with
            | Raise e => Raise e
            | Ok k =>
                match scan rest with
                | Raise e => Raise e
                | Ok ls => Ok (if k then line :: ls else ls)
                end
            end
        end
  end.

Definition kept (f : file) : result (list string) :=
  scan (PyStr.splitlines (PyStr.universal_newlines (content f))).

Definition eligible (cutoff : string) (f : file) : bool :=
  (parent_name f <? cutoff)%string
  && negb (PyStr.endswith (PyStr.stem (name f)) "_compacted").

Definition compact_file (cutoff : string) (dry_run : bool) (f : file)
  : result (option (file * Z)) :=
  if negb (eligible cutoff f) then Ok None
  else if negb (open_ok o (path_of f)) then Ok None
  else
    match kept f with
    | Raise e => Raise e
    | Ok [] => Ok None
    | Ok (l :: ls) =>
        if dry_run then Ok None
        else
          let f' := mkFile (parent_name f) (name f) now
                      (PyStr.join_lines (l :: ls)) in
          Ok (Some (f', st_size f - st_size f'))
    end.

Fixpoint compact_loop (cutoff : string) (dry_run : bool)
    (fs : list file) (compacted saved : Z)
  : list file * result (Z * Z) :=
  match fs with
  | [] => ([], Ok (compacted, saved))
  | f :: rest =>
      if negb (is_jsonl f) then
        let '(rest', r) :=
          compact_loop cutoff dry_run rest compacted saved in
        (f :: rest', r)
      else
        match compact_file cutoff dry_run f with
        | Raise e => (f :: rest, Raise e)
        | Ok None =>
            let '(rest', r) :=
              compact_loop cutoff dry_run rest compacted saved in
            (f :: rest', r)
        | Ok (Some (f', d)) =>
            let '(rest', r) :=
              compact_loop cutoff dry_run rest (compacted + 1) (saved + d) in
            (f' :: rest', r)
        end
  end.

(** The result pairs [compacted] with [saved], the local from which
    [saved_kb] is rounded. *)
Definition compact (log_dir : option store) (cutoff : string)
    (dry_run : bool) : option store * result (Z * Z) :=
  match log_dir with
  | None => (None, Ok (0, 0))
  | Some st =>
      let '(fs, r) := compact_loop cutoff dry_run (st_files st) 0 0 in
      (Some (mkStore (st_dirs st) fs), r)
  end.

End Compaction.

Section Stats.

(** [round(x, 2)] and [round(x, 1)] *)
Variable round2 round1 : Q -> Q.

(** The result of [get_stats] for a directory that is missing or holds
    no log file. *)
Definition no_logs : dict :=
  [("files", PInt 0); ("size_mb", PInt 0); ("oldest", PNone);
   ("newest", PNone)].

Definition get_stats (log_dir : option store) : dict :=
  match log_dir with
  | None => no_logs
  | Some st =>
      let files := rglob st in
      match files with
      | [] => no_logs
      | _ :: _ =>
          let total := total_size files in
          let dates :=
            PyStr.sorted_set
              (filter (fun d => PyStr.startswith d "20")
                 (map parent_name files)) in
          [("files", PInt (Z.of_nat (List.length files)));
           ("size_mb",
            PFloat (round2 (inject_Z total / inject_Z (1024 * 1024))));
           ("size_kb", PFloat (round1 (inject_Z total / inject_Z 1024)));
           ("oldest",
            match dates with d :: _ => PStr d | [] => PNone end);
           ("newest",
            match rev dates with d :: _ => PStr d | [] => PNone end);
           ("dates", PList (map PStr dates))]
      end
  end.

End Stats.

End Cli.

(** ** The [query-logs] tool: [find_logs] *)

Module QueryLogs.

(** [p < q] on the paths of two files that lie one directory below the
    log directory, where the writers put them: the order of the
    directories' names, then that of the files' names. *)
Definition path_ltb (p q : path) : bool :=
  match String.compare (fst p) (fst q) with
  | Lt => true
  | Eq => String.ltb (snd p) (snd q)
  | Gt => false
  end.

(** [sorted(l)], a stable sort *)
Fixpoint insert_by_path (f : file) (l : list file) : list file :=
  match l with
  | [] => [f]
  | g :: l' =>
      if path_ltb (path_of g) (path_of f) then g :: insert_by_path f l'
      else f :: l
  end.

Definition sorted_by_path (l : list file) : list file :=
  fold_right insert_by_path [] l.

(** [find_logs(log_dir, session_filter=None)] *)
Definition find_logs (log_dir : option store)
    (session_filter : option string) : list file :=
  match log_dir with
  | None => []
  | Some st =>
      let files := rglob st in
      let files :=
        match session_filter with
        | Some s =>
            if truthy (PStr s)
            then filter
                   (fun f =>
                      PyStr.contains (PyStr.lower s) (PyStr.lower (name f)))
                   files
            else files
        | None => files
        end in
      sorted_by_path files
  end.

End QueryLogs.

(** ** Sessions and hooks *)

Module Hooks.

Inductive HookType : Type :=
| PRE_TOOL
| POST_TOOL
| SESSION_START
| SESSION_END
| CONTEXT_COMPACT.

Definition HookType_eqb (a b : HookType) : bool :=
  match a, b with
  | PRE_TOOL, PRE_TOOL
  | POST_TOOL, POST_TOOL
  | SESSION_START, SESSION_START
  | SESSION_END, SESSION_END
  | CONTEXT_COMPACT, CONTEXT_COMPACT => true
  | _, _ => false
  end.

Section Registry.

(** The callables; the registry stores them and calls them, no more. *)
Variable Callable : Type.

(** [HookRegistry.hooks]: a [dict] in insertion order *)
Definition HookRegistry : Type := list (HookType * list Callable).

Fixpoint contains (hooks : HookRegistry) (t : HookType) : bool :=
  match hooks with
  | [] => false
  | (t', _) :: rest => HookType_eqb t' t || contains rest t
  end.

(** [hooks.get(t, [])] *)
Fixpoint get (hooks : HookRegistry) (t : HookType) : list Callable :=
  match hooks with
  | [] => []
  | (t', l) :: rest => if HookType_eqb t' t then l else get rest t
  end.

(** [hooks[t] = l] *)
Fixpoint set (hooks : HookRegistry) (t : HookType) (l : list Callable)
  : HookRegistry :=
  match hooks with
  | [] => [(t, l)]
  | (t', l') :: rest =>
      if HookType_eqb t' t then (t', l) :: rest
      else (t', l') :: set rest t l
  end.

(** [register(hook_type, callback)] *)
Definition register (self : HookRegistry) (hook_type : HookType)
    (callback : Callable) : HookRegistry :=
  let self := if contains self hook_type then self
              else set self hook_type [] in
  set self hook_type (get self hook_type ++ [callback])%list.

(** The callbacks that [trigger(hook_type)] calls, in the order of the
    calls. *)
Definition trigger (self : HookRegistry) (hook_type : HookType)
  : list Callable :=
  get self hook_type.

(** Registrations one after the other, from the empty registry. *)
Definition registered (calls : list (HookType * Callable)) : HookRegistry :=
  fold_left (fun self c => register self (fst c) (snd c)) calls [].

End Registry.

End Hooks.

Module Session.

(** [get_current_session()]: [current] is the module's
    [_current_session], [fresh] what [_generate_session_id] returns when
    it is called. *)
Definition get_current_session (fresh : string) (current : option string)
  : option string * string :=
  match current with
  | None => (Some fresh, fresh)
  | Some s => (current, s)
  end.

(** [set_current_session(session_id)] *)
Definition set_current_session (session_id : string)
    (current : option string) : option string :=
  Some session_id.

(** The files of the log directory that writers append to: path and
    content. *)
Definition files : Type := list (path * string).

Fixpoint read (fs : files) (p : path) : string :=
  match fs with
  | [] => ""
  | (q, s) :: rest => if path_eqb q p then s else read rest p
  end.

(** [open(p, "a")], the write and the close: the file is created when
    it is missing. *)
Fixpoint append (fs : files) (p : path) (s : string) : files :=
  match fs with
  | [] => [(p, s)]
  | (q, s') :: rest =>
      if path_eqb q p then (q, s' ++ s) :: rest
      else (q, s') :: append rest p s
  end.

(** A writer: the fields of [AgentLogger] with the path of its file. *)
Record writer : Type := mkWriter {
  w_session_id : string;
  w_agent_id : string;
  w_seq : Z;
  w_log_file : path
}.

(** [AgentLogger(session_id, agent_id)]: [date_str] is the day of the
    clock, the name of the directory of the writer's file
    ([_ensure_dir] creates it). *)
Definition __init__ (fresh date_str : string) (session_id : option string)
    (agent_id : string) (current : option string)
  : option string * writer :=
  let '(current', sid) :=
    match session_id with
    | None => get_current_session fresh current
    | Some s => (set_current_session s current, s)
    end in
  (current', mkWriter sid agent_id 0 (date_str, sid ++ ".jsonl")).

Section Log.

Variable json_dumps : dict -> string.

(** [log] of a writer, on the files: the record and the id are those of
    [Writer.log]; the line is appended to the writer's file. *)
Definition log (self : writer) (ts lvl evt msg : string) (cid : pyval)
    (kwargs : dict) (fs : files) : files * writer * pyval :=
  let '(w, id) :=
    Writer.log json_dumps
      (Writer.mkLogger (w_session_id self) (w_agent_id self) (w_seq self)
         "")
      ts lvl evt msg cid kwargs in
  (append fs (w_log_file self) (Writer._log_file w),
   mkWriter (w_session_id self) (w_agent_id self) (Writer._seq w)
     (w_log_file self),
   id).

End Log.

End Session.

(** ** The vocabulary of the statements

    [Spec.preserved] follows the words of the specification; the other
    definitions name what the loops above compute, so that the
    statements can speak of it. *)

Module Spec.

(** "A record is preserved iff its event_type is in the fixed
    preserve-set or its level is one of error, fatal, warn." *)
Definition preserved (event_type level : string) : bool :=
  mem_string event_type
    ["decision.made"; "escalation.raised"; "handoff.initiated";
     "hook.session_start"; "hook.session_end";
     "task.started"; "task.completed"; "context.compacted"]
  || mem_string level ["error"; "fatal"; "warn"].

(** A parsed line on which the test of the loop raises nothing: a
    dictionary whose [evt] can be hashed. *)
Definition is_record (entry : pyval) : bool :=
  match entry with
  | PDict d =>
      match dict_get_default d "evt" (PStr "") with
      | PList _ | PDict _ => false
      | _ => true
      end
  | _ => false
  end.


(** The lines that [compact_old_sessions] hands to [json.loads]. *)
Definition lib_lines (content : string) : list string :=
  filter (fun l => negb (l =? "")%string)
    (map PyStr.strip (PyStr.readlines (PyStr.universal_newlines content))).

(** The lines that [compact] hands to [json.loads]. *)
Definition cli_lines (content : string) : list string :=
  filter (fun l => negb (PyStr.strip l =? "")%string)
    (PyStr.splitlines (PyStr.universal_newlines content)).

Section Lines.

Variable json_loads : string -> option pyval.

(** Every line that parses is a record. *)
Definition records_only (lines : list string) : bool :=
  forallb
    (fun l => match json_loads l with
              | Some e => is_record e
              | None => true
              end)
    lines.

(** The line parses and passes the test of the loop. *)
Definition kept_line (line : string) : bool :=
  match json_loads line with
  | Some e => match Lib.keep e with Ok b => b | Raise _ => false end
  | None => false
  end.


(** A line as a scan of the library keeps it: not empty, stripped,
    without line ends, and passing the test. *)
Definition clean (l : string) : Prop :=
  l <> ""
  /\ PyStr.strip l = l
  /\ PyStr.all_chars PyStr.not_newline l = true
  /\ kept_line l = true.

(** The file after compaction: the kept lines when there are some, the
    file as it was otherwise. *)
Definition compacted_form (now : Z) (lines : list string) (f : file)
  : file :=
  match filter kept_line lines with
  | [] => f
  | l :: ls =>
      mkFile (parent_name f) (name f) now (PyStr.join_lines (l :: ls))
  end.


End Lines.

(** A call took the writer from [self] to [self']: it appended one
    record with the event type and the level given, and the test of
    both compaction loops on that record gives [k]. *)
Definition logged (json_dumps : dict -> string)
    (self self' : Writer.AgentLogger) (evt lvl : string) (k : bool) : Prop :=
  exists e,
    Writer._log_file self'
    = Writer._log_file self ++ json_dumps e ++ String PyStr.LF EmptyString
    /\ dict_get e "evt" = Some (PStr evt)
    /\ dict_get e "lvl" = Some (PStr lvl)
    /\ Lib.keep (PDict e) = Ok k
    /\ Cli.keep (PDict e) = Ok k.

(** The files of [files] that are not in the list [marked]:
    [[f for f in files if f not in marked]]. *)
Definition unmarked (marked files : list file) : list file :=
  filter (fun f => negb (file_in f marked)) files.

(** The doubles [max_size_mb * 1024 * 1024] and [... * 0.8] *)
Definition limit_bytes (max_size_mb : PrimFloat.float) : PrimFloat.float :=
  PrimFloat.mul (PrimFloat.mul max_size_mb PyFloat.f1024) PyFloat.f1024.

Definition target_bytes (max_size_mb : PrimFloat.float) : PrimFloat.float :=
  PrimFloat.mul (limit_bytes max_size_mb) PyFloat.point_eight.

(** The tests of the size stage: [total > limit], [total <= target] *)
Definition over_limit (max_size_mb : PrimFloat.float) (total : Z) : bool :=
  PyFloat.int_gt total (limit_bytes max_size_mb).

Definition within_target (max_size_mb : PrimFloat.float) (total : Z)
  : bool :=
  PyFloat.int_le total (target_bytes max_size_mb).

(** Where the loop of the size stage stops: [k] files are marked, the
    total of the others is within the target or none is left, and the
    total was above the target before each of the [k] files. *)
Definition stops_at (target : PrimFloat.float) (remaining : list file)
    (k : nat) : Prop :=
  (PyFloat.int_le (total_size (skipn k remaining)) target = true
   \/ skipn k remaining = [])
  /\ forall j, (j < k)%nat ->
       PyFloat.int_le (total_size (skipn j remaining)) target = false.

(** What the count stage adds to the marked files, [remaining] being
    the unmarked ones. *)
Definition count_excess (max_files : Z) (remaining : list file)
  : list file :=
  if max_files <? Z.of_nat (List.length remaining)
  then slice_to
         (Z.of_nat (List.length remaining) - int_80_percent max_files)
         remaining
  else [].

(** [f]'s modification time is not after [g]'s. *)
Definition not_newer (f g : file) : Prop := st_mtime f <= st_mtime g.

(** The files whose lines a pass reads. *)
Definition scanned (o : os) (cutoff : string) (f : file) : bool :=
  is_jsonl f
  && ((parent_name f <? cutoff)%string
      && negb (PyStr.endswith (PyStr.stem (name f)) "_compacted"))
  && open_ok o (path_of f).

Section Pass.

Variable lines_of : string -> list string.
Variable json_loads : string -> option pyval.
Variable o : os.
Variable now : Z.
Variable cutoff : string.

(** What a pass that is no dry run makes of a file. *)
Definition image (f : file) : file :=
  if scanned o cutoff f
  then compacted_form json_loads now (lines_of (content f)) f
  else f.




End Pass.

End Spec.

(** ** A codec for records with string fields

    The lines the writer produces for records whose fields are strings
    without quotes, backslashes or control characters, and their
    parser.  It instantiates [json_dumps] and [json_loads] where the
    model is run on a concrete file. *)

Module FlatJson.

Definition dq : ascii := "034"%char.

Definition quoted (s : string) : string :=
  String dq (s ++ String dq EmptyString).

Definition render (v : pyval) : string :=
  match v with
  | PStr s => quoted s
  | PInt z =>
      if z <? 0 then String "-" (PyStr.decimal (Z.abs_N z))
      else PyStr.decimal (Z.abs_N z)
  | PBool true => "true"
  | PBool false => "false"
  | _ => "null"
  end.

Fixpoint members (d : dict) : string :=
  match d with
  | [] => EmptyString
  | (k, v) :: d' =>
      quoted k ++ ":" ++ render v
      ++ match d' with
         | [] => EmptyString
         | _ :: _ => "," ++ members d'
         end
  end.

Definition dumps (d : dict) : string := "{" ++ members d ++ "}".

(** The text up to the closing quote, and what follows it. *)
Fixpoint read_quoted (s : string) : option (string * string) :=
  match s with
  | EmptyString => None
  | String c r =>
      if Ascii.eqb c dq then Some (EmptyString, r)
      else if Ascii.eqb c "\" || (nat_of_ascii c <? 32)%nat then None
      else match read_quoted r with
           | Some (t, r') => Some (String c t, r')
           | None => None
           end
  end.

Fixpoint read_members (fuel : nat) (s : string) (acc : dict)
  : option dict :=
  match fuel with
  | O => None
  | S fuel' =>
      match s with
      | String q r =>
          if negb (Ascii.eqb q dq) then None
          else
            match read_quoted r with
            | Some (k, String colon (String q2 r2)) =>
                if negb (Ascii.eqb colon ":" && Ascii.eqb q2 dq) then None
                else
                  match read_quoted r2 with
                  | Some (v, String sep r3) =>
                      if Ascii.eqb sep ","
                      then read_members fuel' r3 (dict_set acc k (PStr v))
                      else if Ascii.eqb sep "}" && (r3 =? "")%string
                      then Some (dict_set acc k (PStr v))
                      else None
                  | _ => None
                  end
            | _ => None
            end
      | EmptyString => None
      end
  end.

Definition loads (s : string) : option pyval :=
  if (s =? "[]")%string then Some (PList [])
  else
    match s with
    | String b r =>
        if negb (Ascii.eqb b "{") then None
        else if (r =? "}")%string then Some (PDict [])
        else option_map PDict (read_members (String.length s) r [])
    | EmptyString => None
    end.

End FlatJson.

(** ** Sample data

    Concrete writers, files and stores on which the model is run. *)

Module Sample.

Definition nl : string := String PyStr.LF EmptyString.

Definition everything_allowed : os :=
  mkOs (fun _ => true) (fun _ => true) (fun _ => true).

Definition writer : Writer.AgentLogger :=
  Writer.mkLogger "s1" "orch:default" 0 EmptyString.

(** A message of 120 characters *)
Definition long_message : string :=
  "0123456789012345678901234567890123456789012345678901234567890123456789012345678901234567890123456789ABCDEFGHIJKLMNOPQRST".

Definition debug_record : dict :=
  [("lvl", PStr "debug"); ("evt", PStr "hook.pre_tool"); ("msg", PStr "x")].

Definition decision_record : dict :=
  [("lvl", PStr "info"); ("evt", PStr "decision.made"); ("msg", PStr "y")].

(** A session with one debug trace and one decision *)
Definition session_file : file :=
  mkFile "2020-01-01" "s1.jsonl" 5
    (FlatJson.dumps debug_record ++ nl
     ++ FlatJson.dumps decision_record ++ nl).

Definition session_store : store :=
  mkStore ["2020-01-01"] [session_file].

(** A file whose only line is valid JSON but no record: a list. *)
Definition list_file : file := mkFile "2020-01-01" "s0.jsonl" 4 ("[]" ++ nl).

Definition store_with_list : store :=
  mkStore ["2020-01-01"] [list_file; session_file].

(** Two sessions: 50 bytes written on a day before the cutoff, 90 bytes
    written after it; a limit of 100 bytes, as megabytes. *)
Definition old_file : file :=
  mkFile "2020-01-01" "a.jsonl" 1 (PyStr.zeros 50).

Definition new_file : file :=
  mkFile "2020-01-09" "b.jsonl" 2 (PyStr.zeros 90).

Definition two_day_store : store :=
  mkStore ["2020-01-01"; "2020-01-09"] [old_file; new_file].

Definition hundred_bytes : PrimFloat.float :=
  Eval cbv in PyFloat.dyadic 100 (-20).

(** The sizes [50.0] and [-1.0] *)
Definition fifty : PrimFloat.float := Eval cbv in PyFloat.dyadic 50 0.

Definition minus_one : PrimFloat.float := Eval cbv in PyFloat.dyadic (-1) 0.

(** A third session, 30 bytes, the newest. *)
Definition third_file : file :=
  mkFile "2020-01-09" "c.jsonl" 3 (PyStr.zeros 30).

Definition three_file_store : store :=
  mkStore ["2020-01-01"; "2020-01-09"] [old_file; new_file; third_file].

(** The old session cannot be removed, everything else can. *)
Definition old_file_locked : os :=
  mkOs (fun p => negb (path_eqb p ("2020-01-01", "a.jsonl")))
       (fun _ => true) (fun _ => true).

(** Three calls of a session: a tool trace, a decision, and a warning
    that brings its own correlation id. *)
Definition session_calls : list Writer.call :=
  [Writer.mkCall "t1" "debug" "hook.pre_tool" "Executing ls" PNone
     [("tool_name", PStr "ls")];
   Writer.mkCall "t2" "info" "decision.made" "use sqlite" PNone [];
   Writer.mkCall "t3" "warn" "cache.miss" "slow" (PStr "c9") []].

(** A store that also holds a file that is no log file. *)
Definition notes_file : file := mkFile "2020-01-01" "notes.txt" 1 "keep".

Definition store_with_notes : store :=
  mkStore ["2020-01-01"; "2020-01-09"] [old_file; notes_file; new_file].

(** Session files whose names differ in case, out of order. *)
Definition mixed_case_store : store :=
  mkStore ["2020-01-01"; "2020-01-09"]
    [mkFile "2020-01-09" "Sess_B.jsonl" 2 EmptyString;
     mkFile "2020-01-01" "sess_a.jsonl" 1 EmptyString;
     mkFile "2020-01-01" "other.jsonl" 3 EmptyString].

(** Three recent sessions of 40 bytes each, and a limit just under 100
    bytes: the double [0x1.8ffffffffffffp-14] (written
    [9.536743164062499e-05] in Python), whose product with [1024 * 1024]
    is the double just below [100.0]. *)
Definition forty_a : file := mkFile "2020-01-09" "a.jsonl" 1 (PyStr.zeros 40).

Definition forty_b : file := mkFile "2020-01-09" "b.jsonl" 2 (PyStr.zeros 40).

Definition forty_c : file := mkFile "2020-01-09" "c.jsonl" 3 (PyStr.zeros 40).

Definition forty_store : store :=
  mkStore ["2020-01-09"] [forty_a; forty_b; forty_c].

Definition just_under_hundred_bytes : PrimFloat.float :=
  Eval cbv in PyFloat.dyadic 7036874417766399 (-66).

End Sample.

(** * Properties *)

(** ** Strings and dictionaries *)

Lemma length_take (n : nat) (s : string) :
  String.length (PyStr.take n s) = Nat.min n (String.length s).
Proof.
  unfold PyStr.take. revert s.
  induction n as [|n IH]; intros [|c s]; simpl; auto.
Qed.

Lemma length_append (s t : string) :
  String.length (s ++ t) = (String.length s + String.length t)%nat.
Proof. induction s; simpl; auto. Qed.

Lemma append_nil_r (s : string) : s ++ "" = s.
Proof. induction s; simpl; congruence. Qed.

Lemma append_assoc (s t u : string) : (s ++ t) ++ u = s ++ (t ++ u).
Proof. induction s; simpl; congruence. Qed.

Lemma take_append (n : nat) (s t : string) :
  (n <= String.length s)%nat -> PyStr.take n (s ++ t) = PyStr.take n s.
Proof.
  unfold PyStr.take. revert s.
  induction n as [|n IH]; intros [|c s] H; simpl in *; try lia.
  - destruct t; reflexivity.
  - reflexivity.
  - f_equal. apply IH. lia.
Qed.

Lemma take_take (n : nat) (s : string) :
  PyStr.take n (PyStr.take n s) = PyStr.take n s.
Proof.
  unfold PyStr.take. revert s.
  induction n as [|n IH]; intros [|c s]; simpl; auto.
  f_equal. apply IH.
Qed.

Lemma drop_append (s t : string) :
  PyStr.drop (String.length s) (s ++ t) = t.
Proof. induction s; simpl; auto. Qed.

Lemma mem_string_In (k : string) (l : list string) :
  mem_string k l = true <-> In k l.
Proof.
  induction l as [|a l IH]; simpl.
  - split; [discriminate | tauto].
  - rewrite orb_true_iff, IH, String.eqb_eq. tauto.
Qed.

Lemma dict_get_set (d : dict) (k k' : string) (v : pyval) :
  dict_get (dict_set d k v) k'
  = if (k =? k')%string then Some v else dict_get d k'.
Proof.
  induction d as [|[k0 v0] d IH]; simpl.
  - reflexivity.
  - destruct (String.eqb_spec k0 k) as [->|Hk]; simpl.
    + destruct (k =? k')%string; reflexivity.
    + rewrite IH.
      destruct (String.eqb_spec k0 k') as [->|Hk'];
        destruct (String.eqb_spec k k'); congruence.
Qed.

Lemma dict_get_update (kw d : dict) (k : string) :
  ~ In k (dict_keys kw) -> dict_get (dict_update d kw) k = dict_get d k.
Proof.
  unfold dict_update. revert d.
  induction kw as [|[k0 v0] kw IH]; intros d H; simpl in *.
  - reflexivity.
  - rewrite IH by tauto. rewrite dict_get_set.
    destruct (String.eqb_spec k0 k); [tauto | reflexivity].
Qed.

Lemma bindable_not_In (params : list string) (kw : dict) (k : string) :
  bindable params kw = true -> In k params -> ~ In k (dict_keys kw).
Proof.
  unfold bindable. rewrite andb_true_iff, negb_true_iff.
  intros [_ H] Hp Hk.
  assert (E : existsb (fun k => mem_string k params) (dict_keys kw) = true).
  { apply existsb_exists. exists k. split; [exact Hk|].
    apply mem_string_In, Hp. }
  congruence.
Qed.

Lemma keys_filter_incl (p : string * pyval -> bool) (kw : dict) (k : string) :
  In k (dict_keys (filter p kw)) -> In k (dict_keys kw).
Proof.
  unfold dict_keys. rewrite !in_map_iff.
  intros [x [Hx Hin]]. exists x. split; [exact Hx|].
  apply filter_In in Hin. tauto.
Qed.

(** ** The writer *)

Lemma truncated_long (msg : string) :
  100 < PyStr.len msg ->
  Writer.truncated msg = PyStr.take 97 msg ++ "..."
  /\ PyStr.len (Writer.truncated msg) = 100
  /\ PyStr.take 97 (Writer.truncated msg) = PyStr.take 97 msg
  /\ PyStr.drop 97 (Writer.truncated msg) = "...".
Proof.
  intros H. unfold Writer.truncated.
  destruct (Z.ltb_spec 100 (PyStr.len msg)) as [_|]; [|lia].
  unfold PyStr.len in *.
  assert (L : String.length (PyStr.take 97 msg) = 97%nat).
  { rewrite length_take. lia. }
  repeat split.
  - rewrite length_append, L. reflexivity.
  - rewrite take_append by lia. apply take_take.
  - rewrite <- L at 1. apply drop_append.
Qed.

Lemma truncated_short (msg : string) :
  PyStr.len msg <= 100 -> Writer.truncated msg = msg.
Proof.
  intros H. unfold Writer.truncated.
  destruct (Z.ltb_spec 100 (PyStr.len msg)); [lia | reflexivity].
Qed.

Lemma call_log_entry (json_dumps : dict -> string)
    (self : Writer.AgentLogger) (ts lvl evt msg : string) (kw : dict)
    (self' : Writer.AgentLogger) (id : pyval) :
  Writer.call_log json_dumps self ts lvl evt msg kw = Ok (self', id) ->
  exists e,
    Writer._log_file self'
    = Writer._log_file self ++ json_dumps e ++ String PyStr.LF ""
    /\ dict_get e "lvl" = Some (PStr lvl)
    /\ dict_get e "evt" = Some (PStr evt)
    /\ dict_get e "msg" = Some (PStr (Writer.truncated msg)).
Proof.
  unfold Writer.call_log, Writer.bind_log.
  destruct (bindable ["self"; "lvl"; "evt"; "msg"] kw) eqn:B; simpl;
    [|discriminate].
  intros H. injection H as H.
  set (cid := dict_get_default kw "cid" PNone) in *.
  set (kwargs := filter (fun kv => negb (fst kv =? "cid")%string) kw) in *.
  exists (Writer.entry self ts lvl evt msg cid kwargs).
  assert (K : forall k, In k ["self"; "lvl"; "evt"; "msg"] ->
                        ~ In k (dict_keys kwargs)).
  { intros k Hk Hin. apply keys_filter_incl in Hin.
    exact (bindable_not_In _ _ _ B Hk Hin). }
  repeat split.
  - unfold Writer.log in H.
    destruct (Writer.correlation self cid) as [s1 c1] eqn:C.
    injection H as <- _. simpl. f_equal.
    unfold Writer.correlation in C.
    destruct (truthy cid); [congruence|].
    unfold Writer._next_correlation_id in C. injection C as <- _.
    reflexivity.
  - unfold Writer.entry. rewrite dict_get_update by (apply K; simpl; tauto).
    reflexivity.
  - unfold Writer.entry. rewrite dict_get_update by (apply K; simpl; tauto).
    reflexivity.
  - unfold Writer.entry. rewrite dict_get_update by (apply K; simpl; tauto).
    reflexivity.
Qed.

(** C4.  Every call of [log] that binds its arguments appends one line,
    the serialised record [e]; when the message has more than 100
    characters the [msg] field of [e] has exactly 100, the first 97 of
    the message followed by the three-character marker ["..."]; a
    message of at most 100 characters is stored as it is. *)
Theorem log_truncates_message (json_dumps : dict -> string)
    (self : Writer.AgentLogger) (ts lvl evt msg : string) (kw : dict)
    (self' : Writer.AgentLogger) (id : pyval) :
  Writer.call_log json_dumps self ts lvl evt msg kw = Ok (self', id) ->
  exists e m,
    Writer._log_file self'
    = Writer._log_file self ++ json_dumps e ++ String PyStr.LF ""
    /\ dict_get e "msg" = Some (PStr m)
    /\ (100 < PyStr.len msg ->
        PyStr.len m = 100
        /\ m = PyStr.take 97 msg ++ "..."
        /\ PyStr.take 97 m = PyStr.take 97 msg
        /\ PyStr.drop 97 m = "...")
    /\ (PyStr.len msg <= 100 -> m = msg).
Proof.
  intros H.
  destruct (call_log_entry _ _ _ _ _ _ _ _ _ H) as [e [Hf [_ [_ Hm]]]].
  exists e, (Writer.truncated msg).
  split; [exact Hf|]. split; [exact Hm|]. split.
  - intros L. destruct (truncated_long msg L) as [A [B [C D]]]. auto.
  - apply truncated_short.
Qed.

Lemma log_truncates_message_witness :
  let r :=
    Writer.log FlatJson.dumps Sample.writer "t" "info" "task.started"
      Sample.long_message PNone [] in
  Writer.call_log FlatJson.dumps Sample.writer "t" "info" "task.started"
    Sample.long_message [] = Ok (fst r, snd r)
  /\ exists e m,
      Writer._log_file (fst r)
      = Writer._log_file Sample.writer ++ FlatJson.dumps e
        ++ String PyStr.LF ""
      /\ dict_get e "msg" = Some (PStr m)
      /\ (100 < PyStr.len Sample.long_message ->
          PyStr.len m = 100
          /\ m = PyStr.take 97 Sample.long_message ++ "..."
          /\ PyStr.take 97 m = PyStr.take 97 Sample.long_message
          /\ PyStr.drop 97 m = "...")
      /\ (PyStr.len Sample.long_message <= 100 -> m = Sample.long_message).
Proof.
  intros r. split; [reflexivity|].
  apply (log_truncates_message FlatJson.dumps Sample.writer "t" "info"
           "task.started" Sample.long_message [] (fst r) (snd r)).
  reflexivity.
Defined.

(** *** Correlation ids *)

Lemma strip_prefix_append (p s : string) :
  PyStr.strip_prefix p (p ++ s) = Some s.
Proof.
  induction p as [|a p IH]; simpl.
  - destruct s; reflexivity.
  - rewrite Ascii.eqb_refl. exact IH.
Qed.

Lemma decimal_nonempty (n : N) : PyStr.decimal n <> "".
Proof.
  unfold PyStr.decimal. intros E.
  destruct (NilZero.usu_gen (N.to_uint n)) as [H|H];
    rewrite E in H; discriminate.
Qed.

Lemma parse_decimal_decimal (n : N) :
  PyStr.parse_decimal (PyStr.decimal n) = Some n.
Proof.
  unfold PyStr.parse_decimal, PyStr.decimal.
  rewrite NilZero.usu.
  - simpl. f_equal. apply DecimalN.Unsigned.of_to.
  - destruct n as [|p]; simpl.
    + discriminate.
    + apply DecimalPos.Unsigned.to_uint_nonnil.
Qed.

Lemma parse_decimal_zeros (j : nat) (d : string) :
  d <> "" ->
  PyStr.parse_decimal (PyStr.zeros j ++ d) = PyStr.parse_decimal d.
Proof.
  intros Hd. induction j as [|j IH]; simpl; [reflexivity|].
  rewrite <- IH. unfold PyStr.parse_decimal, NilZero.uint_of_string.
  destruct (PyStr.zeros j ++ d) eqn:E.
  - destruct j; simpl in E; [congruence | discriminate].
  - cbn [NilEmpty.uint_of_string].
    destruct (uint_of_char a (NilEmpty.uint_of_string s)); reflexivity.
Qed.

Lemma numeric_suffix_format (sid : string) (k : nat) :
  Writer.numeric_suffix sid
    (PStr ("corr_" ++ sid ++ "_" ++ PyStr.format_03d (Z.of_nat k)))
  = Some (N.of_nat k).
Proof.
  unfold Writer.numeric_suffix.
  replace ("corr_" ++ sid ++ "_" ++ PyStr.format_03d (Z.of_nat k))
    with (("corr_" ++ sid ++ "_") ++ PyStr.format_03d (Z.of_nat k))
    by (rewrite !append_assoc; reflexivity).
  rewrite strip_prefix_append.
  unfold PyStr.format_03d.
  destruct (Z.ltb_spec (Z.of_nat k) 0) as [|_]; [lia|].
  unfold PyStr.zfill.
  rewrite parse_decimal_zeros by apply decimal_nonempty.
  rewrite parse_decimal_decimal. f_equal. lia.
Qed.

Lemma length_zeros (n : nat) : String.length (PyStr.zeros n) = n.
Proof. induction n; simpl; congruence. Qed.

Lemma log_step (json_dumps : dict -> string) (self : Writer.AgentLogger)
    (ts lvl evt msg : string) (cid : pyval) (kwargs : dict)
    (self' : Writer.AgentLogger) (id : pyval) :
  Writer.log json_dumps self ts lvl evt msg cid kwargs = (self', id) ->
  Writer.session_id self' = Writer.session_id self
  /\ (truthy cid = true -> Writer._seq self' = Writer._seq self /\ id = cid)
  /\ (truthy cid = false ->
      Writer._seq self' = Writer._seq self + 1
      /\ id = PStr ("corr_" ++ Writer.session_id self ++ "_"
                    ++ PyStr.format_03d (Writer._seq self + 1))).
Proof.
  unfold Writer.log, Writer.correlation, Writer._next_correlation_id.
  destruct (truthy cid); intros H; injection H as <- <-; simpl;
    repeat split; intros; try discriminate; reflexivity.
Qed.

Lemma run_generated (json_dumps : dict -> string) (calls : list Writer.call)
    (self : Writer.AgentLogger) :
  exists n,
    Writer.generated calls (snd (Writer.run json_dumps self calls))
    = map (fun k => PStr ("corr_" ++ Writer.session_id self ++ "_"
                          ++ PyStr.format_03d (Writer._seq self + Z.of_nat k)))
        (List.seq 1 n).
Proof.
  revert self. induction calls as [|c calls IH]; intros self.
  - exists 0%nat. reflexivity.
  - cbn [Writer.run].
    destruct (Writer.log json_dumps self (Writer.c_ts c) (Writer.c_lvl c)
                (Writer.c_evt c) (Writer.c_msg c) (Writer.c_cid c)
                (Writer.c_kwargs c)) as [s1 id1] eqn:L.
    destruct (IH s1) as [n Hn].
    destruct (Writer.run json_dumps s1 calls) as [s2 ids] eqn:R.
    apply log_step in L. destruct L as [Hs [Ht Hf]].
    unfold Writer.generated in *. cbn [snd combine filter fst] in *.
    destruct (truthy (Writer.c_cid c)) eqn:T; cbn [negb].
    + destruct (Ht eq_refl) as [Hq _].
      exists n. rewrite Hn, Hs, Hq. reflexivity.
    + destruct (Hf eq_refl) as [Hq Hid].
      exists (S n). cbn [map snd List.seq]. rewrite Hn, Hid. f_equal.
      rewrite <- (seq_shift n 1), map_map. apply map_ext. intros k.
      rewrite Hs, Hq. do 5 f_equal. lia.
Qed.

(** C5.  A writer starts with its counter at 0.  Over any sequence of
    calls of [log], the ids generated for the calls that pass none are
    [corr_{session_id}_{k:03d}] for [k = 1, 2, ...] in this order:
    their numeric suffixes are [1, 2, ...], so strictly increasing, and
    the ids are pairwise distinct.  The suffix is the decimal writing of
    [k] padded with zeros on the left to three characters, and is that
    writing alone once it has three digits or more. *)
Theorem generated_correlation_ids (json_dumps : dict -> string)
    (sid aid file : string) (calls : list Writer.call) :
  let ids :=
    Writer.generated calls
      (snd (Writer.run json_dumps (Writer.mkLogger sid aid 0 file) calls)) in
  let n := List.length ids in
  ids = map (fun k => PStr ("corr_" ++ sid ++ "_"
                            ++ PyStr.format_03d (Z.of_nat k)))
          (List.seq 1 n)
  /\ map (Writer.numeric_suffix sid) ids
     = map (fun k => Some (N.of_nat k)) (List.seq 1 n)
  /\ NoDup ids
  /\ (forall k : nat,
        PyStr.format_03d (Z.of_nat k)
        = PyStr.zeros (3 - String.length (PyStr.decimal (N.of_nat k)))
          ++ PyStr.decimal (N.of_nat k)
        /\ String.length (PyStr.format_03d (Z.of_nat k))
           = Nat.max 3 (String.length (PyStr.decimal (N.of_nat k))))
  /\ PyStr.format_03d 1 = "001"
  /\ PyStr.format_03d 999 = "999"
  /\ PyStr.format_03d 1000 = "1000".
Proof.
  intros ids n.
  destruct (run_generated json_dumps calls (Writer.mkLogger sid aid 0 file))
    as [m Hm].
  cbn [Writer.session_id Writer._seq] in Hm. fold ids in Hm.
  assert (Hn : n = m).
  { unfold n. rewrite Hm, length_map, length_seq. reflexivity. }
  rewrite Hn. clear Hn n.
  assert (A : ids = map (fun k => PStr ("corr_" ++ sid ++ "_"
                                        ++ PyStr.format_03d (Z.of_nat k)))
                      (List.seq 1 m)).
  { rewrite Hm. apply map_ext. intros k. reflexivity. }
  assert (B : map (Writer.numeric_suffix sid) ids
              = map (fun k => Some (N.of_nat k)) (List.seq 1 m)).
  { rewrite A, map_map. apply map_ext. intros k.
    apply numeric_suffix_format. }
  split; [exact A|]. split; [exact B|]. split.
  - apply (NoDup_map_inv (Writer.numeric_suffix sid)). rewrite B.
    apply Injective_map_NoDup; [|apply seq_NoDup].
    intros x y E. injection E as E. lia.
  - split; [|repeat split; reflexivity].
    intros k. unfold PyStr.format_03d.
    destruct (Z.ltb_spec (Z.of_nat k) 0) as [|_]; [lia|].
    replace (Z.abs_N (Z.of_nat k)) with (N.of_nat k) by lia.
    unfold PyStr.zfill. split; [reflexivity|].
    rewrite length_append, length_zeros. lia.
Qed.

(** *** Escalations *)






(** ** Statistics *)

(** The claim C9 as it is written fails: the result for a log directory
    that does not exist has no [dates] entry, so it does not carry an
    empty list of dates. *)
Lemma stats_of_missing_dir_lack_dates :
  dict_get (Lib.get_log_stats (fun q => q) None) "dates"
  <> Some (PList []).
Proof. cbn. discriminate. Qed.

(** C9, amended.  For a log directory that does not exist
    [get_log_stats] raises nothing and returns a dictionary of exactly
    five entries: [total_files] 0, [total_size_bytes] 0, [total_size_mb]
    0.0, [oldest_date] and [newest_date] [None]; it has no [dates]
    entry.  For a directory that exists the [dates] entry is there. *)
Theorem stats_of_missing_dir (round2 : Q -> Q) :
  Lib.get_log_stats round2 None
  = [("total_files", PInt 0); ("total_size_bytes", PInt 0);
     ("total_size_mb", PFloat 0); ("oldest_date", PNone);
     ("newest_date", PNone)]
  /\ dict_get (Lib.get_log_stats round2 None) "dates" = None
  /\ forall st, exists ds,
       dict_get (Lib.get_log_stats round2 (Some st)) "dates"
       = Some (PList ds).
Proof.
  split; [reflexivity|]. split; [reflexivity|].
  intros st. eexists. cbn. reflexivity.
Qed.

(** ** Compaction *)

Lemma cli_keep_eq (e : pyval) : Cli.keep e = Lib.keep e.
Proof. reflexivity. Qed.

Lemma keep_is_record (e : pyval) :
  Spec.is_record e = true -> exists b, Lib.keep e = Ok b.
Proof.
  destruct e as [| | | | |l|d]; try discriminate.
  unfold Spec.is_record, Lib.keep.
  destruct (dict_get_default d "evt" (PStr "")) as [| | | |x|l|m];
    try discriminate; intros _; cbn [Lib.in_set];
    try (eexists; reflexivity).
  destruct (mem_string x Lib.preserve_events); eexists; reflexivity.
Qed.

Lemma keep_preserved (d : dict) (evt lvl : string) :
  dict_get_default d "evt" (PStr "") = PStr evt ->
  dict_get_default d "lvl" (PStr "") = PStr lvl ->
  Lib.keep (PDict d) = Ok (Spec.preserved evt lvl).
Proof.
  intros He Hl. unfold Lib.keep, Spec.preserved. rewrite He, Hl.
  cbn [Lib.in_set Lib.in_tuple]. fold Lib.preserve_events.
  destruct (mem_string evt Lib.preserve_events); reflexivity.
Qed.

Lemma lib_scan_filter (json_loads : string -> option pyval)
    (lines : list string) :
  let ls := filter (fun l => negb (l =? "")%string) (map PyStr.strip lines) in
  Spec.records_only json_loads ls = true ->
  Lib.scan json_loads lines = Ok (filter (Spec.kept_line json_loads) ls).
Proof.
  induction lines as [|l lines IH]; cbn zeta in *; [reflexivity|].
  cbn [map filter Lib.scan].
  destruct (PyStr.strip l =? "")%string; cbn [negb]; [exact IH|].
  cbn [Spec.records_only forallb filter]. rewrite andb_true_iff.
  intros [Hr Hrest]. specialize (IH Hrest).
  unfold Spec.kept_line at 1.
  destruct (json_loads (PyStr.strip l)) as [e|]; [|exact IH].
  destruct (keep_is_record e Hr) as [b Hb]. rewrite Hb, IH.
  destruct b; reflexivity.
Qed.







Lemma image_of_scanned (lines_of : string -> list string)
    (json_loads : string -> option pyval) (o : os) (now : Z)
    (cutoff : string) (f : file) :
  Spec.scanned o cutoff f = true ->
  let kept := filter (Spec.kept_line json_loads) (lines_of (content f)) in
  let f' := Spec.image lines_of json_loads o now cutoff f in
  (kept = [] -> f' = f)
  /\ (kept <> [] ->
      content f' = PyStr.join_lines kept /\ path_of f' = path_of f).
Proof.
  intros S kept f'. unfold f', Spec.image, Spec.compacted_form.
  rewrite S. fold kept. destruct kept as [|l ls].
  - split; [reflexivity | congruence].
  - split; [discriminate | intros _; split; reflexivity].
Qed.









(** *** Lines of a text *)

Lemma all_chars_append (p : ascii -> bool) (s t : string) :
  PyStr.all_chars p (s ++ t) = PyStr.all_chars p s && PyStr.all_chars p t.
Proof.
  induction s as [|c s IH]; simpl; [reflexivity|].
  rewrite IH. apply andb_assoc.
Qed.

Lemma all_chars_weaken (p q : ascii -> bool) (s : string) :
  (forall c, p c = true -> q c = true) ->
  PyStr.all_chars p s = true -> PyStr.all_chars q s = true.
Proof.
  intros H. induction s as [|c s IH]; simpl; [reflexivity|].
  rewrite !andb_true_iff. intros [A B]. split; auto.
Qed.

Lemma universal_newlines_id (s : string) :
  PyStr.all_chars PyStr.not_cr s = true -> PyStr.universal_newlines s = s.
Proof.
  induction s as [|c s IH]; simpl; [reflexivity|].
  rewrite andb_true_iff. unfold PyStr.not_cr at 1.
  rewrite negb_true_iff. intros [-> H]. f_equal. apply IH, H.
Qed.

Lemma universal_newlines_no_cr_upto (n : nat) (s : string) :
  (String.length s <= n)%nat ->
  PyStr.all_chars PyStr.not_cr (PyStr.universal_newlines s) = true.
Proof.
  revert s. induction n as [|n IH]; intros [|c s] H; simpl in *;
    try reflexivity; try lia.
  destruct (Ascii.eqb c PyStr.CR) eqn:E.
  - destruct s as [|d s]; [reflexivity|].
    destruct (Ascii.eqb d PyStr.LF); simpl.
    + apply IH. simpl in H. lia.
    + apply (IH (String d s)). lia.
  - simpl. unfold PyStr.not_cr at 1. rewrite E. simpl. apply IH. lia.
Qed.

Lemma universal_newlines_no_cr (s : string) :
  PyStr.all_chars PyStr.not_cr (PyStr.universal_newlines s) = true.
Proof. apply (universal_newlines_no_cr_upto (String.length s)). lia. Qed.

Lemma readlines_shape (u l : string) :
  PyStr.all_chars PyStr.not_cr u = true ->
  In l (PyStr.readlines u) ->
  exists body,
    PyStr.all_chars PyStr.not_newline body = true
    /\ (l = body ++ String PyStr.LF "" \/ l = body).
Proof.
  revert l. induction u as [|c u IH]; intros l H Hin; simpl in *;
    [destruct Hin|].
  apply andb_true_iff in H. destruct H as [Hc Hu].
  destruct (Ascii.eqb c PyStr.LF) eqn:E.
  - destruct Hin as [<-|Hin]; [|apply IH; assumption].
    exists "". split; [reflexivity | left; reflexivity].
  - assert (N : PyStr.not_newline c = true).
    { unfold PyStr.not_newline. rewrite E. exact Hc. }
    destruct (PyStr.readlines u) as [|x xs] eqn:R.
    + destruct Hin as [<-|[]].
      exists (String c ""). split; [|right; reflexivity].
      simpl. rewrite N. reflexivity.
    + destruct Hin as [<-|Hin].
      * destruct (IH x Hu (or_introl eq_refl)) as [b [Hb Hx]].
        exists (String c b). split; [simpl; rewrite N; exact Hb|].
        destruct Hx as [->| ->]; [left | right]; reflexivity.
      * apply IH; [exact Hu | right; exact Hin].
Qed.

Lemma readlines_line (l rest : string) :
  PyStr.all_chars PyStr.not_newline l = true ->
  PyStr.readlines (l ++ String PyStr.LF rest)
  = (l ++ String PyStr.LF "") :: PyStr.readlines rest.
Proof.
  induction l as [|c l IH]; intros H; simpl in *.
  - reflexivity.
  - apply andb_true_iff in H. destruct H as [Hc Hl].
    unfold PyStr.not_newline in Hc. apply andb_true_iff in Hc.
    destruct Hc as [Hc _]. apply negb_true_iff in Hc. rewrite Hc.
    rewrite (IH Hl). reflexivity.
Qed.

Lemma join_lines_cons (l l2 : string) (ls : list string) :
  PyStr.join_lines (l :: l2 :: ls)
  = l ++ String PyStr.LF (PyStr.join_lines (l2 :: ls)).
Proof.
  unfold PyStr.join_lines. cbn [String.concat].
  rewrite append_assoc. reflexivity.
Qed.

Lemma readlines_join_lines (l : string) (ls : list string) :
  Forall (fun x => PyStr.all_chars PyStr.not_newline x = true) (l :: ls) ->
  PyStr.readlines (PyStr.join_lines (l :: ls))
  = map (fun x => x ++ String PyStr.LF "") (l :: ls).
Proof.
  revert l. induction ls as [|l2 ls IH]; intros l H.
  - inversion H; subst. unfold PyStr.join_lines. cbn [String.concat map].
    rewrite readlines_line by assumption. reflexivity.
  - inversion H; subst. rewrite join_lines_cons.
    rewrite readlines_line by assumption. rewrite IH by assumption.
    reflexivity.
Qed.

Lemma join_lines_no_cr (l : string) (ls : list string) :
  Forall (fun x => PyStr.all_chars PyStr.not_newline x = true) (l :: ls) ->
  PyStr.all_chars PyStr.not_cr (PyStr.join_lines (l :: ls)) = true.
Proof.
  assert (W : forall x, PyStr.all_chars PyStr.not_newline x = true ->
                        PyStr.all_chars PyStr.not_cr x = true).
  { intros x. apply all_chars_weaken. intros c.
    unfold PyStr.not_newline, PyStr.not_cr. rewrite andb_true_iff. tauto. }
  revert l. induction ls as [|l2 ls IH]; intros l H; inversion H; subst.
  - unfold PyStr.join_lines. cbn [String.concat].
    rewrite all_chars_append, (W l) by assumption. reflexivity.
  - rewrite join_lines_cons, all_chars_append, (W l) by assumption.
    simpl. apply IH. assumption.
Qed.

(** *** Stripping *)

Lemma all_chars_lstrip (p : ascii -> bool) (s : string) :
  PyStr.all_chars p s = true -> PyStr.all_chars p (PyStr.lstrip s) = true.
Proof.
  induction s as [|c s IH]; simpl; [reflexivity|].
  intros H. destruct (PyStr.isspace c); [|exact H].
  apply andb_true_iff in H. apply IH, H.
Qed.

Lemma all_chars_rstrip (p : ascii -> bool) (s : string) :
  PyStr.all_chars p s = true -> PyStr.all_chars p (PyStr.rstrip s) = true.
Proof.
  induction s as [|c s IH]; simpl; [reflexivity|].
  intros H. apply andb_true_iff in H. destruct H as [Hc Hs].
  specialize (IH Hs).
  destruct (PyStr.rstrip s) as [|d t].
  - destruct (PyStr.isspace c); simpl; [reflexivity|].
    rewrite Hc. reflexivity.
  - cbn [PyStr.all_chars]. rewrite Hc. exact IH.
Qed.

Lemma rstrip_append_lf (s : string) :
  PyStr.rstrip (s ++ String PyStr.LF "") = PyStr.rstrip s.
Proof.
  induction s as [|c s IH]; [reflexivity|].
  cbn [append PyStr.rstrip]. rewrite IH. reflexivity.
Qed.

Lemma rstrip_idem (s : string) :
  PyStr.rstrip (PyStr.rstrip s) = PyStr.rstrip s.
Proof.
  induction s as [|c s IH]; [reflexivity|].
  cbn [PyStr.rstrip].
  destruct (PyStr.rstrip s) as [|d t] eqn:R.
  - destruct (PyStr.isspace c) eqn:E; [reflexivity|].
    cbn [PyStr.rstrip]. rewrite E. reflexivity.
  - change (PyStr.rstrip (String c (String d t)))
      with (match PyStr.rstrip (String d t) with
            | EmptyString =>
                if PyStr.isspace c then EmptyString else String c EmptyString
            | String d' t' => String c (String d' t')
            end).
    rewrite IH. reflexivity.
Qed.

Lemma rstrip_fixed_tail (c : ascii) (s : string) :
  PyStr.rstrip (String c s) = String c s -> PyStr.rstrip s = s.
Proof.
  cbn [PyStr.rstrip]. destruct (PyStr.rstrip s) as [|d t].
  - destruct (PyStr.isspace c); [discriminate|].
    intros H. injection H as <-. reflexivity.
  - intros H. injection H as <-. reflexivity.
Qed.

Lemma rstrip_lstrip (s : string) :
  PyStr.rstrip s = s -> PyStr.rstrip (PyStr.lstrip s) = PyStr.lstrip s.
Proof.
  induction s as [|c s IH]; [reflexivity|].
  intros H. cbn [PyStr.lstrip].
  destruct (PyStr.isspace c); [|exact H].
  apply IH. exact (rstrip_fixed_tail c s H).
Qed.

Lemma lstrip_idem (s : string) :
  PyStr.lstrip (PyStr.lstrip s) = PyStr.lstrip s.
Proof.
  induction s as [|c s IH]; [reflexivity|].
  cbn [PyStr.lstrip]. destruct (PyStr.isspace c) eqn:E; [exact IH|].
  cbn [PyStr.lstrip]. rewrite E. reflexivity.
Qed.

Lemma strip_idem (s : string) : PyStr.strip (PyStr.strip s) = PyStr.strip s.
Proof.
  unfold PyStr.strip.
  rewrite (rstrip_lstrip (PyStr.rstrip s) (rstrip_idem s)).
  apply lstrip_idem.
Qed.

Lemma strip_append_lf (s : string) :
  PyStr.strip (s ++ String PyStr.LF "") = PyStr.strip s.
Proof. unfold PyStr.strip. rewrite rstrip_append_lf. reflexivity. Qed.

Lemma all_chars_strip (p : ascii -> bool) (s : string) :
  PyStr.all_chars p s = true -> PyStr.all_chars p (PyStr.strip s) = true.
Proof. intros H. apply all_chars_lstrip, all_chars_rstrip, H. Qed.

(** *** Dates *)

Lemma ltb_leb_trans (a b c : string) :
  (a <? b)%string = true -> (b <=? c)%string = true ->
  (a <? c)%string = true.
Proof.
  unfold String.ltb, String.leb. intros H1 H2.
  destruct (String.compare a b) eqn:A; try discriminate.
  apply String_as_OT.cmp_lt in A.
  destruct (String.compare b c) eqn:B; try discriminate.
  - apply String_as_OT.cmp_eq in B. subst c.
    apply String_as_OT.cmp_lt in A. unfold String_as_OT.cmp in A.
    rewrite A. reflexivity.
  - apply String_as_OT.cmp_lt in B.
    assert (L := String_as_OT.lt_trans _ _ _ A B).
    apply String_as_OT.cmp_lt in L. unfold String_as_OT.cmp in L.
    rewrite L. reflexivity.
Qed.

(** *** A second pass *)

Lemma lib_scan_kept_clean (json_loads : string -> option pyval)
    (lines kept : list string) :
  (forall l, In l lines ->
     exists body, PyStr.all_chars PyStr.not_newline body = true
                  /\ (l = body ++ String PyStr.LF "" \/ l = body)) ->
  Lib.scan json_loads lines = Ok kept ->
  Forall (Spec.clean json_loads) kept.
Proof.
  revert kept. induction lines as [|l lines IH]; intros kept Hs;
    cbn [Lib.scan].
  - intros H. injection H as <-. constructor.
  - assert (Hrest : forall x, In x lines ->
              exists body, PyStr.all_chars PyStr.not_newline body = true
                           /\ (x = body ++ String PyStr.LF "" \/ x = body))
      by (intros x Hx; apply Hs; right; exact Hx).
    destruct (String.eqb_spec (PyStr.strip l) "") as [E|E];
      [apply IH, Hrest|].
    destruct (json_loads (PyStr.strip l)) as [e|] eqn:J; [|apply IH, Hrest].
    destruct (Lib.keep e) as [k|] eqn:K; [|discriminate].
    destruct (Lib.scan json_loads lines) as [ls|]; [|discriminate].
    intros H. injection H as <-.
    specialize (IH ls Hrest eq_refl).
    destruct k; [|exact IH].
    constructor; [|exact IH].
    split; [exact E|]. split; [apply strip_idem|]. split.
    + destruct (Hs l (or_introl eq_refl)) as [b [Hb [-> | ->]]].
      * rewrite strip_append_lf. apply all_chars_strip, Hb.
      * apply all_chars_strip, Hb.
    + unfold Spec.kept_line. rewrite J, K. reflexivity.
Qed.

Lemma lib_scan_again (json_loads : string -> option pyval)
    (ks : list string) :
  Forall (Spec.clean json_loads) ks ->
  Lib.scan json_loads (map (fun x => x ++ String PyStr.LF "") ks) = Ok ks.
Proof.
  induction 1 as [|l ks [Hne [Hs [_ Hk]]] _ IH]; [reflexivity|].
  cbn [map Lib.scan]. rewrite strip_append_lf, Hs.
  destruct (String.eqb_spec l "") as [E|_]; [contradiction|].
  unfold Spec.kept_line in Hk.
  destruct (json_loads l) as [e|]; [|discriminate].
  destruct (Lib.keep e) as [k|]; [|discriminate].
  subst k. rewrite IH. reflexivity.
Qed.

Lemma preserved_lines_clean (json_loads : string -> option pyval)
    (f : file) (kept : list string) :
  Lib.preserved_lines json_loads f = Ok kept ->
  Forall (Spec.clean json_loads) kept.
Proof.
  unfold Lib.preserved_lines. apply lib_scan_kept_clean.
  intros l. apply readlines_shape, universal_newlines_no_cr.
Qed.

Lemma preserved_lines_again (json_loads : string -> option pyval)
    (f : file) (l : string) (ls : list string) (p n : string) (t : Z) :
  Lib.preserved_lines json_loads f = Ok (l :: ls) ->
  Lib.preserved_lines json_loads (mkFile p n t (PyStr.join_lines (l :: ls)))
  = Ok (l :: ls).
Proof.
  intros H. apply preserved_lines_clean in H.
  assert (N : Forall (fun x => PyStr.all_chars PyStr.not_newline x = true)
                (l :: ls)).
  { eapply Forall_impl; [|exact H]. intros x [_ [_ [Hx _]]]. exact Hx. }
  unfold Lib.preserved_lines. cbn [content].
  rewrite universal_newlines_id by (apply join_lines_no_cr, N).
  rewrite readlines_join_lines by exact N.
  apply lib_scan_again, H.
Qed.

(** A file that a pass has written is written again with the same
    content, or passed over, by any later pass. *)
Lemma compact_file_again (json_loads : string -> option pyval) (o : os)
    (now : Z) (cutoff : string) (f f1 : file) (d : Z) :
  Lib.compact_file json_loads o now cutoff false f = Ok (Some (f1, d)) ->
  path_of f1 = path_of f
  /\ forall o2 now2 cutoff2,
       Lib.compact_file json_loads o2 now2 cutoff2 false f1
       = Ok (if Lib.eligible cutoff2 f1 && open_ok o2 (path_of f1)
             then Some (mkFile (parent_name f1) (name f1) now2 (content f1),
                        0)
             else None).
Proof.
  unfold Lib.compact_file at 1.
  destruct (Lib.eligible cutoff f); cbn [negb]; [|discriminate].
  destruct (open_ok o (path_of f)); cbn [negb]; [|discriminate].
  destruct (Lib.preserved_lines json_loads f) as [[|l ls]|] eqn:P;
    try discriminate.
  intros H. injection H as <- _. split; [reflexivity|].
  intros o2 now2 cutoff2. unfold Lib.compact_file.
  destruct (Lib.eligible cutoff2 _); cbn [negb andb]; [|reflexivity].
  destruct (open_ok o2 _); cbn [negb]; [|reflexivity].
  rewrite (preserved_lines_again json_loads f l ls _ _ _ P).
  cbn [parent_name name content]. do 3 f_equal.
  unfold st_size. cbn [content]. lia.
Qed.

Lemma eligible_older (cutoff cutoff2 : string) (f : file) :
  (cutoff2 <=? cutoff)%string = true ->
  Lib.eligible cutoff2 f = true -> Lib.eligible cutoff f = true.
Proof.
  unfold Lib.eligible. rewrite !andb_true_iff. intros L [A B].
  split; [|exact B]. exact (ltb_leb_trans _ _ _ A L).
Qed.

(** A file that a pass has read and left as it was is left as it is by
    a pass with the same or an older cutoff. *)
Lemma compact_file_none_again (json_loads : string -> option pyval)
    (o : os) (now now2 : Z) (cutoff cutoff2 : string) (f : file) :
  (cutoff2 <=? cutoff)%string = true ->
  Lib.compact_file json_loads o now cutoff false f = Ok None ->
  Lib.compact_file json_loads o now2 cutoff2 false f = Ok None.
Proof.
  intros L. unfold Lib.compact_file.
  destruct (Lib.eligible cutoff2 f) eqn:E2; cbn [negb]; [|reflexivity].
  rewrite (eligible_older cutoff cutoff2 f L E2). cbn [negb].
  destruct (open_ok o (path_of f)); cbn [negb]; [|reflexivity].
  destruct (Lib.preserved_lines json_loads f) as [[|l ls]|];
    try reflexivity; discriminate.
Qed.

Lemma is_jsonl_path (f g : file) :
  path_of g = path_of f -> is_jsonl g = is_jsonl f.
Proof.
  unfold path_of, is_jsonl. intros H. injection H as _ ->. reflexivity.
Qed.

Lemma lib_loop_second_pass (json_loads : string -> option pyval) (o : os)
    (now now2 : Z) (cutoff cutoff2 : string) (fs : list file) :
  (cutoff2 <=? cutoff)%string = true ->
  forall fs1 c s r,
    Lib.compact_loop json_loads o now cutoff false fs c s = (fs1, Ok r) ->
    forall c2 s2,
    exists fs2 n2,
      Lib.compact_loop json_loads o now2 cutoff2 false fs1 c2 s2
      = (fs2, Ok (n2, s2))
      /\ map content fs2 = map content fs1
      /\ map path_of fs2 = map path_of fs1.
Proof.
  intros L. induction fs as [|f fs IH]; intros fs1 c s r H c2 s2.
  - cbn in H. injection H as <- _. exists [], c2. repeat split.
  - cbn [Lib.compact_loop] in H.
    destruct (is_jsonl f) eqn:J; cbn [negb] in H.
    + destruct (Lib.compact_file json_loads o now cutoff false f)
        as [[[f1 d]|]|] eqn:F.
      * destruct (Lib.compact_loop json_loads o now cutoff false fs (c + 1)
                    (s + d)) as [rest r'] eqn:R.
        injection H as <- ->.
        destruct (compact_file_again _ _ _ _ _ _ _ F) as [Hp Hagain].
        cbn [Lib.compact_loop].
        rewrite (is_jsonl_path f f1 Hp), J. cbn [negb].
        rewrite (Hagain o now2 cutoff2).
        destruct (Lib.eligible cutoff2 f1 && open_ok o (path_of f1)).
        -- destruct (IH rest _ _ _ R (c2 + 1) (s2 + 0))
             as [fs2 [n2 [E [Hc Hq]]]].
           rewrite E. eexists _, n2. split; [do 3 f_equal; lia|].
           cbn [map content path_of parent_name name]. split.
           ++ f_equal. exact Hc.
           ++ f_equal. exact Hq.
        -- destruct (IH rest _ _ _ R c2 s2) as [fs2 [n2 [E [Hc Hq]]]].
           rewrite E. eexists _, n2. split; [reflexivity|].
           cbn [map]. split; f_equal; assumption.
      * destruct (Lib.compact_loop json_loads o now cutoff false fs c s)
          as [rest r'] eqn:R.
        injection H as <- ->.
        cbn [Lib.compact_loop]. rewrite J. cbn [negb].
        rewrite (compact_file_none_again json_loads o now now2 cutoff cutoff2
                   f L F).
        destruct (IH rest _ _ _ R c2 s2) as [fs2 [n2 [E [Hc Hq]]]].
        rewrite E. eexists _, n2. split; [reflexivity|].
        cbn [map]. split; f_equal; assumption.
      * discriminate.
    + destruct (Lib.compact_loop json_loads o now cutoff false fs c s)
        as [rest r'] eqn:R.
      injection H as <- ->.
      cbn [Lib.compact_loop]. rewrite J. cbn [negb].
      destruct (IH rest _ _ _ R c2 s2) as [fs2 [n2 [E [Hc Hq]]]].
      rewrite E. eexists _, n2. split; [reflexivity|].
      cbn [map]. split; f_equal; assumption.
Qed.

(** C6.  After a pass of [compact_old_sessions] that is no dry run and
    returns, a second such pass whose cutoff date is the same or older
    returns too, leaves the content of every file as the first pass
    left it, and reports zero bytes saved.  More precisely for a file
    that a pass has written: any later pass, whatever its cutoff,
    passes it over or writes the same content again, saving zero
    bytes. *)
Theorem compaction_idempotent (json_loads : string -> option pyval)
    (o : os) (now now2 : Z) (cutoff cutoff2 : string) (st st1 : store)
    (r1 : Z * Z) :
  Lib.compact_old_sessions json_loads o now (Some st) cutoff false
  = (Some st1, Ok r1) ->
  (cutoff2 <=? cutoff)%string = true ->
  (exists st2 n2,
     Lib.compact_old_sessions json_loads o now2 (Some st1) cutoff2 false
     = (Some st2, Ok (n2, 0))
     /\ map content (st_files st2) = map content (st_files st1)
     /\ map path_of (st_files st2) = map path_of (st_files st1)
     /\ st_dirs st2 = st_dirs st1)
  /\ (forall f f1 d,
        Lib.compact_file json_loads o now cutoff false f = Ok (Some (f1, d)) ->
        forall o3 now3 cutoff3,
          Lib.compact_file json_loads o3 now3 cutoff3 false f1 = Ok None
          \/ exists f2,
               Lib.compact_file json_loads o3 now3 cutoff3 false f1
               = Ok (Some (f2, 0))
               /\ content f2 = content f1).
Proof.
  intros H L. split.
  - unfold Lib.compact_old_sessions in *.
    destruct (Lib.compact_loop json_loads o now cutoff false (st_files st)
                0 0) as [fs1 r] eqn:R.
    injection H as <- ->. cbn [st_files st_dirs].
    destruct (lib_loop_second_pass json_loads o now now2 cutoff cutoff2 _ L
                _ _ _ _ R 0 0) as [fs2 [n2 [E [Hc Hq]]]].
    rewrite E. exists (mkStore (st_dirs st) fs2), n2. auto.
  - intros f f1 d F o3 now3 cutoff3.
    destruct (compact_file_again _ _ _ _ _ _ _ F) as [_ A].
    rewrite (A o3 now3 cutoff3).
    destruct (Lib.eligible cutoff3 f1 && open_ok o3 (path_of f1));
      [right | left; reflexivity].
    eexists. split; reflexivity.
Qed.

Lemma compaction_idempotent_witness :
  exists st2 n2,
    Lib.compact_old_sessions FlatJson.loads Sample.everything_allowed 12
      (Some (mkStore ["2020-01-01"]
               [mkFile "2020-01-01" "s1.jsonl" 9
                  (FlatJson.dumps Sample.decision_record ++ Sample.nl)]))
      "2020-01-04" false
    = (Some st2, Ok (n2, 0))
    /\ map content (st_files st2)
       = [FlatJson.dumps Sample.decision_record ++ Sample.nl].
Proof.
  destruct (compaction_idempotent FlatJson.loads Sample.everything_allowed
              9 12 "2020-01-04" "2020-01-04" Sample.session_store
              (mkStore ["2020-01-01"]
                 [mkFile "2020-01-01" "s1.jsonl" 9
                    (FlatJson.dumps Sample.decision_record ++ Sample.nl)])
              (1, 48) eq_refl eq_refl)
    as [[st2 [n2 [E [Hc _]]]] _].
  exists st2, n2. split; [exact E | exact Hc].
Defined.

(** A dry run of compaction never counts a file nor a byte, and leaves
    every file as it is. *)
(** The rest of a loop that has kept its counters so far. *)
Ltac keep_counters IH c s :=
  destruct (IH c s) as [->|[?e ->]];
  [left; reflexivity | right; eexists; reflexivity].

Lemma lib_dry_run_loop (json_loads : string -> option pyval) (o : os)
    (now : Z) (cutoff : string) (fs : list file) (c s : Z) :
  Lib.compact_loop json_loads o now cutoff true fs c s = (fs, Ok (c, s))
  \/ exists e,
      Lib.compact_loop json_loads o now cutoff true fs c s = (fs, Raise e).
Proof.
  revert c s.
  induction fs as [|f fs IH]; intros c s; [left; reflexivity|].
  cbn [Lib.compact_loop]. unfold Lib.compact_file.
  destruct (is_jsonl f); cbn [negb]; [|keep_counters IH c s].
  destruct (Lib.eligible cutoff f); cbn [negb]; [|keep_counters IH c s].
  destruct (open_ok o (path_of f)); cbn [negb]; [|keep_counters IH c s].
  destruct (Lib.preserved_lines json_loads f) as [[|l ls]|e];
    [keep_counters IH c s | keep_counters IH c s |].
  right. exists e. reflexivity.
Qed.

Lemma cli_dry_run_loop (json_loads : string -> option pyval) (o : os)
    (now : Z) (cutoff : string) (fs : list file) (c s : Z) :
  Cli.compact_loop json_loads o now cutoff true fs c s = (fs, Ok (c, s))
  \/ exists e,
      Cli.compact_loop json_loads o now cutoff true fs c s = (fs, Raise e).
Proof.
  revert c s.
  induction fs as [|f fs IH]; intros c s; [left; reflexivity|].
  cbn [Cli.compact_loop]. unfold Cli.compact_file.
  destruct (is_jsonl f); cbn [negb]; [|keep_counters IH c s].
  destruct (Cli.eligible cutoff f); cbn [negb]; [|keep_counters IH c s].
  destruct (open_ok o (path_of f)); cbn [negb]; [|keep_counters IH c s].
  destruct (Cli.kept json_loads f) as [[|l ls]|e];
    [keep_counters IH c s | keep_counters IH c s |].
  right. exists e. reflexivity.
Qed.

(** C3, the part that fails.  A dry run of compaction never counts a
    file nor a byte: whatever the store, when it returns it returns the
    counters it started from, so [compact_old_sessions] and [compact]
    report 0 files and 0 bytes.  On the sample store the run that is no
    dry run compacts 1 file and saves 48 bytes. *)
Theorem compaction_dry_run_reports_zero :
  (forall json_loads o now cutoff fs c s,
     Lib.compact_loop json_loads o now cutoff true fs c s = (fs, Ok (c, s))
     \/ exists e,
         Lib.compact_loop json_loads o now cutoff true fs c s
         = (fs, Raise e))
  /\ (forall json_loads o now cutoff fs c s,
        Cli.compact_loop json_loads o now cutoff true fs c s
        = (fs, Ok (c, s))
        \/ exists e,
            Cli.compact_loop json_loads o now cutoff true fs c s
            = (fs, Raise e))
  /\ Lib.compact_old_sessions FlatJson.loads Sample.everything_allowed 9
       (Some Sample.session_store) "2020-01-04" true
     = (Some Sample.session_store, Ok (0, 0))
  /\ snd (Lib.compact_old_sessions FlatJson.loads Sample.everything_allowed 9
            (Some Sample.session_store) "2020-01-04" false)
     = Ok (1, 48)
  /\ Cli.compact FlatJson.loads Sample.everything_allowed 9
       (Some Sample.session_store) "2020-01-04" true
     = (Some Sample.session_store, Ok (0, 0))
  /\ snd (Cli.compact FlatJson.loads Sample.everything_allowed 9
            (Some Sample.session_store) "2020-01-04" false)
     = Ok (1, 48).
Proof.
  split; [|split; [|repeat split; reflexivity]].
  - intros. apply lib_dry_run_loop.
  - intros. apply cli_dry_run_loop.
Qed.

(** The part of C3 that holds: a dry run leaves the log directory as it
    is. *)
Lemma dry_run_leaves_store (json_loads : string -> option pyval) (o : os)
    (now : Z) (cutoff : string) (retention_days : Z) (max_size_mb : PrimFloat.float)
    (max_files : Z) (log_dir : option store) :
  fst (Lib.cleanup_logs o log_dir cutoff retention_days max_size_mb
         max_files true) = log_dir
  /\ fst (Cli.cleanup o log_dir cutoff retention_days max_size_mb
            max_files true) = log_dir
  /\ fst (Lib.compact_old_sessions json_loads o now log_dir cutoff true)
     = log_dir
  /\ fst (Cli.compact json_loads o now log_dir cutoff true) = log_dir.
Proof.
  destruct log_dir as [st|]; [|repeat split; reflexivity].
  repeat split.
  - unfold Lib.compact_old_sessions.
    destruct (lib_dry_run_loop json_loads o now cutoff (st_files st) 0 0)
      as [->|[e ->]]; destruct st; reflexivity.
  - unfold Cli.compact.
    destruct (cli_dry_run_loop json_loads o now cutoff (st_files st) 0 0)
      as [->|[e ->]]; destruct st; reflexivity.
Qed.

(** ** Retention *)

(** *** Paths and sizes *)

Lemma path_eqb_eq (p q : path) : path_eqb p q = true <-> p = q.
Proof.
  destruct p as [a b], q as [c d]. unfold path_eqb. cbn [fst snd].
  rewrite andb_true_iff, !String.eqb_eq. split.
  - intros [-> ->]. reflexivity.
  - intros H. injection H as -> ->. auto.
Qed.

Lemma path_eqb_sym (p q : path) : path_eqb p q = path_eqb q p.
Proof.
  unfold path_eqb. rewrite (String.eqb_sym (fst p)), (String.eqb_sym (snd p)).
  reflexivity.
Qed.

Lemma file_in_In (f : file) (l : list file) :
  file_in f l = true <-> In (path_of f) (map path_of l).
Proof.
  unfold file_in. rewrite existsb_exists, in_map_iff. split.
  - intros [g [Hg E]]. exists g. apply path_eqb_eq in E. auto.
  - intros [g [E Hg]]. exists g. split; [exact Hg|].
    apply path_eqb_eq. auto.
Qed.

Lemma file_in_not_In (f : file) (l : list file) :
  file_in f l = false <-> ~ In (path_of f) (map path_of l).
Proof.
  rewrite <- file_in_In. destruct (file_in f l); split; intros H;
    congruence.
Qed.

Lemma file_in_app (f : file) (l l' : list file) :
  file_in f (l ++ l') = file_in f l || file_in f l'.
Proof. apply existsb_app. Qed.

Lemma file_in_cons (f g : file) (l : list file) :
  file_in f (g :: l) = path_eqb (path_of f) (path_of g) || file_in f l.
Proof. reflexivity. Qed.

Lemma utf8_len_nonneg (s : string) : 0 <= PyStr.utf8_len s.
Proof.
  induction s as [|c s IH]; simpl; [lia|].
  destruct (nat_of_ascii c <? 128)%nat; lia.
Qed.

Lemma st_size_nonneg (f : file) : 0 <= st_size f.
Proof. apply utf8_len_nonneg. Qed.

Lemma total_size_cons (f : file) (l : list file) :
  total_size (f :: l) = st_size f + total_size l.
Proof. reflexivity. Qed.

Lemma total_size_nonneg (l : list file) : 0 <= total_size l.
Proof.
  induction l as [|f l IH]; [cbn; lia|].
  rewrite total_size_cons. pose proof (st_size_nonneg f). lia.
Qed.

Lemma total_size_app (l l' : list file) :
  total_size (l ++ l') = total_size l + total_size l'.
Proof.
  induction l as [|f l IH]; [reflexivity|].
  cbn [app]. rewrite !total_size_cons, IH. lia.
Qed.

Lemma total_size_perm (l l' : list file) :
  Permutation l l' -> total_size l = total_size l'.
Proof.
  induction 1; rewrite ?total_size_cons in *; lia.
Qed.

(** *** Sorting by modification time *)

Lemma insert_by_mtime_perm (f : file) (l : list file) :
  Permutation (insert_by_mtime f l) (f :: l).
Proof.
  induction l as [|g l IH]; cbn [insert_by_mtime]; [reflexivity|].
  destruct (st_mtime f <=? st_mtime g); [reflexivity|].
  rewrite IH. apply perm_swap.
Qed.

Lemma sorted_by_mtime_perm (l : list file) :
  Permutation (sorted_by_mtime l) l.
Proof.
  induction l as [|f l IH]; [reflexivity|].
  cbn [sorted_by_mtime fold_right]. fold (sorted_by_mtime l).
  rewrite insert_by_mtime_perm. apply perm_skip, IH.
Qed.

Lemma insert_by_mtime_sorted (f : file) (l : list file) :
  StronglySorted Spec.not_newer l ->
  StronglySorted Spec.not_newer (insert_by_mtime f l).
Proof.
  induction 1 as [|g l Hs IH Hg]; cbn [insert_by_mtime].
  - constructor; constructor.
  - destruct (Z.leb_spec (st_mtime f) (st_mtime g)) as [L|L].
    + constructor; [constructor; assumption|].
      constructor; [exact L|].
      eapply Forall_impl; [|exact Hg]. unfold Spec.not_newer. intros; lia.
    + constructor; [exact IH|].
      apply Forall_forall. intros x Hx.
      apply (Permutation_in _ (insert_by_mtime_perm f l)) in Hx.
      destruct Hx as [<-|Hx]; [unfold Spec.not_newer; lia|].
      rewrite Forall_forall in Hg. apply Hg, Hx.
Qed.

Lemma sorted_by_mtime_sorted (l : list file) :
  StronglySorted Spec.not_newer (sorted_by_mtime l).
Proof.
  induction l as [|f l IH]; [constructor|].
  cbn [sorted_by_mtime fold_right]. apply insert_by_mtime_sorted, IH.
Qed.

Lemma StronglySorted_filter (p : file -> bool) (l : list file) :
  StronglySorted Spec.not_newer l ->
  StronglySorted Spec.not_newer (filter p l).
Proof.
  induction 1 as [|g l Hs IH Hg]; cbn [filter]; [constructor|].
  destruct (p g); [|exact IH].
  constructor; [exact IH|].
  apply Forall_forall. intros x Hx. apply filter_In in Hx.
  rewrite Forall_forall in Hg. apply Hg, Hx.
Qed.

(** *** Unmarked files *)

Lemma NoDup_paths_filter (p : file -> bool) (l : list file) :
  NoDup (map path_of l) -> NoDup (map path_of (filter p l)).
Proof.
  induction l as [|f l IH]; cbn [map filter]; [auto|].
  intros H. inversion H as [|x xs Hx Hl]; subst.
  destruct (p f); [|apply IH, Hl].
  cbn [map]. constructor; [|apply IH, Hl].
  intros Hin. apply Hx. rewrite in_map_iff in *.
  destruct Hin as [g [E Hg]]. exists g. split; [exact E|].
  apply filter_In in Hg. tauto.
Qed.

Lemma NoDup_paths_perm (l l' : list file) :
  Permutation l l' -> NoDup (map path_of l) -> NoDup (map path_of l').
Proof.
  intros P. apply Permutation_NoDup, Permutation_map, P.
Qed.

Lemma filter_all (A : Type) (p : A -> bool) (l : list A) :
  (forall x, In x l -> p x = true) -> filter p l = l.
Proof.
  induction l as [|a l IH]; intros H; cbn [filter]; [reflexivity|].
  rewrite (H a (or_introl eq_refl)). f_equal. apply IH.
  intros x Hx. apply H. right. exact Hx.
Qed.

Lemma filter_filter_and (A : Type) (p q : A -> bool) (l : list A) :
  filter q (filter p l) = filter (fun x => p x && q x) l.
Proof.
  induction l as [|a l IH]; cbn [filter]; [reflexivity|].
  destruct (p a); cbn [filter andb]; [|exact IH].
  destruct (q a); [f_equal|]; exact IH.
Qed.

Lemma unmarked_app (D P files : list file) :
  Spec.unmarked (D ++ P) files = Spec.unmarked P (Spec.unmarked D files).
Proof.
  unfold Spec.unmarked. rewrite filter_filter_and. apply filter_ext.
  intros f. rewrite file_in_app, negb_orb. reflexivity.
Qed.

Lemma unmarked_firstn (R : list file) (k : nat) :
  NoDup (map path_of R) -> Spec.unmarked (firstn k R) R = skipn k R.
Proof.
  revert k. induction R as [|f R IH]; intros k H.
  - destruct k; reflexivity.
  - destruct k as [|k].
    + cbn [firstn skipn]. apply filter_all. reflexivity.
    + inversion H as [|x xs Hx Hl]; subst.
      cbn [firstn skipn]. unfold Spec.unmarked. cbn [filter].
      rewrite file_in_cons.
      replace (path_eqb (path_of f) (path_of f)) with true
        by (symmetry; apply path_eqb_eq; reflexivity).
      cbn [orb negb]. rewrite <- (IH k Hl). unfold Spec.unmarked.
      apply filter_ext_in. intros g Hg. rewrite file_in_cons.
      destruct (path_eqb (path_of g) (path_of f)) eqn:E; [|reflexivity].
      apply path_eqb_eq in E. exfalso. apply Hx. rewrite <- E.
      apply in_map, Hg.
Qed.

Lemma unmarked_after_prefix (D files : list file) (k : nat) :
  NoDup (map path_of files) ->
  Spec.unmarked (D ++ firstn k (Spec.unmarked D files)) files
  = skipn k (Spec.unmarked D files).
Proof.
  intros H. rewrite unmarked_app. apply unmarked_firstn.
  apply NoDup_paths_filter, H.
Qed.

Lemma unmarked_not_in (D files : list file) (f : file) :
  In f (Spec.unmarked D files) -> file_in f D = false.
Proof.
  unfold Spec.unmarked. intros H. apply filter_In in H.
  destruct H as [_ H]. apply negb_true_iff, H.
Qed.

Lemma total_size_unmarked_mono (D D' l : list file) :
  (forall f, file_in f D = true -> file_in f D' = true) ->
  total_size (Spec.unmarked D' l) <= total_size (Spec.unmarked D l).
Proof.
  intros H. unfold Spec.unmarked.
  induction l as [|f l IH]; cbn [filter]; [lia|].
  pose proof (st_size_nonneg f).
  destruct (file_in f D) eqn:E.
  - rewrite (H f E). cbn [negb]. exact IH.
  - cbn [negb]. destruct (file_in f D'); cbn [negb];
      rewrite ?total_size_cons; lia.
Qed.

Lemma unmarked_perm (D l l' : list file) :
  Permutation l l' ->
  Permutation (Spec.unmarked D l) (Spec.unmarked D l').
Proof.
  unfold Spec.unmarked.
  induction 1 as [|x l l' P IH|x y l|l l' l'' P1 IH1 P2 IH2];
    cbn [filter].
  - constructor.
  - destruct (negb (file_in x D)); [apply perm_skip|]; exact IH.
  - destruct (negb (file_in x D)), (negb (file_in y D));
      try reflexivity. apply perm_swap.
  - etransitivity; eassumption.
Qed.

(** *** The stages *)

Lemma lib_age_stage_files (c : string) (d : Z) (fs : list file)
    (m : Lib.marks) :
  Lib.files_to_delete (Lib.age_stage c d fs m)
  = (Lib.files_to_delete m
     ++ filter (fun f => (parent_name f <? c)%string) fs)%list.
Proof.
  revert m. induction fs as [|f fs IH]; intros m;
    cbn [Lib.age_stage filter].
  - rewrite app_nil_r. reflexivity.
  - destruct (parent_name f <? c)%string; [|apply IH].
    rewrite IH. cbn [Lib.mark Lib.files_to_delete].
    rewrite <- app_assoc. reflexivity.
Qed.

Lemma cli_age_stage_files (c : string) (d : Z) (fs : list file)
    (m : Cli.marks) :
  Cli.to_delete (Cli.age_stage c d fs m)
  = (Cli.to_delete m ++ filter (fun f => (parent_name f <? c)%string) fs)%list.
Proof.
  revert m. induction fs as [|f fs IH]; intros m;
    cbn [Cli.age_stage filter].
  - rewrite app_nil_r. reflexivity.
  - destruct (parent_name f <? c)%string; [|apply IH].
    rewrite IH. cbn [Cli.mark Cli.to_delete].
    rewrite <- app_assoc. reflexivity.
Qed.

Lemma int_le_mono (a b : Z) (x : PrimFloat.float) :
  a <= b -> PyFloat.int_le b x = true -> PyFloat.int_le a x = true.
Proof.
  unfold PyFloat.int_le. intros H. destruct (PyFloat.value_of x); auto.
  rewrite !Qle_bool_iff. intros L. eapply Qle_trans; [|exact L].
  rewrite <- Zle_Qle. exact H.
Qed.

Lemma int_gt_mono (a b : Z) (x : PrimFloat.float) :
  a <= b -> PyFloat.int_gt a x = true -> PyFloat.int_gt b x = true.
Proof.
  unfold PyFloat.int_gt. intros H. destruct (PyFloat.value_of x); auto.
  rewrite !negb_true_iff. intros L.
  destruct (Qle_bool (inject_Z b) q) eqn:E; [|reflexivity].
  apply Qle_bool_iff in E.
  assert (X : Qle_bool (inject_Z a) q = true).
  { apply Qle_bool_iff. eapply Qle_trans; [|exact E].
    rewrite <- Zle_Qle. exact H. }
  congruence.
Qed.

Lemma stops_at_next (target : PrimFloat.float) (f : file)
    (rest : list file) (k : nat) :
  PyFloat.int_le (total_size (f :: rest)) target = false ->
  Spec.stops_at target rest k -> Spec.stops_at target (f :: rest) (S k).
Proof.
  intros N [A B]. split; [exact A|].
  intros [|j] Hj; [exact N|]. cbn [skipn]. apply B. lia.
Qed.

Lemma lib_size_loop_spec (mb lim : PrimFloat.float)
    (remaining : list file) :
  NoDup (map path_of remaining) ->
  forall (m : Lib.marks),
    (forall f, In f remaining -> file_in f (Lib.files_to_delete m) = false) ->
    exists k,
      Lib.files_to_delete
        (Lib.size_loop mb lim remaining (total_size remaining) m)
      = (Lib.files_to_delete m ++ firstn k remaining)%list
      /\ Spec.stops_at (PrimFloat.mul lim PyFloat.point_eight) remaining k.
Proof.
  induction remaining as [|f rest IH]; intros Hn m Hm.
  - exists 0%nat. cbn. rewrite app_nil_r.
    split; [reflexivity|]. split; [right; reflexivity | intros; lia].
  - cbn [Lib.size_loop].
    destruct (PyFloat.int_le (total_size (f :: rest))
                (PrimFloat.mul lim PyFloat.point_eight)) eqn:Q.
    + exists 0%nat. cbn [firstn skipn]. rewrite app_nil_r.
      split; [reflexivity|].
      split; [left; exact Q | intros; lia].
    + rewrite (Hm f (or_introl eq_refl)). cbn [negb].
      inversion Hn as [|x xs Hx Hl]; subst.
      replace (total_size (f :: rest) - st_size f) with (total_size rest)
        by (rewrite total_size_cons; lia).
      destruct (IH Hl (Lib.mark m f (Lib.over_size_limit mb)))
        as [k [E St]].
      * intros g Hg. cbn [Lib.mark Lib.files_to_delete].
        rewrite file_in_app, (Hm g (or_intror Hg)). cbn [orb].
        apply file_in_not_In. cbn [map]. intros [E|[]].
        apply Hx. rewrite E. apply in_map, Hg.
      * exists (S k). cbn [firstn]. rewrite E.
        cbn [Lib.mark Lib.files_to_delete]. rewrite <- app_assoc.
        split; [reflexivity|].
        apply stops_at_next; [exact Q|exact St].
Qed.

Lemma cli_size_loop_spec (lim : PrimFloat.float) (remaining : list file)
    (m : Cli.marks) :
  exists k,
    Cli.to_delete (Cli.size_loop lim remaining (total_size remaining) m)
    = (Cli.to_delete m ++ firstn k remaining)%list
    /\ Spec.stops_at (PrimFloat.mul lim PyFloat.point_eight) remaining k.
Proof.
  revert m. induction remaining as [|f rest IH]; intros m.
  - exists 0%nat. cbn. rewrite app_nil_r.
    split; [reflexivity|]. split; [right; reflexivity | intros; lia].
  - cbn [Cli.size_loop].
    destruct (PyFloat.int_le (total_size (f :: rest))
                (PrimFloat.mul lim PyFloat.point_eight)) eqn:Q.
    + exists 0%nat. cbn [firstn skipn]. rewrite app_nil_r.
      split; [reflexivity|].
      split; [left; exact Q | intros; lia].
    + replace (total_size (f :: rest) - st_size f) with (total_size rest)
        by (rewrite total_size_cons; lia).
      destruct (IH (Cli.mark m f Cli.size_limit)) as [k [E St]].
      exists (S k). cbn [firstn]. rewrite E.
      cbn [Cli.mark Cli.to_delete]. rewrite <- app_assoc.
      split; [reflexivity|].
      apply stops_at_next; [exact Q|exact St].
Qed.

Lemma lib_size_stage_spec (mb : PrimFloat.float) (files : list file)
    (m : Lib.marks) :
  NoDup (map path_of files) ->
  let R := Spec.unmarked (Lib.files_to_delete m) files in
  let m' := Lib.size_stage mb files m in
  exists k,
    Lib.files_to_delete m' = (Lib.files_to_delete m ++ firstn k R)%list
    /\ Spec.unmarked (Lib.files_to_delete m') files = skipn k R
    /\ (Spec.over_limit mb (total_size files) = false -> m' = m)
    /\ (Spec.over_limit mb (total_size files) = true ->
        Spec.stops_at (Spec.target_bytes mb) R k).
Proof.
  intros Hn R m'. unfold m', Lib.size_stage, Spec.over_limit.
  fold (Spec.limit_bytes mb). fold (Spec.unmarked (Lib.files_to_delete m) files).
  fold R.
  destruct (PyFloat.int_gt (total_size files) (Spec.limit_bytes mb)) eqn:Q.
  - destruct (lib_size_loop_spec mb (Spec.limit_bytes mb) R) with (m := m)
      as [k [E St]].
    + apply NoDup_paths_filter, Hn.
    + intros f Hf. exact (unmarked_not_in _ _ _ Hf).
    + exists k. split; [exact E|]. split.
      * rewrite E. apply unmarked_after_prefix, Hn.
      * split; [discriminate|intros _; exact St].
  - exists 0%nat. cbn [firstn skipn]. rewrite app_nil_r.
    split; [reflexivity|]. split; [reflexivity|]. split; [reflexivity|].
    discriminate.
Qed.

Lemma cli_size_stage_spec (mb : PrimFloat.float) (files : list file)
    (m : Cli.marks) :
  NoDup (map path_of files) ->
  let R := Spec.unmarked (Cli.to_delete m) files in
  let m' := Cli.size_stage mb files m in
  exists k,
    Cli.to_delete m' = (Cli.to_delete m ++ firstn k R)%list
    /\ Spec.unmarked (Cli.to_delete m') files = skipn k R
    /\ (Spec.over_limit mb (total_size R) = false -> m' = m)
    /\ (Spec.over_limit mb (total_size R) = true ->
        Spec.stops_at (Spec.target_bytes mb) R k).
Proof.
  intros Hn R m'. unfold m', Cli.size_stage, Spec.over_limit.
  fold (Spec.limit_bytes mb). fold (Spec.unmarked (Cli.to_delete m) files).
  fold R.
  destruct (PyFloat.int_gt (total_size R) (Spec.limit_bytes mb)) eqn:Q.
  - destruct (cli_size_loop_spec (Spec.limit_bytes mb) R m) as [k [E St]].
    exists k. split; [exact E|]. split.
    + rewrite E. apply unmarked_after_prefix, Hn.
    + split; [discriminate|intros _; exact St].
  - exists 0%nat. cbn [firstn skipn]. rewrite app_nil_r.
    split; [reflexivity|]. split; [reflexivity|]. split; [reflexivity|].
    discriminate.
Qed.

Lemma In_firstn (A : Type) (k : nat) (l : list A) (x : A) :
  In x (firstn k l) -> In x l.
Proof.
  intros H. rewrite <- (firstn_skipn k l). apply in_or_app. left. exact H.
Qed.

Lemma NoDup_paths_firstn (k : nat) (l : list file) :
  NoDup (map path_of l) -> NoDup (map path_of (firstn k l)).
Proof.
  intros H. rewrite <- firstn_map.
  rewrite <- (firstn_skipn k (map path_of l)) in H.
  exact (NoDup_app_remove_r _ _ H).
Qed.

Lemma slice_to_firstn (A : Type) (e : Z) (l : list A) :
  exists j, slice_to e l = firstn j l.
Proof. unfold slice_to. destruct (e <? 0); eexists; reflexivity. Qed.

Lemma lib_count_loop_spec (mf : Z) (excess : list file) :
  NoDup (map path_of excess) ->
  forall m : Lib.marks,
    (forall f, In f excess -> file_in f (Lib.files_to_delete m) = false) ->
    Lib.files_to_delete (Lib.count_loop mf excess m)
    = (Lib.files_to_delete m ++ excess)%list.
Proof.
  induction excess as [|f rest IH]; intros Hn m Hm; cbn [Lib.count_loop].
  - rewrite app_nil_r. reflexivity.
  - rewrite (Hm f (or_introl eq_refl)). cbn [negb].
    inversion Hn as [|x xs Hx Hl]; subst.
    rewrite (IH Hl).
    + cbn [Lib.mark Lib.files_to_delete]. rewrite <- app_assoc. reflexivity.
    + intros g Hg. cbn [Lib.mark Lib.files_to_delete].
      rewrite file_in_app, (Hm g (or_intror Hg)). cbn [orb].
      apply file_in_not_In. cbn [map]. intros [E|[]].
      apply Hx. rewrite E. apply in_map, Hg.
Qed.

Lemma cli_count_loop_spec (excess : list file) (m : Cli.marks) :
  Cli.to_delete (Cli.count_loop excess m)
  = (Cli.to_delete m ++ excess)%list.
Proof.
  revert m. induction excess as [|f rest IH]; intros m;
    cbn [Cli.count_loop].
  - rewrite app_nil_r. reflexivity.
  - rewrite IH. cbn [Cli.mark Cli.to_delete]. rewrite <- app_assoc.
    reflexivity.
Qed.

Lemma count_excess_firstn (mf : Z) (R : list file) :
  exists j, Spec.count_excess mf R = firstn j R.
Proof.
  unfold Spec.count_excess. destruct (mf <? Z.of_nat (List.length R)).
  - apply slice_to_firstn.
  - exists 0%nat. reflexivity.
Qed.

Lemma lib_count_stage_files (mf : Z) (files : list file) (m : Lib.marks) :
  NoDup (map path_of files) ->
  Lib.files_to_delete (Lib.count_stage mf files m)
  = (Lib.files_to_delete m
     ++ Spec.count_excess mf
          (Spec.unmarked (Lib.files_to_delete m) files))%list.
Proof.
  intros Hn. unfold Lib.count_stage, Spec.count_excess.
  fold (Spec.unmarked (Lib.files_to_delete m) files).
  set (R := Spec.unmarked (Lib.files_to_delete m) files).
  destruct (mf <? Z.of_nat (List.length R)).
  - destruct (slice_to_firstn _
                (Z.of_nat (List.length R) - int_80_percent mf) R) as [j E].
    rewrite E. apply lib_count_loop_spec.
    + apply NoDup_paths_firstn, NoDup_paths_filter, Hn.
    + intros f Hf. apply In_firstn in Hf.
      exact (unmarked_not_in _ _ _ Hf).
  - rewrite app_nil_r. reflexivity.
Qed.

Lemma cli_count_stage_files (mf : Z) (files : list file) (m : Cli.marks) :
  Cli.to_delete (Cli.count_stage mf files m)
  = (Cli.to_delete m
     ++ Spec.count_excess mf (Spec.unmarked (Cli.to_delete m) files))%list.
Proof.
  unfold Cli.count_stage, Spec.count_excess.
  fold (Spec.unmarked (Cli.to_delete m) files).
  set (R := Spec.unmarked (Cli.to_delete m) files).
  destruct (mf <? Z.of_nat (List.length R)).
  - apply cli_count_loop_spec.
  - rewrite app_nil_r. reflexivity.
Qed.

Lemma lib_count_stage_spec (mf : Z) (files : list file) (m : Lib.marks) :
  NoDup (map path_of files) ->
  exists j,
    Lib.files_to_delete (Lib.count_stage mf files m)
    = (Lib.files_to_delete m
       ++ firstn j (Spec.unmarked (Lib.files_to_delete m) files))%list.
Proof.
  intros Hn. rewrite (lib_count_stage_files mf files m Hn).
  destruct (count_excess_firstn mf
              (Spec.unmarked (Lib.files_to_delete m) files)) as [j ->].
  exists j. reflexivity.
Qed.

Lemma cli_count_stage_spec (mf : Z) (files : list file) (m : Cli.marks) :
  exists j,
    Cli.to_delete (Cli.count_stage mf files m)
    = (Cli.to_delete m
       ++ firstn j (Spec.unmarked (Cli.to_delete m) files))%list.
Proof.
  rewrite (cli_count_stage_files mf files m).
  destruct (count_excess_firstn mf
              (Spec.unmarked (Cli.to_delete m) files)) as [j ->].
  exists j. reflexivity.
Qed.

(** Marking more files of [files]: the marked files stay distinct files
    of [files]. *)
Lemma extend_marked (D files : list file) (k : nat) :
  NoDup (map path_of files) ->
  NoDup (map path_of D) -> incl D files ->
  NoDup (map path_of (D ++ firstn k (Spec.unmarked D files)))
  /\ incl (D ++ firstn k (Spec.unmarked D files)) files.
Proof.
  intros Hn Hd Hi. split.
  - rewrite map_app. apply NoDup_app; [exact Hd | |].
    + apply NoDup_paths_firstn, NoDup_paths_filter, Hn.
    + intros p Hp Hq. apply in_map_iff in Hq. destruct Hq as [g [E Hg]].
      apply In_firstn in Hg. apply unmarked_not_in in Hg.
      apply file_in_not_In in Hg. apply Hg. rewrite E. exact Hp.
  - intros f Hf. apply in_app_or in Hf. destruct Hf as [Hf|Hf].
    + apply Hi, Hf.
    + apply In_firstn in Hf. unfold Spec.unmarked in Hf.
      apply filter_In in Hf. tauto.
Qed.

(** *** Removing the files *)

Lemma unlink_all_files (o : os) (cands fs : list file) (d : Z) :
  fst (unlink_all o fs cands d)
  = Spec.unmarked (filter (fun f => unlink_ok o (path_of f)) cands) fs.
Proof.
  revert fs d. induction cands as [|f rest IH]; intros fs d.
  - cbn. symmetry. apply filter_all. reflexivity.
  - cbn [unlink_all filter].
    destruct (unlink_ok o (path_of f)); cbn [andb]; [|apply IH].
    set (X := filter (fun f => unlink_ok o (path_of f)) rest) in *.
    destruct (file_in f fs) eqn:E.
    + rewrite IH. fold X. unfold Spec.unmarked.
      rewrite filter_filter_and. apply filter_ext. intros g.
      rewrite file_in_cons, negb_orb, path_eqb_sym. reflexivity.
    + rewrite IH. fold X. unfold Spec.unmarked.
      apply filter_ext_in. intros g Hg. rewrite file_in_cons.
      destruct (path_eqb (path_of g) (path_of f)) eqn:P; [|reflexivity].
      apply path_eqb_eq in P. apply file_in_not_In in E.
      exfalso. apply E. rewrite <- P. apply in_map, Hg.
Qed.

Lemma unlink_all_count (o : os) (cands : list file) :
  NoDup (map path_of cands) ->
  forall fs d,
    (forall f, In f cands -> file_in f fs = true) ->
    snd (unlink_all o fs cands d)
    = d + Z.of_nat
            (List.length (filter (fun f => unlink_ok o (path_of f)) cands)).
Proof.
  induction cands as [|f rest IH]; intros Hn fs d Hin.
  - cbn. lia.
  - inversion Hn as [|x xs Hx Hl]; subst.
    cbn [unlink_all filter].
    rewrite (Hin f (or_introl eq_refl)), andb_true_r.
    destruct (unlink_ok o (path_of f)).
    + rewrite (IH Hl).
      * cbn [List.length]. lia.
      * intros g Hg. apply file_in_In.
        assert (G := Hin g (or_intror Hg)). apply file_in_In in G.
        apply in_map_iff in G. destruct G as [h [E Hh]].
        apply in_map_iff. exists h. split; [exact E|].
        apply filter_In. split; [exact Hh|].
        apply negb_true_iff.
        destruct (path_eqb (path_of f) (path_of h)) eqn:P; [|reflexivity].
        apply path_eqb_eq in P. exfalso. apply Hx.
        rewrite P, E. apply in_map, Hg.
    + apply (IH Hl). intros g Hg. apply Hin. right. exact Hg.
Qed.

Lemma lib_select_marked (c : string) (d : Z) (mb : PrimFloat.float) (mf : Z) (st : store) :
  NoDup (map path_of (rglob st)) ->
  let D := Lib.files_to_delete (Lib.select c d mb mf st) in
  NoDup (map path_of D) /\ incl D (sorted_by_mtime (rglob st)).
Proof.
  intros Hn. unfold Lib.select.
  set (files := sorted_by_mtime (rglob st)).
  assert (Hf : NoDup (map path_of files)).
  { apply (NoDup_paths_perm (rglob st)); [|exact Hn].
    symmetry. apply sorted_by_mtime_perm. }
  set (m1 := Lib.age_stage c d files (Lib.mkMarks [] [])).
  assert (H1 : NoDup (map path_of (Lib.files_to_delete m1))
               /\ incl (Lib.files_to_delete m1) files).
  { unfold m1. rewrite lib_age_stage_files. cbn [Lib.files_to_delete app].
    split; [apply NoDup_paths_filter, Hf|].
    intros f Hin. apply filter_In in Hin. tauto. }
  set (m2 := Lib.size_stage mb files m1).
  assert (H2 : NoDup (map path_of (Lib.files_to_delete m2))
               /\ incl (Lib.files_to_delete m2) files).
  { destruct (lib_size_stage_spec mb files m1 Hf) as [k [E _]].
    fold m2 in E. rewrite E. apply extend_marked; tauto. }
  destruct (lib_count_stage_spec mf files m2 Hf) as [j E].
  cbn zeta. rewrite E. apply extend_marked; tauto.
Qed.

Lemma NoDup_paths_rglob (st : store) :
  NoDup (map path_of (st_files st)) -> NoDup (map path_of (rglob st)).
Proof. apply NoDup_paths_filter. Qed.

Lemma sorted_rglob_in_store (st : store) (f : file) :
  In f (sorted_by_mtime (rglob st)) -> file_in f (st_files st) = true.
Proof.
  intros H. apply (Permutation_in _ (sorted_by_mtime_perm _)) in H.
  unfold rglob in H. apply filter_In in H.
  apply file_in_In, in_map. tauto.
Qed.

(** The claim C8 as it is written fails on its last part.  When the old
    session cannot be removed, the pass goes on and removes the other
    candidate (90 bytes) and counts one deletion, but it reports 140
    freed bytes: the 50 bytes of the file that is still there are
    counted. *)
Lemma freed_bytes_count_failed_deletions :
  let r :=
    Lib.cleanup_logs Sample.old_file_locked (Some Sample.two_day_store)
      "2020-01-05" 7 Sample.fifty 0 false in
  fst r = Some (mkStore ["2020-01-01"] [Sample.old_file])
  /\ Lib.deleted_files (snd r) = 1
  /\ Lib.freed_bytes (snd r) = 140
  /\ Lib.freed_bytes (snd r) <> st_size Sample.new_file.
Proof. cbn zeta. repeat split. vm_compute. discriminate. Qed.

(** A pass of [cleanup_logs] that is no dry run, in one equation. *)
Lemma cleanup_logs_real_run (o : os) (st : store) (cutoff : string)
    (retention_days : Z) (max_size_mb : PrimFloat.float) (max_files : Z) :
  NoDup (map path_of (st_files st)) ->
  let candidates :=
    Lib.files_to_delete
      (Lib.select cutoff retention_days max_size_mb max_files st) in
  let removed := filter (fun f => unlink_ok o (path_of f)) candidates in
  let fs := Spec.unmarked removed (st_files st) in
  Lib.cleanup_logs o (Some st) cutoff retention_days max_size_mb max_files
    false
  = (Some (mkStore (remove_empty_dirs o (st_dirs st) fs) fs),
     Lib.mkReport (Z.of_nat (List.length removed)) (total_size candidates)
       [] [] None).
Proof.
  intros Hn candidates removed fs. unfold Lib.cleanup_logs.
  fold candidates.
  destruct (unlink_all o (st_files st) candidates 0) as [fs' n] eqn:U.
  assert (F : fs' = fs).
  { change fs' with (fst (fs', n)). rewrite <- U. apply unlink_all_files. }
  assert (N : n = Z.of_nat (List.length removed)).
  { change n with (snd (fs', n)). rewrite <- U.
    destruct (lib_select_marked cutoff retention_days max_size_mb max_files
                st (NoDup_paths_rglob st Hn)) as [Hd Hi].
    rewrite unlink_all_count; [reflexivity | exact Hd |].
    intros f Hf. apply sorted_rglob_in_store, Hi, Hf. }
  subst fs' n. reflexivity.
Qed.

(** The part of C3 on retention: a dry run of [cleanup_logs] counts and
    lists, with their reasons, the files that the run which is no dry
    run hands to [unlink]; when every removal succeeds the two runs
    report the same count and the same freed bytes. *)
Lemma retention_dry_run_candidates (o : os) (st : store) (cutoff : string)
    (retention_days : Z) (max_size_mb : PrimFloat.float) (max_files : Z) :
  NoDup (map path_of (st_files st)) ->
  let m := Lib.select cutoff retention_days max_size_mb max_files st in
  let dry :=
    snd (Lib.cleanup_logs o (Some st) cutoff retention_days max_size_mb
           max_files true) in
  let real :=
    Lib.cleanup_logs o (Some st) cutoff retention_days max_size_mb max_files
      false in
  Lib.files dry = map path_of (Lib.files_to_delete m)
  /\ Lib.report_reasons dry = Lib.reasons m
  /\ Lib.deleted_files dry = Z.of_nat (List.length (Lib.files_to_delete m))
  /\ Lib.freed_bytes dry = Lib.freed_bytes (snd real)
  /\ ((forall p, unlink_ok o p = true) ->
      Lib.deleted_files (snd real) = Lib.deleted_files dry
      /\ exists st',
           fst real = Some st'
           /\ st_files st'
              = Spec.unmarked (Lib.files_to_delete m) (st_files st)).
Proof.
  intros Hn m dry real. unfold real.
  rewrite (cleanup_logs_real_run o st cutoff retention_days max_size_mb
             max_files Hn).
  fold m. cbn [snd fst Lib.freed_bytes Lib.deleted_files].
  repeat split.
  - rewrite filter_all by (intros; apply H). reflexivity.
  - eexists. split; [reflexivity|]. cbn [st_files].
    rewrite filter_all by (intros; apply H). reflexivity.
Qed.

(** C8, amended.  In a pass of [cleanup_logs] that is no dry run over a
    store of distinct paths, every candidate that the system lets go is
    removed, whether or not the removal of another candidate failed;
    [deleted_files] counts the candidates removed, not those whose
    removal failed; [freed_bytes] is the total size of all the
    candidates, computed before any removal, so it counts a file whose
    removal failed. *)
Theorem deletion_failures_tolerated (o : os) (st : store) (cutoff : string)
    (retention_days : Z) (max_size_mb : PrimFloat.float) (max_files : Z) :
  NoDup (map path_of (st_files st)) ->
  let candidates :=
    Lib.files_to_delete
      (Lib.select cutoff retention_days max_size_mb max_files st) in
  let removed := filter (fun f => unlink_ok o (path_of f)) candidates in
  let fs := Spec.unmarked removed (st_files st) in
  Lib.cleanup_logs o (Some st) cutoff retention_days max_size_mb max_files
    false
  = (Some (mkStore (remove_empty_dirs o (st_dirs st) fs) fs),
     Lib.mkReport (Z.of_nat (List.length removed)) (total_size candidates)
       [] [] None)
  /\ (forall f, In f (st_files st) ->
        (In f fs <-> file_in f removed = false))
  /\ incl removed candidates.
Proof.
  intros Hn candidates removed fs.
  split; [apply cleanup_logs_real_run, Hn|]. split.
  - intros f Hf. unfold fs, Spec.unmarked. rewrite filter_In, negb_true_iff.
    tauto.
  - intros f Hf. unfold removed in Hf. apply filter_In in Hf. tauto.
Qed.

Lemma deletion_failures_tolerated_witness :
  Lib.cleanup_logs Sample.old_file_locked (Some Sample.two_day_store)
    "2020-01-05" 7 Sample.fifty 0 false
  = (Some (mkStore ["2020-01-01"] [Sample.old_file]),
     Lib.mkReport 1 140 [] [] None).
Proof.
  assert (Hn : NoDup (map path_of (st_files Sample.two_day_store)))
    by (repeat constructor; cbn; intuition discriminate).
  destruct (deletion_failures_tolerated Sample.old_file_locked
              Sample.two_day_store "2020-01-05" 7 Sample.fifty 0 Hn) as [E _].
  rewrite E. reflexivity.
Defined.

(** *** After the size stage *)


Lemma stops_within_target (mb : PrimFloat.float) (R : list file) (k : nat) :
  Spec.within_target mb 0 = true ->
  Spec.stops_at (Spec.target_bytes mb) R k ->
  Spec.within_target mb (total_size (skipn k R)) = true.
Proof.
  intros H [[A|A] _]; [exact A|].
  rewrite A. exact H.
Qed.

Lemma filter_comm (A : Type) (p q : A -> bool) (l : list A) :
  filter p (filter q l) = filter q (filter p l).
Proof.
  rewrite !filter_filter_and. apply filter_ext. intros x. apply andb_comm.
Qed.

Lemma remaining_after_unlink (o : os) (st : store) (cands D : list file) :
  (forall p, unlink_ok o p = true) ->
  (forall f, file_in f D = true -> file_in f cands = true) ->
  total_size (filter is_jsonl (fst (unlink_all o (st_files st) cands 0)))
  <= total_size (Spec.unmarked D (sorted_by_mtime (rglob st))).
Proof.
  intros Hok Hsub. rewrite unlink_all_files.
  rewrite (filter_all _ (fun f => unlink_ok o (path_of f)) cands)
    by (intros; apply Hok).
  unfold Spec.unmarked at 1. rewrite filter_comm.
  fold (rglob st). fold (Spec.unmarked cands (rglob st)).
  rewrite (total_size_perm _ _
             (unmarked_perm cands _ _
                (Permutation_sym (sorted_by_mtime_perm (rglob st))))).
  apply total_size_unmarked_mono, Hsub.
Qed.

(** The claim C2 as it is written fails in two ways, in both functions.
    - The threshold is a rounded product.  With a limit just under 100
      bytes ([max_size_mb = 9.536743164062499e-05]) and three recent
      sessions of 40 bytes, the stage triggers (120 bytes), marks the
      oldest session and stops at 80 bytes, since the double
      [limit * 0.8] is [80.0]; but 80 percent of the limit is less
      than 80.
    - For a negative limit ([max_size_mb = -1]) the stage triggers,
      every file is marked and removed, and the remaining total, 0
      bytes, is above the threshold, which is negative. *)
Lemma size_stage_leaves_more_than_80_percent :
  (fst (Cli.cleanup Sample.everything_allowed (Some Sample.forty_store)
          "2020-01-05" 7 Sample.just_under_hundred_bytes 100 false)
   = Some (mkStore ["2020-01-09"] [Sample.forty_b; Sample.forty_c])
   /\ fst (Lib.cleanup_logs Sample.everything_allowed
             (Some Sample.forty_store) "2020-01-05" 7
             Sample.just_under_hundred_bytes 100 false)
      = Some (mkStore ["2020-01-09"] [Sample.forty_b; Sample.forty_c])
   /\ total_size [Sample.forty_b; Sample.forty_c] = 80
   /\ exists limit,
        PyFloat.value_of (Spec.limit_bytes Sample.just_under_hundred_bytes)
        = PyFloat.Finite limit
        /\ (limit * (8 # 10) < 80)%Q)
  /\ (Spec.over_limit Sample.minus_one (total_size [Sample.new_file]) = true
      /\ fst (Cli.cleanup Sample.everything_allowed
                (Some Sample.two_day_store) "2020-01-05" 7 Sample.minus_one
                100 false)
         = Some (mkStore [] [])
      /\ fst (Lib.cleanup_logs Sample.everything_allowed
                (Some Sample.two_day_store) "2020-01-05" 7 Sample.minus_one
                100 false)
         = Some (mkStore [] [])
      /\ Spec.within_target Sample.minus_one
           (total_size (rglob (mkStore [] []))) = false).
Proof.
  split.
  - split; [vm_compute; reflexivity|]. split; [vm_compute; reflexivity|].
    split; [vm_compute; reflexivity|].
    eexists. split; [vm_compute; reflexivity|]. vm_compute. reflexivity.
  - repeat split; vm_compute; reflexivity.
Qed.

Lemma file_in_prefix (D P : list file) (f : file) :
  file_in f D = true -> file_in f (D ++ P) = true.
Proof. intros H. rewrite file_in_app, H. reflexivity. Qed.

Lemma cli_cleanup_remaining (o : os) (st st' : store) (cutoff : string)
    (d : Z) (mb : PrimFloat.float) (mf : Z) :
  (forall p, unlink_ok o p = true) ->
  fst (Cli.cleanup o (Some st) cutoff d mb mf false) = Some st' ->
  let files := sorted_by_mtime (rglob st) in
  total_size (rglob st')
  <= total_size
       (Spec.unmarked
          (Cli.to_delete
             (Cli.size_stage mb files
                (Cli.age_stage cutoff d files (Cli.mkMarks [] []))))
          files).
Proof.
  intros Hok E files. unfold Cli.cleanup in E.
  destruct (unlink_all o (st_files st)
              (Cli.to_delete (Cli.select cutoff d mb mf st)) 0)
    as [fs n] eqn:U.
  cbn [fst] in E. injection E as <-. unfold rglob at 1. cbn [st_files].
  change fs with (fst (fs, n)). rewrite <- U.
  apply remaining_after_unlink; [exact Hok|].
  intros f Hf. unfold Cli.select. fold files.
  destruct (cli_count_stage_spec mf files
              (Cli.size_stage mb files
                 (Cli.age_stage cutoff d files (Cli.mkMarks [] []))))
    as [j ->].
  apply file_in_prefix, Hf.
Qed.

Lemma lib_cleanup_remaining (o : os) (st st' : store) (cutoff : string)
    (d : Z) (mb : PrimFloat.float) (mf : Z) :
  NoDup (map path_of (rglob st)) ->
  (forall p, unlink_ok o p = true) ->
  fst (Lib.cleanup_logs o (Some st) cutoff d mb mf false) = Some st' ->
  let files := sorted_by_mtime (rglob st) in
  total_size (rglob st')
  <= total_size
       (Spec.unmarked
          (Lib.files_to_delete
             (Lib.size_stage mb files
                (Lib.age_stage cutoff d files (Lib.mkMarks [] []))))
          files).
Proof.
  intros Hn Hok E files. unfold Lib.cleanup_logs in E.
  destruct (unlink_all o (st_files st)
              (Lib.files_to_delete (Lib.select cutoff d mb mf st)) 0)
    as [fs n] eqn:U.
  cbn [fst] in E. injection E as <-. unfold rglob at 1. cbn [st_files].
  change fs with (fst (fs, n)). rewrite <- U.
  apply remaining_after_unlink; [exact Hok|].
  intros f Hf. unfold Lib.select. fold files.
  destruct (lib_count_stage_spec mf files
              (Lib.size_stage mb files
                 (Lib.age_stage cutoff d files (Lib.mkMarks [] []))))
    as [j ->].
  - apply (NoDup_paths_perm (rglob st)); [|exact Hn].
    symmetry. apply sorted_by_mtime_perm.
  - apply file_in_prefix, Hf.
Qed.

Lemma total_size_unmarked_le (D l : list file) :
  total_size (Spec.unmarked D l) <= total_size l.
Proof.
  unfold Spec.unmarked. induction l as [|f l IH]; cbn [filter]; [lia|].
  pose proof (st_size_nonneg f).
  destruct (negb (file_in f D)); rewrite ?total_size_cons; lia.
Qed.

(** C2, amended.  Over a store of distinct paths, with [files] the
    [.jsonl] files sorted by modification time, [aged] those the age
    stage marks and [R] the others, which are in ascending order of
    modification time, and with the limit and the threshold the doubles
    [max_size_mb * 1024 * 1024] and [limit * 0.8] that the code
    computes:
    - in the tool's [cleanup] the size stage marks nothing when the
      total size of [R] is not above the limit;
    - in both functions the size stage marks a prefix of [R], the
      oldest first, and when the total of [R] is above the limit it
      stops at the first point where the total of the files still
      unmarked is at most the threshold, or when no unmarked file is
      left;
    - so when the threshold is not negative and the total of [R] was
      above the limit, the files still unmarked after the stage total
      at most the threshold, and when every removal succeeds so do the
      files that remain in the store after the pass. *)
Theorem size_stage_hysteresis (o : os) (st : store) (cutoff : string)
    (retention_days : Z) (max_size_mb : PrimFloat.float) (max_files : Z) :
  NoDup (map path_of (st_files st)) ->
  let files := sorted_by_mtime (rglob st) in
  let aged := filter (fun f => (parent_name f <? cutoff)%string) files in
  let R := Spec.unmarked aged files in
  let lib :=
    Lib.files_to_delete
      (Lib.size_stage max_size_mb files
         (Lib.age_stage cutoff retention_days files (Lib.mkMarks [] []))) in
  let cli :=
    Cli.to_delete
      (Cli.size_stage max_size_mb files
         (Cli.age_stage cutoff retention_days files (Cli.mkMarks [] []))) in
  let over_limit := Spec.over_limit max_size_mb (total_size R) = true in
  let within_target (l : list file) :=
    Spec.within_target max_size_mb (total_size l) = true in
  StronglySorted Spec.not_newer R
  /\ (Spec.over_limit max_size_mb (total_size R) = false -> cli = aged)
  /\ (exists k,
        cli = (aged ++ firstn k R)%list
        /\ Spec.unmarked cli files = skipn k R
        /\ (over_limit ->
            Spec.stops_at (Spec.target_bytes max_size_mb) R k))
  /\ (exists k,
        lib = (aged ++ firstn k R)%list
        /\ Spec.unmarked lib files = skipn k R
        /\ (over_limit ->
            Spec.stops_at (Spec.target_bytes max_size_mb) R k))
  /\ (Spec.within_target max_size_mb 0 = true -> over_limit ->
      within_target (Spec.unmarked cli files)
      /\ within_target (Spec.unmarked lib files)
      /\ ((forall p, unlink_ok o p = true) ->
          (forall st',
             fst (Cli.cleanup o (Some st) cutoff retention_days max_size_mb
                    max_files false) = Some st' ->
             within_target (rglob st'))
          /\ (forall st',
                fst (Lib.cleanup_logs o (Some st) cutoff retention_days
                       max_size_mb max_files false) = Some st' ->
                within_target (rglob st')))).
Proof.
  intros Hn files aged R lib cli over_limit within_target.
  assert (Hr : NoDup (map path_of (rglob st)))
    by (apply NoDup_paths_rglob, Hn).
  assert (Hf : NoDup (map path_of files)).
  { apply (NoDup_paths_perm (rglob st)); [|exact Hr].
    symmetry. apply sorted_by_mtime_perm. }
  assert (AL : Lib.files_to_delete
                 (Lib.age_stage cutoff retention_days files
                    (Lib.mkMarks [] [])) = aged)
    by (rewrite lib_age_stage_files; reflexivity).
  assert (AC : Cli.to_delete
                 (Cli.age_stage cutoff retention_days files
                    (Cli.mkMarks [] [])) = aged)
    by (rewrite cli_age_stage_files; reflexivity).
  destruct (cli_size_stage_spec max_size_mb files
              (Cli.age_stage cutoff retention_days files (Cli.mkMarks [] []))
              Hf) as [kc [C1 [C2 [C3 C4]]]].
  destruct (lib_size_stage_spec max_size_mb files
              (Lib.age_stage cutoff retention_days files (Lib.mkMarks [] []))
              Hf) as [kl [L1 [L2 [_ L4]]]].
  rewrite AC in C1, C2, C3, C4. rewrite AL in L1, L2, L4.
  fold cli in C1, C2. fold lib in L1, L2. fold R in C1, C2, C3, C4, L1, L2, L4.
  assert (All : over_limit ->
                Spec.over_limit max_size_mb (total_size files) = true).
  { intros Ov.
    exact (int_gt_mono _ _ _ (total_size_unmarked_le aged files) Ov). }
  split; [apply StronglySorted_filter, sorted_by_mtime_sorted|].
  split.
  { intros Le. unfold cli. rewrite (C3 Le). exact AC. }
  split; [exists kc; auto|]. split; [exists kl; auto|].
  intros Hmb Ov.
  assert (WC : within_target (Spec.unmarked cli files)).
  { unfold within_target. rewrite C2.
    apply stops_within_target; [exact Hmb | exact (C4 Ov)]. }
  assert (WL : within_target (Spec.unmarked lib files)).
  { unfold within_target. rewrite L2.
    apply stops_within_target; [exact Hmb | exact (L4 (All Ov))]. }
  split; [exact WC|]. split; [exact WL|].
  intros Hok. split.
  - intros st' E. unfold within_target.
    exact (int_le_mono _ _ _
             (cli_cleanup_remaining o st st' cutoff retention_days
                max_size_mb max_files Hok E) WC).
  - intros st' E. unfold within_target.
    exact (int_le_mono _ _ _
             (lib_cleanup_remaining o st st' cutoff retention_days
                max_size_mb max_files Hr Hok E) WL).
Qed.

Lemma size_stage_hysteresis_witness :
  fst (Cli.cleanup Sample.everything_allowed (Some Sample.three_file_store)
         "2020-01-05" 7 Sample.hundred_bytes 100 false)
  = Some (mkStore ["2020-01-09"] [Sample.third_file])
  /\ Spec.within_target Sample.hundred_bytes
       (total_size (rglob (mkStore ["2020-01-09"] [Sample.third_file])))
     = true.
Proof.
  split; [reflexivity|].
  assert (Hn : NoDup (map path_of (st_files Sample.three_file_store)))
    by (repeat constructor; cbn; intuition discriminate).
  destruct (size_stage_hysteresis Sample.everything_allowed
              Sample.three_file_store "2020-01-05" 7 Sample.hundred_bytes 100
              Hn) as [_ [_ [_ [_ H]]]].
  destruct (H eq_refl eq_refl) as [_ [_ E]].
  destruct (E (fun _ => eq_refl)) as [Hc _].
  apply Hc. reflexivity.
Defined.

(** *** The two clean-up functions *)

Lemma stops_at_unique (t : PrimFloat.float) (R : list file) (k1 k2 : nat) :
  Spec.stops_at t R k1 -> Spec.stops_at t R k2 ->
  firstn k1 R = firstn k2 R.
Proof.
  assert (W : forall a b, (a < b)%nat ->
              Spec.stops_at t R a -> Spec.stops_at t R b ->
              firstn a R = firstn b R).
  { intros a b Lt [[A|A] _] [_ B].
    - exfalso. rewrite (B a Lt) in A. discriminate A.
    - apply skipn_all_iff in A.
      rewrite !firstn_all2 by lia. reflexivity. }
  intros H1 H2.
  destruct (Nat.lt_total k1 k2) as [L|[->|L]];
    [apply W | reflexivity | symmetry; apply W]; assumption.
Qed.

(** Where the two functions agree: over a store of distinct paths they
    mark the same files unless the total of all the files is above the
    limit while the total of the files the age stage leaves is not. *)
Lemma select_agree (st : store) (cutoff : string) (d : Z)
    (mb : PrimFloat.float) (mf : Z) :
  NoDup (map path_of (st_files st)) ->
  let files := sorted_by_mtime (rglob st) in
  let R :=
    Spec.unmarked (filter (fun f => (parent_name f <? cutoff)%string) files)
      files in
  (Spec.over_limit mb (total_size files) = false
   \/ Spec.over_limit mb (total_size R) = true) ->
  Lib.files_to_delete (Lib.select cutoff d mb mf st)
  = Cli.to_delete (Cli.select cutoff d mb mf st).
Proof.
  intros Hn files R Hc.
  assert (Hf : NoDup (map path_of files)).
  { apply (NoDup_paths_perm (rglob st)).
    - symmetry. apply sorted_by_mtime_perm.
    - apply NoDup_paths_rglob, Hn. }
  unfold Lib.select, Cli.select. fold files.
  set (a1 := Lib.age_stage cutoff d files (Lib.mkMarks [] [])).
  set (a2 := Cli.age_stage cutoff d files (Cli.mkMarks [] [])).
  assert (A : Lib.files_to_delete a1 = Cli.to_delete a2).
  { unfold a1, a2. rewrite lib_age_stage_files, cli_age_stage_files.
    reflexivity. }
  assert (A2 : Cli.to_delete a2
               = filter (fun f => (parent_name f <? cutoff)%string) files).
  { unfold a2. rewrite cli_age_stage_files. reflexivity. }
  assert (S : Lib.files_to_delete (Lib.size_stage mb files a1)
              = Cli.to_delete (Cli.size_stage mb files a2)).
  { destruct (lib_size_stage_spec mb files a1 Hf) as [kl [L1 [_ [L3 L4]]]].
    destruct (cli_size_stage_spec mb files a2 Hf) as [kc [C1 [_ [C3 C4]]]].
    rewrite A, A2 in L1, L4. rewrite A2 in C1, C3, C4.
    fold R in L1, L4, C1, C3, C4.
    assert (Le : total_size R <= total_size files)
      by apply total_size_unmarked_le.
    destruct Hc as [Hc|Hc].
    - rewrite (L3 Hc), C3; [exact A|].
      destruct (Spec.over_limit mb (total_size R)) eqn:X; [|reflexivity].
      pose proof (int_gt_mono _ _ _ Le X) as Y.
      unfold Spec.over_limit in *. congruence.
    - assert (Hc' : Spec.over_limit mb (total_size files) = true)
        by exact (int_gt_mono _ _ _ Le Hc).
      rewrite L1, C1. f_equal.
      exact (stops_at_unique _ _ _ _ (L4 Hc') (C4 Hc)). }
  rewrite (lib_count_stage_files mf files _ Hf), cli_count_stage_files, S.
  reflexivity.
Qed.

(** C7, where it fails.  An old session of 50 bytes and a recent one of
    90 bytes, with a limit of 100 bytes: the age stage marks the old
    one, 90 bytes are left.  The library's [cleanup_logs] compares the
    total of all the files (140) with the limit and goes on to mark the
    recent session; the tool's [cleanup] compares the total of what is
    left (90) and marks nothing more.  The two passes leave different
    stores. *)
Theorem retention_functions_disagree :
  map path_of
    (Lib.files_to_delete
       (Lib.select "2020-01-05" 7 Sample.hundred_bytes 100
          Sample.two_day_store))
  = [("2020-01-01", "a.jsonl"); ("2020-01-09", "b.jsonl")]
  /\ map path_of
       (Cli.to_delete
          (Cli.select "2020-01-05" 7 Sample.hundred_bytes 100
             Sample.two_day_store))
     = [("2020-01-01", "a.jsonl")]
  /\ fst (Lib.cleanup_logs Sample.everything_allowed
            (Some Sample.two_day_store) "2020-01-05" 7 Sample.hundred_bytes
            100 false)
     = Some (mkStore [] [])
  /\ fst (Cli.cleanup Sample.everything_allowed (Some Sample.two_day_store)
            "2020-01-05" 7 Sample.hundred_bytes 100 false)
     = Some (mkStore ["2020-01-09"] [Sample.new_file]).
Proof. repeat split. Qed.

(** * Further properties

    Properties of the code around the claims: the other methods of the
    writer, sessions and hooks, the stages and reports of retention, the
    compaction passes, the statistics and the search of log files. *)

(** ** The writer over a session *)

(** X1.  Over any sequence of calls of [log], the counter [_seq] of the
    writer advances by one for each call that passes no correlation id
    (or an empty one) and stays as it is for the others; the session id
    and the agent id never change; a call that passes a non-empty id
    gets that id back. *)
Theorem counter_advances_once_per_generated_id (json_dumps : dict -> string) (calls : list Writer.call)
    (self : Writer.AgentLogger) :
  let r := Writer.run json_dumps self calls in
  Writer.session_id (fst r) = Writer.session_id self
  /\ Writer.agent_id (fst r) = Writer.agent_id self
  /\ Writer._seq (fst r)
     = Writer._seq self
       + Z.of_nat
           (List.length
              (filter (fun c => negb (truthy (Writer.c_cid c))) calls))
  /\ Forall2 (fun c id => truthy (Writer.c_cid c) = true ->
                          id = Writer.c_cid c)
       calls (snd r).
Proof.
  revert self. induction calls as [|c rest IH]; intros self; simpl.
  - repeat split; try lia. constructor.
  - destruct (Writer.log json_dumps self (Writer.c_ts c) (Writer.c_lvl c)
                (Writer.c_evt c) (Writer.c_msg c) (Writer.c_cid c)
                (Writer.c_kwargs c)) as [self' id] eqn:E.
    specialize (IH self'). simpl in IH.
    destruct (Writer.run json_dumps self' rest) as [self'' ids] eqn:R.
    simpl in *. destruct IH as (I1 & I2 & I3 & I4).
    pose proof (log_step _ _ _ _ _ _ _ _ _ _ E) as (S1 & S2 & S3).
    assert (A : Writer.agent_id self' = Writer.agent_id self).
    { unfold Writer.log in E. destruct (Writer.correlation self (Writer.c_cid c)) as [s0 c0] eqn:C.
      injection E as <- _. simpl. unfold Writer.correlation in C.
      destruct (truthy (Writer.c_cid c)); simpl in C; injection C as <- _; reflexivity. }
    repeat split.
    + congruence.
    + congruence.
    + destruct (truthy (Writer.c_cid c)) eqn:T; simpl.
      * destruct (S2 eq_refl) as [Q1 _]. lia.
      * destruct (S3 eq_refl) as [Q1 _]. lia.
    + constructor; [|exact I4]. intros T. apply S2. exact T.
Qed.

Lemma counter_advances_once_per_generated_id_witness :
  Writer._seq (fst (Writer.run FlatJson.dumps Sample.writer
                      Sample.session_calls)) = 2.
Proof.
  destruct (counter_advances_once_per_generated_id FlatJson.dumps Sample.session_calls Sample.writer)
    as (_ & _ & H & _).
  exact H.
Defined.

Lemma written_cons (l : string) (ls : list string) :
  Writer.written (l :: ls) = l ++ String PyStr.LF (Writer.written ls).
Proof.
  unfold Writer.written. simpl map.
  destruct ls as [|l2 ls]; simpl.
  - reflexivity.
  - rewrite append_assoc. reflexivity.
Qed.

Lemma written_app (a b : list string) :
  Writer.written (a ++ b)%list = Writer.written a ++ Writer.written b.
Proof.
  induction a as [|l a IH].
  - reflexivity.
  - simpl app. rewrite !written_cons, IH, append_assoc. reflexivity.
Qed.

Lemma readlines_written (ls : list string) :
  Forall (fun x => PyStr.all_chars PyStr.not_newline x = true) ls ->
  PyStr.readlines (Writer.written ls)
  = map (fun x => x ++ String PyStr.LF "") ls.
Proof.
  induction 1 as [|l ls H _ IH].
  - reflexivity.
  - rewrite written_cons, readlines_line by exact H. simpl. now rewrite IH.
Qed.

Lemma written_no_cr (ls : list string) :
  Forall (fun x => PyStr.all_chars PyStr.not_newline x = true) ls ->
  PyStr.all_chars PyStr.not_cr (Writer.written ls) = true.
Proof.
  induction 1 as [|l ls H _ IH].
  - reflexivity.
  - rewrite written_cons, all_chars_append. simpl. rewrite IH.
    rewrite (all_chars_weaken PyStr.not_newline PyStr.not_cr l); auto.
    intros c. unfold PyStr.not_newline, PyStr.not_cr.
    rewrite andb_true_iff. tauto.
Qed.

Lemma run_entries_ext (l : list Writer.call) (s1 s2 : Writer.AgentLogger) :
  Writer.session_id s1 = Writer.session_id s2 ->
  Writer.agent_id s1 = Writer.agent_id s2 ->
  Writer._seq s1 = Writer._seq s2 ->
  Writer.run_entries s1 l = Writer.run_entries s2 l.
Proof.
  revert s1 s2. induction l as [|d l IH]; intros s1 s2 H1 H2 H3.
  - reflexivity.
  - destruct s1 as [a1 b1 z1 f1], s2 as [a2 b2 z2 f2]. simpl in H1, H2, H3.
    subst a2 b2 z2. simpl. f_equal.
    + unfold Writer.entry, Writer.correlation. simpl.
      destruct (truthy (Writer.c_cid d)); reflexivity.
    + apply IH; unfold Writer.correlation;
        destruct (truthy (Writer.c_cid d)); reflexivity.
Qed.

Lemma run_log_file (json_dumps : dict -> string) (calls : list Writer.call)
    (self : Writer.AgentLogger) :
  Writer._log_file (fst (Writer.run json_dumps self calls))
  = Writer._log_file self
    ++ Writer.written (map json_dumps (Writer.run_entries self calls)).
Proof.
  revert self. induction calls as [|c rest IH]; intros self.
  - simpl. now rewrite append_nil_r.
  - simpl Writer.run_entries. simpl map. rewrite written_cons. simpl Writer.run.
    unfold Writer.log.
    destruct (Writer.correlation self (Writer.c_cid c)) as [s0 c0] eqn:C.
    match goal with
    | |- context [Writer.run json_dumps ?w rest] =>
        specialize (IH w); destruct (Writer.run json_dumps w rest) as [s2 ids]
    end.
    simpl in *. rewrite IH. rewrite !append_assoc. simpl.
    assert (F : Writer._log_file s0 = Writer._log_file self).
    { unfold Writer.correlation in C.
      destruct (truthy (Writer.c_cid c)); simpl in C; injection C as <- _;
        reflexivity. }
    rewrite F. do 5 f_equal. apply run_entries_ext; reflexivity.
Qed.

Lemma length_run_entries (calls : list Writer.call)
    (self : Writer.AgentLogger) :
  List.length (Writer.run_entries self calls) = List.length calls.
Proof.
  revert self. induction calls; intros; simpl; auto.
Qed.

Lemma splitlines_line (l rest : string) :
  PyStr.all_chars (fun c => negb (PyStr.islinebreak c)) l = true ->
  PyStr.splitlines (l ++ String PyStr.LF rest) = l :: PyStr.splitlines rest.
Proof.
  induction l as [|c l IH]; intros H.
  - simpl append. cbn [PyStr.splitlines].
    replace (PyStr.islinebreak PyStr.LF) with true by reflexivity.
    destruct rest; reflexivity.
  - simpl in H. apply andb_true_iff in H. destruct H as [Hc Hl].
    apply negb_true_iff in Hc.
    simpl append. cbn [PyStr.splitlines]. rewrite Hc, (IH Hl). reflexivity.
Qed.

Lemma splitlines_written (ls : list string) :
  Forall (fun x => PyStr.all_chars (fun c => negb (PyStr.islinebreak c)) x
                   = true) ls ->
  PyStr.splitlines (Writer.written ls) = ls.
Proof.
  induction 1 as [|l ls H _ IH]; [reflexivity|].
  rewrite written_cons, splitlines_line by exact H. now rewrite IH.
Qed.

Lemma no_break_not_newline (l : string) :
  PyStr.all_chars (fun c => negb (PyStr.islinebreak c)) l = true ->
  PyStr.all_chars PyStr.not_newline l = true.
Proof.
  apply all_chars_weaken. intros c.
  destruct c as [[] [] [] [] [] [] [] []]; simpl; auto; discriminate.
Qed.

(** X2.  [log] only appends: after a sequence of calls the file is what
    it was, followed by one line per call, in the order of the calls,
    each the serialised record of its call and a line feed.  When the
    file held whole lines before and no serialised record contains a
    line feed or a carriage return, the lines that the library's
    compaction reads, by iterating over the file opened as text, are the
    lines the file held and then exactly one line per call, each with
    its line feed.  When no serialised record contains any line
    boundary of [str.splitlines], the lines that the tool's compaction
    reads, with [read_text().splitlines()], are the same records one
    per line.  The output of [json.dumps] as [log] calls it meets both
    conditions: it escapes every control character and every character
    beyond ASCII. *)
Theorem session_appends_one_line_per_call (json_dumps : dict -> string)
    (self : Writer.AgentLogger) (calls : list Writer.call) :
  let lines := map json_dumps (Writer.run_entries self calls) in
  let self' := fst (Writer.run json_dumps self calls) in
  Writer._log_file self' = Writer._log_file self ++ Writer.written lines
  /\ List.length lines = List.length calls
  /\ (forall before,
        Writer._log_file self = Writer.written before ->
        Forall (fun l => PyStr.all_chars PyStr.not_newline l = true)
          (before ++ lines)%list ->
        PyStr.readlines (PyStr.universal_newlines (Writer._log_file self'))
        = map (fun l => l ++ String PyStr.LF "") (before ++ lines)%list)
  /\ (forall before,
        Writer._log_file self = Writer.written before ->
        Forall (fun l => PyStr.all_chars
                           (fun c => negb (PyStr.islinebreak c)) l = true)
          (before ++ lines)%list ->
        PyStr.splitlines (PyStr.universal_newlines (Writer._log_file self'))
        = (before ++ lines)%list).
Proof.
  intros lines self'. split; [apply run_log_file|]. split; [|split].
  - unfold lines. rewrite length_map. apply length_run_entries.
  - intros before Hb Hn. unfold self'. rewrite run_log_file, Hb.
    fold lines. rewrite <- written_app.
    rewrite universal_newlines_id by (apply written_no_cr; exact Hn).
    apply readlines_written. exact Hn.
  - intros before Hb Hn. unfold self'. rewrite run_log_file, Hb.
    fold lines. rewrite <- written_app.
    assert (Hw : Forall (fun l => PyStr.all_chars PyStr.not_newline l = true)
                   (before ++ lines)%list).
    { eapply Forall_impl; [|exact Hn]. intros l. apply no_break_not_newline. }
    rewrite universal_newlines_id by (apply written_no_cr; exact Hw).
    apply splitlines_written. exact Hn.
Qed.

Lemma session_appends_one_line_per_call_witness :
  let lines :=
    map FlatJson.dumps
      (Writer.run_entries Sample.writer Sample.session_calls) in
  let file :=
    Writer._log_file
      (fst (Writer.run FlatJson.dumps Sample.writer Sample.session_calls)) in
  PyStr.readlines (PyStr.universal_newlines file)
  = map (fun l => l ++ String PyStr.LF "") lines
  /\ PyStr.splitlines (PyStr.universal_newlines file) = lines.
Proof.
  destruct (session_appends_one_line_per_call FlatJson.dumps Sample.writer
              Sample.session_calls) as (_ & _ & H & G).
  split.
  - apply (H []); [reflexivity|]. repeat constructor.
  - apply (G []); [reflexivity|]. repeat constructor.
Defined.

Lemma entry_fields (self : Writer.AgentLogger) (ts lvl evt msg : string)
    (cid : pyval) (kwargs : dict) :
  ~ In "evt" (dict_keys kwargs) -> ~ In "lvl" (dict_keys kwargs) ->
  let e := Writer.entry self ts lvl evt msg cid kwargs in
  dict_get_default e "evt" (PStr "") = PStr evt
  /\ dict_get_default e "lvl" (PStr "") = PStr lvl.
Proof.
  intros He Hl e. unfold e, Writer.entry, dict_get_default.
  rewrite !dict_get_update by assumption. split; reflexivity.
Qed.

Lemma stripped_lines (ls : list string) :
  Forall (fun l => l <> "" /\ PyStr.strip l = l) ls ->
  filter (fun l => negb (l =? "")%string)
    (map PyStr.strip (map (fun l => l ++ String PyStr.LF "") ls))
  = ls.
Proof.
  induction 1 as [|l ls [H1 H2] _ IH]; [reflexivity|].
  simpl. rewrite strip_append_lf, H2.
  destruct (String.eqb_spec l ""); [contradiction|]. simpl. now rewrite IH.
Qed.

(** X3.  From the writer to the compactor: when a fresh session file is
    written by a sequence of calls of [log] whose keywords rebind
    neither [evt] nor [lvl], and every serialised record is a non-empty
    stripped line without line ends that [json.loads] reads back as the
    record, the lines that [compact_old_sessions] keeps of that file are
    exactly the lines of the calls whose event type is in the preserve
    set or whose level is error, fatal or warn, in the order of the
    calls. *)
Theorem written_session_compacts (json_dumps : dict -> string)
    (json_loads : string -> option pyval) (self : Writer.AgentLogger)
    (calls : list Writer.call) (p n : string) (t : Z) :
  Writer._log_file self = "" ->
  Forall (fun c => ~ In "evt" (dict_keys (Writer.c_kwargs c))
                   /\ ~ In "lvl" (dict_keys (Writer.c_kwargs c))) calls ->
  Forall (fun e => json_dumps e <> ""
                   /\ PyStr.strip (json_dumps e) = json_dumps e
                   /\ PyStr.all_chars PyStr.not_newline (json_dumps e) = true
                   /\ json_loads (json_dumps e) = Some (PDict e))
    (Writer.run_entries self calls) ->
  Lib.preserved_lines json_loads
    (mkFile p n t
       (Writer._log_file (fst (Writer.run json_dumps self calls))))
  = Ok (map (fun ce => json_dumps (snd ce))
          (filter (fun ce => Spec.preserved (Writer.c_evt (fst ce))
                               (Writer.c_lvl (fst ce)))
             (combine calls (Writer.run_entries self calls)))).
Proof.
  intros Hf Hk He. rewrite run_log_file, Hf. simpl append.
  unfold Lib.preserved_lines. simpl content.
  set (entries := Writer.run_entries self calls) in *.
  assert (Hn : Forall (fun l => PyStr.all_chars PyStr.not_newline l = true)
                 (map json_dumps entries)).
  { apply Forall_map. eapply Forall_impl; [|exact He]. simpl. tauto. }
  rewrite universal_newlines_id by (apply written_no_cr; exact Hn).
  rewrite readlines_written by exact Hn.
  assert (Hs : filter (fun l => negb (l =? "")%string)
                 (map PyStr.strip
                    (map (fun l => l ++ String PyStr.LF "")
                       (map json_dumps entries)))
               = map json_dumps entries).
  { apply stripped_lines. apply Forall_map.
    eapply Forall_impl; [|exact He]. simpl. tauto. }
  pose proof (lib_scan_filter json_loads
                (map (fun l => l ++ String PyStr.LF "")
                   (map json_dumps entries))) as L.
  simpl in L. rewrite Hs in L.
  assert (G : Spec.records_only json_loads (map json_dumps entries) = true
              /\ filter (Spec.kept_line json_loads) (map json_dumps entries)
                 = map (fun ce => json_dumps (snd ce))
                     (filter (fun ce => Spec.preserved
                                          (Writer.c_evt (fst ce))
                                          (Writer.c_lvl (fst ce)))
                        (combine calls entries))).
  { unfold entries in *. clear L Hs Hn Hf entries.
    revert self He. induction Hk as [|c rest [K1 K2] _ IH]; intros self He.
    - split; reflexivity.
    - simpl in He. inversion He as [|e es (_ & _ & _ & E4) He' Eq]; subst.
      destruct (IH _ He') as [I1 I2].
      destruct (entry_fields self (Writer.c_ts c) (Writer.c_lvl c)
                  (Writer.c_evt c) (Writer.c_msg c) (Writer.c_cid c)
                  (Writer.c_kwargs c) K1 K2) as [F1 F2].
      pose proof (keep_preserved _ _ _ F1 F2) as KP.
      simpl. unfold Spec.kept_line at 1. rewrite E4, KP.
      assert (R : Spec.is_record
                    (PDict (Writer.entry self (Writer.c_ts c)
                              (Writer.c_lvl c) (Writer.c_evt c)
                              (Writer.c_msg c) (Writer.c_cid c)
                              (Writer.c_kwargs c))) = true).
      { unfold Spec.is_record. rewrite F1. reflexivity. }
      rewrite R, I1. split; [reflexivity|].
      destruct (Spec.preserved (Writer.c_evt c) (Writer.c_lvl c)); simpl;
        now rewrite I2. }
  destruct G as [G1 G2]. rewrite (L G1), G2. reflexivity.
Qed.

Lemma written_session_compacts_witness :
  Lib.preserved_lines FlatJson.loads
    (mkFile "2020-01-01" "s1.jsonl" 1
       (Writer._log_file
          (fst (Writer.run FlatJson.dumps Sample.writer
                  Sample.session_calls))))
  = Ok (map (fun ce => FlatJson.dumps (snd ce))
          (filter (fun ce => Spec.preserved (Writer.c_evt (fst ce))
                               (Writer.c_lvl (fst ce)))
             (combine Sample.session_calls
                (Writer.run_entries Sample.writer Sample.session_calls)))).
Proof.
  apply written_session_compacts.
  - reflexivity.
  - repeat (constructor; [split; simpl; intuition discriminate|]).
    constructor.
  - repeat (constructor;
            [split; [discriminate|repeat split; reflexivity]|]).
    constructor.
Defined.

(** ** The logging methods *)

Lemma log_logged (json_dumps : dict -> string) (self : Writer.AgentLogger)
    (ts lvl evt msg : string) (cid : pyval) (kwargs : dict) :
  ~ In "evt" (dict_keys kwargs) -> ~ In "lvl" (dict_keys kwargs) ->
  Spec.logged json_dumps self
    (fst (Writer.log json_dumps self ts lvl evt msg cid kwargs)) evt lvl
    (Spec.preserved evt lvl).
Proof.
  intros He Hl.
  exists (Writer.entry self ts lvl evt msg cid kwargs).
  destruct (entry_fields self ts lvl evt msg cid kwargs He Hl) as [F1 F2].
  assert (K := keep_preserved _ _ _ F1 F2).
  repeat split.
  - unfold Writer.log.
    destruct (Writer.correlation self cid) as [s0 c0] eqn:C. simpl.
    unfold Writer.correlation in C.
    destruct (truthy cid); simpl in C; injection C as <- _; reflexivity.
  - unfold Writer.entry. rewrite dict_get_update by assumption. reflexivity.
  - unfold Writer.entry. rewrite dict_get_update by assumption. reflexivity.
  - exact K.
  - rewrite cli_keep_eq. exact K.
Qed.

Lemma call_log_logged (json_dumps : dict -> string)
    (self : Writer.AgentLogger) (ts lvl evt msg : string) (kw : dict)
    (self' : Writer.AgentLogger) (id : pyval) :
  Writer.call_log json_dumps self ts lvl evt msg kw = Ok (self', id) ->
  Spec.logged json_dumps self self' evt lvl (Spec.preserved evt lvl).
Proof.
  unfold Writer.call_log, Writer.bind_log.
  destruct (bindable ["self"; "lvl"; "evt"; "msg"] kw) eqn:B; simpl;
    [|discriminate].
  intros H. injection H as H.
  replace self' with (fst (Writer.log json_dumps self ts lvl evt msg
                             (dict_get_default kw "cid" PNone)
                             (filter (fun kv => negb (fst kv =? "cid")%string)
                                kw)))
    by (rewrite H; reflexivity).
  apply log_logged; intros I; apply keys_filter_incl in I;
    revert I; apply (bindable_not_In _ _ _ B); simpl; auto.
Qed.

Ltac not_a_key :=
  simpl; intros I;
  repeat (destruct I as [I|I]; [discriminate I|]); exact I.

(** X4.  The records that [task_started], [task_completed],
    [decision_made], [handoff], [__enter__] and [__exit__] write are
    kept by both compaction loops: each of these methods, when it
    returns, has appended one record with its own event type and level
    (keywords cannot rebind them), and that event type is in the
    preserve set.  [__exit__] logs at level error when the block raised,
    at level info otherwise, and always returns [False], so the
    exception goes on. *)
Theorem milestone_records_survive_compaction (json_dumps : dict -> string)
    (self : Writer.AgentLogger) (ts : string) :
  (forall description kwargs self' id,
     Writer.task_started json_dumps self ts description kwargs
     = Ok (self', id) ->
     Spec.logged json_dumps self self' "task.started" "info" true)
  /\ (forall description kwargs self' id,
        Writer.task_completed json_dumps self ts description kwargs
        = Ok (self', id) ->
        Spec.logged json_dumps self self' "task.completed" "info" true)
  /\ (forall decision rationale alternatives thinking_budget kwargs self' id,
        Writer.decision_made json_dumps self ts decision rationale
          alternatives thinking_budget kwargs = Ok (self', id) ->
        Spec.logged json_dumps self self' "decision.made" "info" true)
  /\ (forall target critical_decisions open_questions files_to_review
             summary_tokens kwargs self' id,
        Writer.handoff json_dumps self ts target critical_decisions
          open_questions files_to_review summary_tokens kwargs
        = Ok (self', id) ->
        Spec.logged json_dumps self self' "handoff.initiated" "info" true)
  /\ Spec.logged json_dumps self (Writer.__enter__ json_dumps self ts)
       "hook.session_start" "info" true
  /\ (forall exc duration_ms,
        Spec.logged json_dumps self
          (fst (Writer.__exit__ json_dumps self ts exc duration_ms))
          "hook.session_end"
          (match exc with Some _ => "error" | None => "info" end) true
        /\ snd (Writer.__exit__ json_dumps self ts exc duration_ms) = false).
Proof.
  repeat split.
  - intros description kwargs self' id. unfold Writer.task_started.
    destruct (bindable _ kwargs); simpl; [|discriminate].
    apply call_log_logged.
  - intros description kwargs self' id. unfold Writer.task_completed.
    destruct (bindable _ kwargs); simpl; [|discriminate].
    apply call_log_logged.
  - intros decision rationale alternatives thinking_budget kwargs self' id.
    unfold Writer.decision_made.
    destruct (bindable _ kwargs); simpl; [|discriminate].
    apply call_log_logged.
  - intros target cd oq fr st kwargs self' id. unfold Writer.handoff.
    destruct (bindable _ kwargs); simpl; [|discriminate].
    apply call_log_logged.
  - unfold Writer.__enter__.
    apply (log_logged json_dumps self ts "info" "hook.session_start");
      not_a_key.
  - destruct exc as [[en es]|]; unfold Writer.__exit__; cbn [fst].
    + apply (log_logged json_dumps self ts "error" "hook.session_end");
        not_a_key.
    + apply (log_logged json_dumps self ts "info" "hook.session_end");
        not_a_key.
  - destruct exc as [[en es]|]; reflexivity.
Qed.

Lemma milestone_records_survive_compaction_witness :
  Spec.logged FlatJson.dumps Sample.writer
    (fst (Writer.log FlatJson.dumps Sample.writer "t" "info" "task.started"
            "build" PNone []))
    "task.started" "info" true.
Proof.
  destruct (milestone_records_survive_compaction FlatJson.dumps
              Sample.writer "t") as (H & _).
  apply (H "build" [] _
           (snd (Writer.log FlatJson.dumps Sample.writer "t" "info"
                   "task.started" "build" PNone []))).
  reflexivity.
Defined.

(** X5.  The records that [log_pre_tool], [log_post_tool] and
    [agent_spawned] write are dropped by both compaction loops: their
    event types (hook.pre_tool, hook.post_tool, agent.spawned) are not
    in the preserve set and their levels are debug and info. *)
Theorem tool_and_spawn_records_dropped_by_compaction
    (json_dumps : dict -> string) (self : Writer.AgentLogger) (ts : string) :
  (forall tool_name tool_input,
     Spec.logged json_dumps self
       (fst (Writer.log_pre_tool json_dumps self ts tool_name tool_input))
       "hook.pre_tool" "debug" false)
  /\ (forall tool_name tool_result duration_ms,
        Spec.logged json_dumps self
          (fst (Writer.log_post_tool json_dumps self ts tool_name tool_result
                  duration_ms))
          "hook.post_tool" "debug" false)
  /\ (forall child task thinking_trigger kwargs self' id,
        Writer.agent_spawned json_dumps self ts child task thinking_trigger
          kwargs = Ok (self', id) ->
        Spec.logged json_dumps self self' "agent.spawned" "info" false).
Proof.
  repeat split.
  - intros tool_name tool_input. unfold Writer.log_pre_tool.
    apply (log_logged json_dumps self ts "debug" "hook.pre_tool");
      not_a_key.
  - intros tool_name tool_result duration_ms. unfold Writer.log_post_tool.
    destruct duration_ms;
      apply (log_logged json_dumps self ts "debug" "hook.post_tool");
      not_a_key.
  - intros child task thinking_trigger kwargs self' id.
    unfold Writer.agent_spawned.
    destruct (bindable _ kwargs); simpl; [|discriminate].
    apply call_log_logged.
Qed.

Lemma tool_and_spawn_records_dropped_by_compaction_witness :
  Spec.logged FlatJson.dumps Sample.writer
    (fst (Writer.log FlatJson.dumps Sample.writer "t" "info" "agent.spawned"
            "Spawned dev:1" PNone
            [("child_aid", PStr "dev:1"); ("task", PStr "build")]))
    "agent.spawned" "info" false.
Proof.
  destruct (tool_and_spawn_records_dropped_by_compaction FlatJson.dumps
              Sample.writer "t") as (_ & _ & H).
  apply (H "dev:1" (PStr "build") PNone [] _
           (snd (Writer.log FlatJson.dumps Sample.writer "t" "info"
                   "agent.spawned" "Spawned dev:1" PNone
                   [("child_aid", PStr "dev:1"); ("task", PStr "build")]))).
  reflexivity.
Defined.

Lemma bindable_spec (params : list string) (kw : dict) :
  bindable params kw = true
  <-> distinct (dict_keys kw) = true
      /\ forall k, In k params -> ~ In k (dict_keys kw).
Proof.
  unfold bindable. rewrite andb_true_iff, negb_true_iff. split.
  - intros [D E]. split; [exact D|]. intros k Hk Hin.
    assert (X : existsb (fun k0 => mem_string k0 params) (dict_keys kw) = true).
    { apply existsb_exists. exists k. split; [exact Hin|].
      apply mem_string_In. exact Hk. }
    congruence.
  - intros [D N]. split; [exact D|].
    destruct (existsb _ (dict_keys kw)) eqn:E; [|reflexivity].
    apply existsb_exists in E. destruct E as (k & Hin & Hm).
    apply mem_string_In in Hm. destruct (N k Hm Hin).
Qed.

Lemma mem_string_false (k : string) (l : list string) :
  mem_string k l = false <-> ~ In k l.
Proof.
  split.
  - intros H I. apply mem_string_In in I. congruence.
  - intros N. destruct (mem_string k l) eqn:E; [|reflexivity].
    apply mem_string_In in E. contradiction.
Qed.

(** X6.  [escalation] returns exactly when the keywords given besides
    [severity] and [context] are distinct and none of them is [self],
    [reason], [severity], [context], [lvl], [evt] or [msg]; otherwise
    the call raises [TypeError] and nothing is written. *)
Theorem escalation_raises_on_keyword_clash (json_dumps : dict -> string)
    (self : Writer.AgentLogger) (ts reason severity : string)
    (context : option string) (kwargs : dict) :
  let names :=
    ["self"; "reason"; "severity"; "context"; "lvl"; "evt"; "msg"] in
  (bindable names kwargs = true ->
   exists self' id,
     Writer.escalation json_dumps self ts reason severity context kwargs
     = Ok (self', id))
  /\ (bindable names kwargs = false ->
      Writer.escalation json_dumps self ts reason severity context kwargs
      = Raise TypeError).
Proof.
  intros names.
  assert (K : forall extra,
            dict_keys (extra ++ kwargs)%list
            = (dict_keys extra ++ dict_keys kwargs)%list).
  { intros extra. unfold dict_keys. apply map_app. }
  assert (EK : exists ks,
            dict_keys (Writer.escalation_keywords severity context kwargs)
            = (ks ++ dict_keys kwargs)%list
            /\ (ks = ["severity"] \/ ks = ["severity"; "context"])).
  { unfold Writer.escalation_keywords.
    destruct context as [c|]; [destruct (truthy (PStr c))|]; rewrite K;
      simpl.
    - exists ["severity"; "context"]. split; [reflexivity|now right].
    - exists ["severity"]. split; [reflexivity|now left].
    - exists ["severity"]. split; [reflexivity|now left]. }
  destruct EK as (ks & Eks & Hks).
  assert (Main : bindable names kwargs = true
                 <-> bindable ["self"; "reason"; "severity"; "context"] kwargs
                     = true
                     /\ bindable ["self"; "lvl"; "evt"; "msg"]
                          (Writer.escalation_keywords severity context kwargs)
                        = true).
  { rewrite !bindable_spec, Eks. split.
    - intros [D N]. repeat split.
      + exact D.
      + intros k Hk. apply N. unfold names. simpl in *. tauto.
      + assert (N1 : mem_string "severity" (dict_keys kwargs) = false)
          by (apply mem_string_false, N; unfold names; simpl; tauto).
        assert (N2 : mem_string "context" (dict_keys kwargs) = false)
          by (apply mem_string_false, N; unfold names; simpl; tauto).
        destruct Hks as [-> | ->]; simpl; rewrite ?N1, ?N2, D; reflexivity.
      + intros k Hk Hin. apply in_app_or in Hin. destruct Hin as [Hin|Hin].
        * destruct Hks as [-> | ->]; simpl in Hk, Hin;
            repeat (destruct Hk as [Hk|Hk]; [subst k|]);
            repeat (destruct Hin as [Hin|Hin]; [discriminate Hin|]);
            try contradiction.
        * revert Hin. apply N. unfold names. simpl in *. tauto.
    - intros [[D N4] [_ NL]]. split; [exact D|]. intros k Hk.
      unfold names in Hk. simpl in Hk.
      destruct Hk as [<-|[<-|[<-|[<-|Hk]]]];
        try (apply N4; simpl; tauto).
      intros Hin. apply (NL k); [simpl; tauto|]. apply in_or_app. now right. }
  unfold Writer.escalation, Writer.call_log, Writer.bind_log. split.
  - intros B. apply Main in B. destruct B as [B1 B2]. rewrite B1, B2. simpl.
    match goal with
    | |- exists self' id, Ok ?r = _ => exists (fst r), (snd r)
    end.
    f_equal. apply surjective_pairing.
  - intros B.
    destruct (bindable ["self"; "reason"; "severity"; "context"] kwargs)
      eqn:B1; simpl; [|reflexivity].
    destruct (bindable ["self"; "lvl"; "evt"; "msg"]
                (Writer.escalation_keywords severity context kwargs))
      eqn:B2; simpl; [|reflexivity].
    assert (bindable names kwargs = true) by (apply Main; auto). congruence.
Qed.

Lemma escalation_raises_on_keyword_clash_witness :
  (exists self' id,
     Writer.escalation FlatJson.dumps Sample.writer "t" "token leaked"
       "security" None [("ticket", PStr "T-1")] = Ok (self', id))
  /\ Writer.escalation FlatJson.dumps Sample.writer "t" "token leaked"
       "security" None [("lvl", PStr "info")] = Raise TypeError.
Proof.
  split.
  - apply (proj1 (escalation_raises_on_keyword_clash FlatJson.dumps
                    Sample.writer "t" "token leaked" "security" None
                    [("ticket", PStr "T-1")])).
    reflexivity.
  - apply (proj2 (escalation_raises_on_keyword_clash FlatJson.dumps
                    Sample.writer "t" "token leaked" "security" None
                    [("lvl", PStr "info")])).
    reflexivity.
Defined.

Lemma length_take_le (n : nat) (s : string) :
  PyStr.len (PyStr.take n s) <= Z.of_nat n.
Proof.
  unfold PyStr.len. rewrite length_take. lia.
Qed.

Lemma take_all (n : nat) (s : string) :
  (String.length s <= n)%nat -> PyStr.take n s = s.
Proof.
  unfold PyStr.take. revert n. induction s as [|c s IH]; intros n H.
  - destruct n; reflexivity.
  - destruct n; simpl in *; [lia|]. f_equal. apply IH. lia.
Qed.

(** X7.  [log_pre_tool] and [log_post_tool] record the tool's name and
    the first 500 characters of the text of the input or of the result:
    a text of at most 500 characters is recorded whole, a longer one is
    cut to 500 characters with no mark; [duration_ms] is recorded when
    it is given, zero included. *)
Theorem tool_hooks_keep_500_characters (json_dumps : dict -> string)
    (self : Writer.AgentLogger) (ts tool_name text : string)
    (duration_ms : option Z) :
  let kept := PyStr.take 500 text in
  (exists e,
     Writer._log_file
       (fst (Writer.log_pre_tool json_dumps self ts tool_name text))
     = Writer._log_file self ++ json_dumps e ++ String PyStr.LF ""
     /\ dict_get e "tool_input" = Some (PStr kept)
     /\ dict_get e "tool_name" = Some (PStr tool_name))
  /\ (exists e,
        Writer._log_file
          (fst (Writer.log_post_tool json_dumps self ts tool_name text
                  duration_ms))
        = Writer._log_file self ++ json_dumps e ++ String PyStr.LF ""
        /\ dict_get e "tool_result" = Some (PStr kept)
        /\ dict_get e "tool_name" = Some (PStr tool_name)
        /\ dict_get e "duration_ms"
           = match duration_ms with
             | Some d => Some (PInt d)
             | None => None
             end)
  /\ PyStr.len kept <= 500
  /\ (PyStr.len text <= 500 -> kept = text)
  /\ (500 <= PyStr.len text -> PyStr.len kept = 500).
Proof.
  intros kept.
  assert (F : forall lvl evt msg kwargs,
            Writer._log_file
              (fst (Writer.log json_dumps self ts lvl evt msg PNone kwargs))
            = Writer._log_file self
              ++ json_dumps (Writer.entry self ts lvl evt msg PNone kwargs)
              ++ String PyStr.LF "").
  { intros. reflexivity. }
  split; [|split; [|split; [|split]]].
  - eexists. split; [apply F|]. split; reflexivity.
  - unfold Writer.log_post_tool. eexists. split; [apply F|].
    destruct duration_ms; repeat split; reflexivity.
  - apply (length_take_le 500).
  - intros H. apply take_all. unfold PyStr.len in H. lia.
  - intros H. unfold kept, PyStr.len in *. rewrite length_take. lia.
Qed.

Lemma tool_hooks_keep_500_characters_witness :
  PyStr.take 500 "ls -la" = "ls -la".
Proof.
  destruct (tool_hooks_keep_500_characters FlatJson.dumps Sample.writer "t"
              "Bash" "ls -la" None) as (_ & _ & _ & H & _).
  apply H. vm_compute. discriminate.
Defined.

(** ** Hooks and sessions *)

Lemma hooks_eqb_eq (a b : Hooks.HookType) :
  Hooks.HookType_eqb a b = true <-> a = b.
Proof.
  destruct a, b; simpl; split; intros H; try reflexivity; discriminate H.
Qed.

Lemma hooks_eqb_refl (a : Hooks.HookType) : Hooks.HookType_eqb a a = true.
Proof. destruct a; reflexivity. Qed.

Lemma hooks_get_set (Callable : Type) (h : Hooks.HookRegistry Callable)
    (t t' : Hooks.HookType) (l : list Callable) :
  Hooks.get Callable (Hooks.set Callable h t l) t'
  = if Hooks.HookType_eqb t t' then l else Hooks.get Callable h t'.
Proof.
  induction h as [|[u m] h IH]; simpl.
  - reflexivity.
  - destruct (Hooks.HookType_eqb u t) eqn:E; simpl.
    + apply hooks_eqb_eq in E. subst u.
      destruct (Hooks.HookType_eqb t t'); reflexivity.
    + rewrite IH. destruct (Hooks.HookType_eqb u t') eqn:E';
        [|reflexivity].
      apply hooks_eqb_eq in E'. subst u.
      destruct (Hooks.HookType_eqb t t') eqn:E2; [|reflexivity].
      apply hooks_eqb_eq in E2. subst t'. rewrite hooks_eqb_refl in E.
      discriminate E.
Qed.

Lemma hooks_get_absent (Callable : Type) (h : Hooks.HookRegistry Callable)
    (t : Hooks.HookType) :
  Hooks.contains Callable h t = false -> Hooks.get Callable h t = [].
Proof.
  induction h as [|[u m] h IH]; simpl; [reflexivity|].
  destruct (Hooks.HookType_eqb u t); simpl; [discriminate|exact IH].
Qed.

Lemma hooks_get_register (Callable : Type) (h : Hooks.HookRegistry Callable)
    (t t' : Hooks.HookType) (cb : Callable) :
  Hooks.get Callable (Hooks.register Callable h t cb) t'
  = if Hooks.HookType_eqb t t'
    then (Hooks.get Callable h t ++ [cb])%list
    else Hooks.get Callable h t'.
Proof.
  unfold Hooks.register.
  destruct (Hooks.contains Callable h t) eqn:C.
  - apply hooks_get_set.
  - rewrite !hooks_get_set, hooks_eqb_refl.
    rewrite (hooks_get_absent _ _ _ C).
    destruct (Hooks.HookType_eqb t t'); reflexivity.
Qed.

(** X8.  After any sequence of [HookRegistry.register] calls on an
    empty registry, the callbacks that [trigger] calls for a hook type
    are the callbacks registered for that type, each as often as it was
    registered, in the order of registration; registrations for other
    types do not interfere. *)
Theorem hooks_fire_in_registration_order (Callable : Type)
    (calls : list (Hooks.HookType * Callable)) (t : Hooks.HookType) :
  Hooks.trigger Callable (Hooks.registered Callable calls) t
  = map snd (filter (fun c => Hooks.HookType_eqb (fst c) t) calls).
Proof.
  unfold Hooks.trigger, Hooks.registered.
  assert (G : forall h,
            Hooks.get Callable
              (fold_left
                 (fun self c => Hooks.register Callable self (fst c) (snd c))
                 calls h) t
            = (Hooks.get Callable h t
               ++ map snd
                    (filter (fun c => Hooks.HookType_eqb (fst c) t) calls))%list).
  { induction calls as [|[u cb] calls IH]; intros h; simpl.
    - now rewrite app_nil_r.
    - rewrite IH, hooks_get_register.
      destruct (Hooks.HookType_eqb u t) eqn:E; [|reflexivity].
      apply hooks_eqb_eq in E. subst u. simpl. now rewrite <- app_assoc. }
  apply (G []).
Qed.

Lemma path_eqb_refl (p : path) : path_eqb p p = true.
Proof. apply path_eqb_eq. reflexivity. Qed.

Lemma session_read_append (fs : Session.files) (p : path) (s : string) :
  Session.read (Session.append fs p s) p = Session.read fs p ++ s.
Proof.
  induction fs as [|[q t] fs IH]; simpl.
  - now rewrite path_eqb_refl.
  - destruct (path_eqb q p) eqn:E; simpl; rewrite E; [reflexivity|exact IH].
Qed.

Lemma session_read_append_other (fs : Session.files) (p q : path)
    (s : string) :
  p <> q -> Session.read (Session.append fs p s) q = Session.read fs q.
Proof.
  intros D.
  assert (F : path_eqb p q = false).
  { destruct (path_eqb p q) eqn:E; [|reflexivity].
    apply path_eqb_eq in E. contradiction. }
  induction fs as [|[r t] fs IH]; simpl.
  - now rewrite F.
  - destruct (path_eqb r p) eqn:E; simpl.
    + apply path_eqb_eq in E. subst r. now rewrite F.
    + destruct (path_eqb r q); [reflexivity|exact IH].
Qed.

(** X9.  Two writers created without a session id share the session of
    the module (the current one, or a fresh one that the first writer
    sets), and each starts its own counter at zero: the first call of
    each without a correlation id returns the same id
    [corr_<session>_001].  The file of a writer is named after the
    session and lies in the directory of the day on which the writer
    was created.  Writers created on the same day share one file, which
    then holds both records; writers created on different days, either
    side of midnight, write two files of the same name, and each file
    receives the record of its own writer only. *)
Theorem default_writers_share_session_and_ids (json_dumps : dict -> string)
    (fresh1 fresh2 date1 date2 a1 a2 : string) (current : option string)
    (ts1 lvl1 evt1 msg1 ts2 lvl2 evt2 msg2 : string) (kw1 kw2 : dict)
    (fs : Session.files) :
  let sid := match current with Some s => s | None => fresh1 end in
  let line1 :=
    json_dumps
      (Writer.entry (Writer.mkLogger sid a1 0 "") ts1 lvl1 evt1 msg1 PNone
         kw1) ++ String PyStr.LF "" in
  let line2 :=
    json_dumps
      (Writer.entry (Writer.mkLogger sid a2 0 "") ts2 lvl2 evt2 msg2 PNone
         kw2) ++ String PyStr.LF "" in
  let '(cur1, w1) := Session.__init__ fresh1 date1 None a1 current in
  let '(cur2, w2) := Session.__init__ fresh2 date2 None a2 cur1 in
  let '(fs1, w1', id1) :=
    Session.log json_dumps w1 ts1 lvl1 evt1 msg1 PNone kw1 fs in
  let '(fs2, w2', id2) :=
    Session.log json_dumps w2 ts2 lvl2 evt2 msg2 PNone kw2 fs1 in
  Session.w_session_id w1 = sid
  /\ Session.w_session_id w2 = sid
  /\ Session.w_log_file w1 = (date1, sid ++ ".jsonl")
  /\ Session.w_log_file w2 = (date2, sid ++ ".jsonl")
  /\ id1 = PStr ("corr_" ++ sid ++ "_001")
  /\ id2 = id1
  /\ (date1 = date2 ->
      Session.w_log_file w2 = Session.w_log_file w1
      /\ Session.read fs2 (Session.w_log_file w1)
         = Session.read fs (Session.w_log_file w1) ++ line1 ++ line2)
  /\ (date1 <> date2 ->
      Session.w_log_file w2 <> Session.w_log_file w1
      /\ Session.read fs2 (Session.w_log_file w1)
         = Session.read fs (Session.w_log_file w1) ++ line1
      /\ Session.read fs2 (Session.w_log_file w2)
         = Session.read fs (Session.w_log_file w2) ++ line2).
Proof.
  destruct current as [s|]; simpl;
    (repeat (split; [reflexivity|]); split;
     [ intros <-; split; [reflexivity|];
       rewrite !session_read_append, !append_assoc; reflexivity
     | intros D; split; [intros E; apply D; now injection E|];
       split;
       [ rewrite session_read_append_other
           by (intros E; apply D; now injection E);
         apply session_read_append
       | rewrite session_read_append;
         rewrite session_read_append_other
           by (intros E; apply D; now injection E);
         reflexivity ] ]).
Qed.

Lemma default_writers_share_session_and_ids_witness :
  let '(cur1, w1) :=
    Session.__init__ "s1" "2020-01-01" None "main" None in
  let '(cur2, w2) :=
    Session.__init__ "s2" "2020-01-02" None "helper" cur1 in
  let '(fs1, w1', id1) :=
    Session.log FlatJson.dumps w1 "t1" "info" "task.started" "a" PNone []
      [] in
  let '(fs2, w2', id2) :=
    Session.log FlatJson.dumps w2 "t2" "info" "task.started" "b" PNone []
      fs1 in
  Session.w_session_id w2 = Session.w_session_id w1
  /\ id2 = id1
  /\ Session.w_log_file w1 = ("2020-01-01", "s1.jsonl")
  /\ Session.w_log_file w2 = ("2020-01-02", "s1.jsonl")
  /\ Session.read fs2 (Session.w_log_file w1)
     = FlatJson.dumps
         (Writer.entry (Writer.mkLogger "s1" "main" 0 "") "t1" "info"
            "task.started" "a" PNone []) ++ String PyStr.LF ""
  /\ Session.read fs2 (Session.w_log_file w2)
     = FlatJson.dumps
         (Writer.entry (Writer.mkLogger "s1" "helper" 0 "") "t2" "info"
            "task.started" "b" PNone []) ++ String PyStr.LF "".
Proof.
  pose proof (default_writers_share_session_and_ids FlatJson.dumps "s1" "s2"
                "2020-01-01" "2020-01-02" "main" "helper" None
                "t1" "info" "task.started" "a" "t2" "info" "task.started"
                "b" [] [] []) as H.
  simpl in H. destruct H as (_ & _ & _ & _ & _ & _ & _ & H).
  destruct (H ltac:(discriminate)) as (_ & H1 & H2).
  simpl. split; [reflexivity|]. split; [reflexivity|].
  split; [reflexivity|]. split; [reflexivity|]. split; [exact H1|exact H2].
Defined.

(** ** Retention: stages, candidates and reports *)

Ltac distinct_paths :=
  repeat (constructor; [simpl; intuition discriminate|]); constructor.

Lemma NoDup_paths_inj (l : list file) (f g : file) :
  NoDup (map path_of l) -> In f l -> In g l -> path_of f = path_of g ->
  f = g.
Proof.
  induction l as [|h l IH]; simpl; [tauto|].
  intros N Hf Hg E. inversion N as [|? ? Nh Nl]; subst.
  destruct Hf as [<-|Hf], Hg as [<-|Hg].
  - reflexivity.
  - exfalso. apply Nh. rewrite E. apply in_map. exact Hg.
  - exfalso. apply Nh. rewrite <- E. apply in_map. exact Hf.
  - apply IH; assumption.
Qed.

Lemma In_sorted_rglob (st : store) (f : file) :
  In f (sorted_by_mtime (rglob st))
  <-> In f (st_files st) /\ is_jsonl f = true.
Proof.
  split.
  - intros H. apply (Permutation_in _ (sorted_by_mtime_perm _)) in H.
    unfold rglob in H. apply filter_In in H. exact H.
  - intros H. apply (Permutation_in _ (Permutation_sym (sorted_by_mtime_perm _))).
    unfold rglob. apply filter_In. exact H.
Qed.

(** Removing listed log files of a store with distinct paths is
    filtering by membership. *)

Lemma unmarked_store (st : store) (D : list file) (q : file -> bool) :
  NoDup (map path_of (st_files st)) ->
  (forall f, In f D <-> In f (st_files st) /\ q f = true) ->
  Spec.unmarked D (st_files st) = filter (fun f => negb (q f)) (st_files st).
Proof.
  intros N HD. unfold Spec.unmarked. apply filter_ext_in. intros f Hf.
  f_equal. destruct (q f) eqn:Q.
  - apply file_in_In. apply in_map. apply HD. auto.
  - apply file_in_not_In. intros I. apply in_map_iff in I.
    destruct I as (g & E & Hg). apply HD in Hg. destruct Hg as [Hg Qg].
    assert (g = f) by (apply (NoDup_paths_inj (st_files st)); auto).
    subst g. congruence.
Qed.

Lemma count_excess_none (mf : Z) (R : list file) :
  Z.of_nat (List.length R) <= mf -> Spec.count_excess mf R = [].
Proof.
  intros H. unfold Spec.count_excess.
  destruct (Z.ltb_spec mf (Z.of_nat (List.length R))); [lia|reflexivity].
Qed.

(** X10.  When the log files together are within the size limit and the
    files younger than the cutoff are at most [max_files], both
    retention functions mark exactly the log files whose directory name
    is before the cutoff date; if every removal succeeds, [cleanup_logs]
    then leaves every other file of the store in place, in order, and
    reports the number and the total size of the removed files. *)
Theorem retention_by_age_alone (o : os) (st : store) (cutoff : string)
    (retention_days : Z) (max_size_mb : PrimFloat.float) (max_files : Z) :
  NoDup (map path_of (st_files st)) ->
  let files := sorted_by_mtime (rglob st) in
  let aged := filter (fun f => (parent_name f <? cutoff)%string) files in
  Spec.over_limit max_size_mb (total_size files) = false ->
  Z.of_nat (List.length (Spec.unmarked aged files)) <= max_files ->
  Lib.files_to_delete
    (Lib.select cutoff retention_days max_size_mb max_files st) = aged
  /\ Cli.to_delete
       (Cli.select cutoff retention_days max_size_mb max_files st) = aged
  /\ ((forall p, unlink_ok o p = true) ->
      let kept :=
        filter (fun f => negb (is_jsonl f && (parent_name f <? cutoff)%string))
          (st_files st) in
      Lib.cleanup_logs o (Some st) cutoff retention_days max_size_mb
        max_files false
      = (Some (mkStore (remove_empty_dirs o (st_dirs st) kept) kept),
         Lib.mkReport (Z.of_nat (List.length aged)) (total_size aged)
           [] [] None)).
Proof.
  intros N files aged Hs Hc.
  assert (Nr : NoDup (map path_of files)).
  { apply (NoDup_paths_perm (rglob st)).
    - apply Permutation_sym, sorted_by_mtime_perm.
    - apply NoDup_paths_rglob, N. }
  assert (L : Lib.files_to_delete
                (Lib.select cutoff retention_days max_size_mb max_files st)
              = aged).
  { unfold Lib.select. fold files.
    rewrite lib_count_stage_files by exact Nr.
    destruct (lib_size_stage_spec max_size_mb files
                (Lib.age_stage cutoff retention_days files (Lib.mkMarks [] []))
                Nr) as (k & _ & _ & Same & _).
    rewrite (Same Hs), lib_age_stage_files. simpl. fold aged.
    rewrite count_excess_none by exact Hc. apply app_nil_r. }
  assert (C : Cli.to_delete
                (Cli.select cutoff retention_days max_size_mb max_files st)
              = aged).
  { unfold Cli.select. fold files.
    rewrite cli_count_stage_files.
    destruct (cli_size_stage_spec max_size_mb files
                (Cli.age_stage cutoff retention_days files (Cli.mkMarks [] []))
                Nr) as (k & _ & _ & Same & _).
    rewrite Same.
    - rewrite cli_age_stage_files. simpl. fold aged.
      rewrite count_excess_none by exact Hc. apply app_nil_r.
    - destruct (Spec.over_limit max_size_mb
                  (total_size
                     (Spec.unmarked
                        (Cli.to_delete
                           (Cli.age_stage cutoff retention_days files
                              (Cli.mkMarks [] []))) files))) eqn:X;
        [|reflexivity].
      pose proof (int_gt_mono _ _ _ (total_size_unmarked_le _ files) X) as Y.
      unfold Spec.over_limit in *. congruence. }
  split; [exact L|]. split; [exact C|].
  intros Hok kept.
  rewrite (cleanup_logs_real_run o st cutoff retention_days max_size_mb
             max_files N).
  rewrite L.
  rewrite (filter_all _ (fun f => unlink_ok o (path_of f)) aged)
    by (intros; apply Hok).
  assert (U : Spec.unmarked aged (st_files st) = kept).
  { apply (unmarked_store st aged
             (fun f => is_jsonl f && (parent_name f <? cutoff)%string) N).
    intros f. unfold aged. rewrite filter_In. unfold files.
    rewrite In_sorted_rglob, andb_true_iff. tauto. }
  rewrite U. reflexivity.
Qed.

Lemma retention_by_age_alone_witness :
  Lib.cleanup_logs Sample.everything_allowed (Some Sample.two_day_store)
    "2020-01-05" 7 Sample.fifty 100 false
  = (Some (mkStore ["2020-01-09"] [Sample.new_file]),
     Lib.mkReport 1 50 [] [] None).
Proof.
  assert (N : NoDup (map path_of (st_files Sample.two_day_store)))
    by distinct_paths.
  destruct (retention_by_age_alone Sample.everything_allowed
              Sample.two_day_store "2020-01-05" 7 Sample.fifty 100 N) as (_ & _ & H).
  - reflexivity.
  - vm_compute. discriminate.
  - apply H. reflexivity.
Defined.

Lemma int_80_percent_le (n : Z) : 0 <= n -> 0 <= int_80_percent n <= n.
Proof.
  intros H. unfold int_80_percent.
  pose proof (Z.quot_pos (n * 4) 5 ltac:(lia) ltac:(lia)).
  rewrite Z.quot_div_nonneg in * by lia.
  pose proof (Z.div_le_upper_bound (n * 4) 5 n ltac:(lia) ltac:(lia)). lia.
Qed.

Lemma int_80_percent_neg (n : Z) : n <= 0 -> int_80_percent n <= 0.
Proof.
  intros H. unfold int_80_percent.
  replace (n * 4) with (- (- n * 4)) by lia.
  rewrite Z.quot_opp_l by lia.
  pose proof (Z.quot_pos (- n * 4) 5 ltac:(lia) ltac:(lia)). lia.
Qed.

Lemma count_excess_skipn (mf : Z) (R : list file) :
  mf < Z.of_nat (List.length R) ->
  let target := Z.to_nat (Z.max 0 (int_80_percent mf)) in
  exists k,
    Spec.count_excess mf R = firstn k R
    /\ skipn k R = skipn (List.length R - target) R
    /\ List.length (skipn k R) = target.
Proof.
  intros H target. unfold Spec.count_excess.
  destruct (Z.ltb_spec mf (Z.of_nat (List.length R))); [|lia].
  assert (B : int_80_percent mf <= Z.of_nat (List.length R)).
  { destruct (Z.le_gt_cases 0 mf).
    - pose proof (int_80_percent_le mf ltac:(lia)). lia.
    - pose proof (int_80_percent_neg mf ltac:(lia)). lia. }
  unfold slice_to.
  destruct (Z.ltb_spec (Z.of_nat (List.length R) - int_80_percent mf) 0);
    [lia|].
  exists (Z.to_nat (Z.of_nat (List.length R) - int_80_percent mf)).
  split; [reflexivity|].
  destruct (Z.le_gt_cases 0 (int_80_percent mf)).
  - replace (Z.to_nat (Z.of_nat (List.length R) - int_80_percent mf))
      with (List.length R - target)%nat by (unfold target; lia).
    split; [reflexivity|]. rewrite length_skipn. unfold target. lia.
  - assert (T : target = 0%nat) by (unfold target; lia).
    rewrite T, Nat.sub_0_r.
    rewrite !skipn_all2 by lia. split; reflexivity.
Qed.

(** X11.  The count stage of both retention functions: when the number
    of unmarked files is at most [max_files] nothing is marked; when it
    is above, the oldest unmarked files are marked and exactly
    [max(0, int(max_files * 0.8))] files stay unmarked, the newest
    ones. *)
Theorem count_stage_hysteresis (max_files : Z) (files : list file)
    (lm : Lib.marks) (cm : Cli.marks) :
  NoDup (map path_of files) ->
  let target := Z.to_nat (Z.max 0 (int_80_percent max_files)) in
  (let R := Spec.unmarked (Lib.files_to_delete lm) files in
   let R' :=
     Spec.unmarked (Lib.files_to_delete (Lib.count_stage max_files files lm))
       files in
   (Z.of_nat (List.length R) <= max_files -> R' = R)
   /\ (max_files < Z.of_nat (List.length R) ->
       R' = skipn (List.length R - target) R
       /\ List.length R' = target))
  /\ (let R := Spec.unmarked (Cli.to_delete cm) files in
      let R' :=
        Spec.unmarked (Cli.to_delete (Cli.count_stage max_files files cm))
          files in
      (Z.of_nat (List.length R) <= max_files -> R' = R)
      /\ (max_files < Z.of_nat (List.length R) ->
          R' = skipn (List.length R - target) R
          /\ List.length R' = target)).
Proof.
  intros N target. split.
  - intros R R'. unfold R'. rewrite lib_count_stage_files by exact N.
    fold R. split.
    + intros H. rewrite count_excess_none by exact H.
      now rewrite app_nil_r.
    + intros H. destruct (count_excess_skipn max_files R H) as (k & E & S1 & S2).
      rewrite E. unfold R. rewrite unmarked_after_prefix by exact N.
      fold R. rewrite S1 in *. auto.
  - intros R R'. unfold R'. rewrite cli_count_stage_files.
    fold R. split.
    + intros H. rewrite count_excess_none by exact H.
      now rewrite app_nil_r.
    + intros H. destruct (count_excess_skipn max_files R H) as (k & E & S1 & S2).
      rewrite E. unfold R. rewrite unmarked_after_prefix by exact N.
      fold R. rewrite S1 in *. auto.
Qed.

Lemma count_stage_hysteresis_witness :
  Spec.unmarked
    (Lib.files_to_delete
       (Lib.count_stage 2 (st_files Sample.three_file_store)
          (Lib.mkMarks [] [])))
    (st_files Sample.three_file_store)
  = [Sample.third_file]
  /\ Spec.unmarked
       (Cli.to_delete
          (Cli.count_stage 2 (st_files Sample.three_file_store)
             (Cli.mkMarks [] [])))
       (st_files Sample.three_file_store)
     = [Sample.third_file].
Proof.
  assert (N : NoDup (map path_of (st_files Sample.three_file_store)))
    by distinct_paths.
  destruct (count_stage_hysteresis 2 (st_files Sample.three_file_store)
              (Lib.mkMarks [] []) (Cli.mkMarks [] []) N)
    as ((_ & L) & (_ & C)).
  split.
  - apply L. vm_compute. reflexivity.
  - apply C. vm_compute. reflexivity.
Defined.

Lemma cli_select_marked (c : string) (d : Z) (mb : PrimFloat.float) (mf : Z) (st : store) :
  NoDup (map path_of (rglob st)) ->
  let D := Cli.to_delete (Cli.select c d mb mf st) in
  NoDup (map path_of D) /\ incl D (sorted_by_mtime (rglob st)).
Proof.
  intros Hn. unfold Cli.select.
  set (files := sorted_by_mtime (rglob st)).
  assert (Hf : NoDup (map path_of files)).
  { apply (NoDup_paths_perm (rglob st)); [|exact Hn].
    symmetry. apply sorted_by_mtime_perm. }
  set (m1 := Cli.age_stage c d files (Cli.mkMarks [] [])).
  assert (H1 : NoDup (map path_of (Cli.to_delete m1))
               /\ incl (Cli.to_delete m1) files).
  { unfold m1. rewrite cli_age_stage_files. cbn [Cli.to_delete app].
    split; [apply NoDup_paths_filter, Hf|].
    intros f Hin. apply filter_In in Hin. tauto. }
  set (m2 := Cli.size_stage mb files m1).
  assert (H2 : NoDup (map path_of (Cli.to_delete m2))
               /\ incl (Cli.to_delete m2) files).
  { destruct (cli_size_stage_spec mb files m1 Hf) as [k [E _]].
    fold m2 in E. rewrite E. apply extend_marked; tauto. }
  destruct (cli_count_stage_spec mf files m2) as [j E].
  cbn zeta. rewrite E. apply extend_marked; tauto.
Qed.

Lemma In_unmarked (D fs : list file) (f : file) :
  In f (Spec.unmarked D fs) <-> In f fs /\ file_in f D = false.
Proof.
  unfold Spec.unmarked. rewrite filter_In, negb_true_iff. tauto.
Qed.

Lemma In_remove_empty_dirs (o : os) (ds : list string) (fs : list file)
    (d : string) :
  In d (remove_empty_dirs o ds fs)
  <-> In d ds
      /\ ((exists f, In f fs /\ parent_name f = d) \/ rmdir_ok o d = false).
Proof.
  unfold remove_empty_dirs. rewrite filter_In.
  rewrite negb_true_iff, andb_false_iff, negb_false_iff, existsb_exists.
  split; intros [H1 H2]; (split; [exact H1|]).
  - destruct H2 as [(f & Hf & E)|H2]; [left|now right].
    exists f. split; [exact Hf|]. now apply String.eqb_eq.
  - destruct H2 as [(f & Hf & E)|H2]; [left|now right].
    exists f. split; [exact Hf|]. now apply String.eqb_eq.
Qed.

Lemma cli_cleanup_real_run (o : os) (st : store) (cutoff : string)
    (retention_days : Z) (max_size_mb : PrimFloat.float) (max_files : Z) :
  let candidates :=
    Cli.to_delete
      (Cli.select cutoff retention_days max_size_mb max_files st) in
  let removed := filter (fun f => unlink_ok o (path_of f)) candidates in
  let fs := Spec.unmarked removed (st_files st) in
  Cli.cleanup o (Some st) cutoff retention_days max_size_mb max_files false
  = (Some (mkStore (remove_empty_dirs o (st_dirs st) fs) fs),
     Cli.mkReport (Z.of_nat (List.length candidates)) (total_size candidates)
       []).
Proof.
  intros candidates removed fs. unfold Cli.cleanup. fold candidates.
  pose proof (unlink_all_files o candidates (st_files st) 0) as U.
  destruct (unlink_all o (st_files st) candidates 0) as [fs' n].
  simpl in U. subst fs'. reflexivity.
Qed.

(** X12.  Over a store of distinct paths, the candidates of both
    retention functions are distinct log files ([*.jsonl]) of the
    store.  A pass that is no dry run adds and changes no file, leaves
    every file that is no candidate (so every file that is no log file)
    in place, adds no directory and removes no directory that still
    holds a file, whatever removals the system refuses. *)
Theorem retention_spares_other_files (o : os) (st : store) (cutoff : string)
    (retention_days : Z) (max_size_mb : PrimFloat.float) (max_files : Z) :
  NoDup (map path_of (st_files st)) ->
  let lib :=
    Lib.files_to_delete
      (Lib.select cutoff retention_days max_size_mb max_files st) in
  let cli :=
    Cli.to_delete
      (Cli.select cutoff retention_days max_size_mb max_files st) in
  let spared (candidates : list file) (after : option store) :=
    exists st',
      after = Some st'
      /\ (forall f, In f (st_files st') -> In f (st_files st))
      /\ (forall f, In f (st_files st) -> ~ In f candidates ->
                    In f (st_files st'))
      /\ (forall d, In d (st_dirs st') -> In d (st_dirs st))
      /\ (forall f, In f (st_files st') -> In (parent_name f) (st_dirs st) ->
                    In (parent_name f) (st_dirs st')) in
  NoDup (map path_of lib)
  /\ NoDup (map path_of cli)
  /\ (forall f, In f lib \/ In f cli ->
                In f (st_files st) /\ is_jsonl f = true)
  /\ spared lib
       (fst (Lib.cleanup_logs o (Some st) cutoff retention_days max_size_mb
               max_files false))
  /\ spared cli
       (fst (Cli.cleanup o (Some st) cutoff retention_days max_size_mb
               max_files false)).
Proof.
  intros N lib cli spared.
  pose proof (NoDup_paths_rglob st N) as Nr.
  destruct (lib_select_marked cutoff retention_days max_size_mb max_files st
              Nr) as [L1 L2].
  destruct (cli_select_marked cutoff retention_days max_size_mb max_files st
              Nr) as [C1 C2].
  fold lib in L1, L2. fold cli in C1, C2.
  assert (S : forall cands after,
            incl cands (sorted_by_mtime (rglob st)) ->
            (let removed := filter (fun f => unlink_ok o (path_of f)) cands in
             let fs := Spec.unmarked removed (st_files st) in
             after = Some (mkStore (remove_empty_dirs o (st_dirs st) fs) fs)) ->
            spared cands after).
  { intros cands after Hi E. simpl in E. eexists. split; [exact E|].
    simpl. repeat split.
    - intros f Hf. apply In_unmarked in Hf. tauto.
    - intros f Hf Hn. apply In_unmarked. split; [exact Hf|].
      apply file_in_not_In. intros I. apply in_map_iff in I.
      destruct I as (g & E' & Hg). apply filter_In in Hg.
      destruct Hg as [Hg _]. apply Hn.
      assert (g = f); [|now subst].
      apply (NoDup_paths_inj (st_files st)); auto.
      apply Hi in Hg. apply In_sorted_rglob in Hg. tauto.
    - intros d Hd. apply In_remove_empty_dirs in Hd. tauto.
    - intros f Hf Hd. apply In_remove_empty_dirs. split; [exact Hd|].
      left. exists f. auto. }
  split; [exact L1|]. split; [exact C1|]. split; [|split].
  - intros f [H|H]; [apply L2 in H|apply C2 in H];
      apply In_sorted_rglob in H; exact H.
  - apply S; [exact L2|].
    rewrite (cleanup_logs_real_run o st cutoff retention_days max_size_mb
               max_files N). reflexivity.
  - apply S; [exact C2|].
    rewrite cli_cleanup_real_run. reflexivity.
Qed.

Lemma retention_spares_other_files_witness :
  exists st',
    fst (Lib.cleanup_logs Sample.everything_allowed
           (Some Sample.store_with_notes) "2020-01-05" 7 Sample.fifty 100 false)
    = Some st'
    /\ In Sample.notes_file (st_files st').
Proof.
  assert (N : NoDup (map path_of (st_files Sample.store_with_notes)))
    by distinct_paths.
  destruct (retention_spares_other_files Sample.everything_allowed
              Sample.store_with_notes "2020-01-05" 7 Sample.fifty 100 N)
    as (_ & _ & J & (st' & E & _ & K & _) & _).
  exists st'. split; [exact E|]. apply K.
  - simpl. auto.
  - intros I. destruct (J Sample.notes_file (or_introl I)) as [_ X].
    discriminate X.
Defined.

(** X13.  The report of the tool's [cleanup] counts candidates, not
    deletions: [deleted] is the number of marked files and [freed] their
    total size in the dry run and in the real run alike, whatever
    removals fail; the dry run lists the candidates and leaves the
    store, files and directories, as it is; the real run removes the
    candidates that can be removed. *)
Theorem tool_counts_candidates_not_deletions (o : os) (st : store)
    (cutoff : string) (retention_days : Z) (max_size_mb : PrimFloat.float)
    (max_files : Z) (dry_run : bool) :
  let candidates :=
    Cli.to_delete
      (Cli.select cutoff retention_days max_size_mb max_files st) in
  let r :=
    Cli.cleanup o (Some st) cutoff retention_days max_size_mb max_files
      dry_run in
  Cli.deleted (snd r) = Z.of_nat (List.length candidates)
  /\ Cli.freed (snd r) = total_size candidates
  /\ map fst (Cli.files (snd r))
     = (if dry_run then map path_of candidates else [])
  /\ (exists st',
        fst r = Some st'
        /\ st_files st'
           = if dry_run then st_files st
             else Spec.unmarked
                    (filter (fun f => unlink_ok o (path_of f)) candidates)
                    (st_files st))
  /\ (dry_run = true -> fst r = Some st).
Proof.
  intros candidates r. unfold r. destruct dry_run.
  - unfold Cli.cleanup. fold candidates. simpl.
    split; [reflexivity|]. split; [reflexivity|].
    split; [rewrite map_map; reflexivity|].
    split; [eexists; split; reflexivity|]. reflexivity.
  - rewrite cli_cleanup_real_run. fold candidates. simpl.
    split; [reflexivity|]. split; [reflexivity|]. split; [reflexivity|].
    split; [eexists; split; reflexivity|]. discriminate.
Qed.

(** *** Reasons *)

Lemma lib_reasons_set_fresh (d : list (path * Lib.reason)) (p : path)
    (r : Lib.reason) :
  ~ In p (map fst d) -> Lib.reasons_set d p r = (d ++ [(p, r)])%list.
Proof.
  induction d as [|[q r'] d IH]; simpl; intros H; [reflexivity|].
  destruct (path_eqb q p) eqn:E.
  - apply path_eqb_eq in E. subst q. tauto.
  - rewrite IH by tauto. reflexivity.
Qed.

Lemma cli_reasons_set_fresh (d : list (path * Cli.reason)) (p : path)
    (r : Cli.reason) :
  ~ In p (map fst d) -> Cli.reasons_set d p r = (d ++ [(p, r)])%list.
Proof.
  induction d as [|[q r'] d IH]; simpl; intros H; [reflexivity|].
  destruct (path_eqb q p) eqn:E.
  - apply path_eqb_eq in E. subst q. tauto.
  - rewrite IH by tauto. reflexivity.
Qed.

(** Marking the files of a list one after the other, none of them marked
    before: the files and their reasons are appended in order. *)

Lemma lib_marks_fold (r : Lib.reason) (Fs : list file) :
  NoDup (map path_of Fs) ->
  forall (m : Lib.marks) (L : list (file * Lib.reason)),
    Lib.files_to_delete m = map fst L ->
    Lib.reasons m = map (fun fr => (path_of (fst fr), snd fr)) L ->
    (forall f, In f Fs -> file_in f (Lib.files_to_delete m) = false) ->
    let m' := fold_left (fun m f => Lib.mark m f r) Fs m in
    let L' := (L ++ map (fun f => (f, r)) Fs)%list in
    Lib.files_to_delete m' = map fst L'
    /\ Lib.reasons m' = map (fun fr => (path_of (fst fr), snd fr)) L'.
Proof.
  induction Fs as [|f Fs IH]; intros N m L H1 H2 H3; simpl.
  - rewrite app_nil_r. auto.
  - inversion N as [|? ? Nf Nr]; subst.
    replace (L ++ (f, r) :: map (fun f0 => (f0, r)) Fs)%list
      with ((L ++ [(f, r)]) ++ map (fun f0 => (f0, r)) Fs)%list
      by (rewrite <- app_assoc; reflexivity).
    apply IH.
    + exact Nr.
    + simpl. rewrite H1, map_app. reflexivity.
    + simpl. rewrite lib_reasons_set_fresh.
      * rewrite H2, map_app. reflexivity.
      * rewrite H2, map_map. simpl.
        assert (X := H3 f (or_introl eq_refl)). apply file_in_not_In in X.
        rewrite H1, map_map in X. exact X.
    + intros g Hg. simpl. rewrite file_in_app, (H3 g (or_intror Hg)). simpl.
      rewrite orb_false_r. destruct (path_eqb (path_of g) (path_of f)) eqn:E;
        [|reflexivity].
      apply path_eqb_eq in E. exfalso. apply Nf. rewrite <- E.
      apply in_map. exact Hg.
Qed.

Lemma cli_marks_fold (r : Cli.reason) (Fs : list file) :
  NoDup (map path_of Fs) ->
  forall (m : Cli.marks) (L : list (file * Cli.reason)),
    Cli.to_delete m = map fst L ->
    Cli.reasons m = map (fun fr => (path_of (fst fr), snd fr)) L ->
    (forall f, In f Fs -> file_in f (Cli.to_delete m) = false) ->
    let m' := fold_left (fun m f => Cli.mark m f r) Fs m in
    let L' := (L ++ map (fun f => (f, r)) Fs)%list in
    Cli.to_delete m' = map fst L'
    /\ Cli.reasons m' = map (fun fr => (path_of (fst fr), snd fr)) L'.
Proof.
  induction Fs as [|f Fs IH]; intros N m L H1 H2 H3; simpl.
  - rewrite app_nil_r. auto.
  - inversion N as [|? ? Nf Nr]; subst.
    replace (L ++ (f, r) :: map (fun f0 => (f0, r)) Fs)%list
      with ((L ++ [(f, r)]) ++ map (fun f0 => (f0, r)) Fs)%list
      by (rewrite <- app_assoc; reflexivity).
    apply IH.
    + exact Nr.
    + simpl. rewrite H1, map_app. reflexivity.
    + simpl. rewrite cli_reasons_set_fresh.
      * rewrite H2, map_app. reflexivity.
      * rewrite H2, map_map. simpl.
        assert (X := H3 f (or_introl eq_refl)). apply file_in_not_In in X.
        rewrite H1, map_map in X. exact X.
    + intros g Hg. simpl. rewrite file_in_app, (H3 g (or_intror Hg)). simpl.
      rewrite orb_false_r. destruct (path_eqb (path_of g) (path_of f)) eqn:E;
        [|reflexivity].
      apply path_eqb_eq in E. exfalso. apply Nf. rewrite <- E.
      apply in_map. exact Hg.
Qed.

Lemma lib_age_stage_fold (c : string) (d : Z) (fs : list file)
    (m : Lib.marks) :
  Lib.age_stage c d fs m
  = fold_left (fun m f => Lib.mark m f (Lib.older_than_days d))
      (filter (fun f => (parent_name f <? c)%string) fs) m.
Proof.
  revert m. induction fs as [|f fs IH]; intros m; simpl; [reflexivity|].
  destruct (parent_name f <? c)%string; simpl; apply IH.
Qed.

Lemma cli_age_stage_fold (c : string) (d : Z) (fs : list file)
    (m : Cli.marks) :
  Cli.age_stage c d fs m
  = fold_left (fun m f => Cli.mark m f (Cli.older_than_d d))
      (filter (fun f => (parent_name f <? c)%string) fs) m.
Proof.
  revert m. induction fs as [|f fs IH]; intros m; simpl; [reflexivity|].
  destruct (parent_name f <? c)%string; simpl; apply IH.
Qed.

Lemma mark_keeps_unmarked_lib (m : Lib.marks) (f g : file) (r : Lib.reason)
    (rest : list file) :
  ~ In (path_of f) (map path_of rest) ->
  In g rest ->
  file_in g (Lib.files_to_delete m) = false ->
  file_in g (Lib.files_to_delete (Lib.mark m f r)) = false.
Proof.
  intros Nf Hg H. simpl. rewrite file_in_app, H. simpl. rewrite orb_false_r.
  destruct (path_eqb (path_of g) (path_of f)) eqn:E; [|reflexivity].
  apply path_eqb_eq in E. exfalso. apply Nf. rewrite <- E. now apply in_map.
Qed.

Lemma lib_size_loop_fold (mb lim : PrimFloat.float) (remaining : list file) :
  NoDup (map path_of remaining) ->
  forall (total : Z) (m : Lib.marks),
    (forall f, In f remaining -> file_in f (Lib.files_to_delete m) = false) ->
    exists k,
      Lib.size_loop mb lim remaining total m
      = fold_left (fun m f => Lib.mark m f (Lib.over_size_limit mb))
          (firstn k remaining) m.
Proof.
  induction remaining as [|f rest IH]; intros N total m Hm.
  - exists 0%nat. reflexivity.
  - simpl.
    destruct (PyFloat.int_le total (PrimFloat.mul lim PyFloat.point_eight)).
    + exists 0%nat. reflexivity.
    + rewrite (Hm f (or_introl eq_refl)). simpl.
      inversion N as [|? ? Nf Nr]; subst.
      destruct (IH Nr (total - st_size f)
                  (Lib.mark m f (Lib.over_size_limit mb))) as [k E].
      * intros g Hg. apply (mark_keeps_unmarked_lib m f g _ rest); auto.
        apply Hm. now right.
      * exists (S k). simpl. exact E.
Qed.

Lemma cli_size_loop_fold (lim : PrimFloat.float) (remaining : list file) (total : Z)
    (m : Cli.marks) :
  exists k,
    Cli.size_loop lim remaining total m
    = fold_left (fun m f => Cli.mark m f Cli.size_limit)
        (firstn k remaining) m.
Proof.
  revert total m. induction remaining as [|f rest IH]; intros total m.
  - exists 0%nat. reflexivity.
  - simpl.
    destruct (PyFloat.int_le total (PrimFloat.mul lim PyFloat.point_eight)).
    + exists 0%nat. reflexivity.
    + destruct (IH (total - st_size f) (Cli.mark m f Cli.size_limit))
        as [k E].
      exists (S k). simpl. exact E.
Qed.

Lemma lib_count_loop_fold (mf : Z) (excess : list file) :
  NoDup (map path_of excess) ->
  forall m : Lib.marks,
    (forall f, In f excess -> file_in f (Lib.files_to_delete m) = false) ->
    Lib.count_loop mf excess m
    = fold_left (fun m f => Lib.mark m f (Lib.over_file_limit mf)) excess m.
Proof.
  induction excess as [|f rest IH]; intros N m Hm; simpl; [reflexivity|].
  rewrite (Hm f (or_introl eq_refl)). simpl.
  inversion N as [|? ? Nf Nr]; subst.
  apply IH; [exact Nr|].
  intros g Hg. apply (mark_keeps_unmarked_lib m f g _ rest); auto.
  apply Hm. now right.
Qed.

Lemma cli_count_loop_fold (excess : list file) (m : Cli.marks) :
  Cli.count_loop excess m
  = fold_left (fun m f => Cli.mark m f Cli.file_limit) excess m.
Proof.
  revert m. induction excess as [|f rest IH]; intros m; simpl;
    [reflexivity|apply IH].
Qed.

Lemma lib_size_stage_fold (mb : PrimFloat.float) (files : list file) (m : Lib.marks) :
  NoDup (map path_of files) ->
  exists k,
    Lib.size_stage mb files m
    = fold_left (fun m f => Lib.mark m f (Lib.over_size_limit mb))
        (firstn k (Spec.unmarked (Lib.files_to_delete m) files)) m.
Proof.
  intros N. unfold Lib.size_stage.
  match goal with |- context [if ?b then _ else _] => destruct b end.
  - apply lib_size_loop_fold.
    + apply NoDup_paths_filter, N.
    + intros f Hf. apply filter_In in Hf. destruct Hf as [_ Hf].
      now apply negb_true_iff in Hf.
  - exists 0%nat. reflexivity.
Qed.

Lemma cli_size_stage_fold (mb : PrimFloat.float) (files : list file) (m : Cli.marks) :
  exists k,
    Cli.size_stage mb files m
    = fold_left (fun m f => Cli.mark m f Cli.size_limit)
        (firstn k (Spec.unmarked (Cli.to_delete m) files)) m.
Proof.
  unfold Cli.size_stage.
  match goal with |- context [if ?b then _ else _] => destruct b end.
  - apply cli_size_loop_fold.
  - exists 0%nat. reflexivity.
Qed.

Lemma lib_count_stage_fold (mf : Z) (files : list file) (m : Lib.marks) :
  NoDup (map path_of files) ->
  exists k,
    Lib.count_stage mf files m
    = fold_left (fun m f => Lib.mark m f (Lib.over_file_limit mf))
        (firstn k (Spec.unmarked (Lib.files_to_delete m) files)) m.
Proof.
  intros N. unfold Lib.count_stage.
  match goal with |- context [if ?b then _ else _] => destruct b end.
  - match goal with
    | |- context [slice_to ?e ?l] =>
        destruct (slice_to_firstn _ e l) as [j E]; rewrite E
    end.
    exists j. apply lib_count_loop_fold.
    + apply NoDup_paths_firstn, NoDup_paths_filter, N.
    + intros f Hf. apply In_firstn in Hf. apply filter_In in Hf.
      destruct Hf as [_ Hf]. now apply negb_true_iff in Hf.
  - exists 0%nat. reflexivity.
Qed.

Lemma cli_count_stage_fold (mf : Z) (files : list file) (m : Cli.marks) :
  exists k,
    Cli.count_stage mf files m
    = fold_left (fun m f => Cli.mark m f Cli.file_limit)
        (firstn k (Spec.unmarked (Cli.to_delete m) files)) m.
Proof.
  unfold Cli.count_stage.
  match goal with |- context [if ?b then _ else _] => destruct b end.
  - match goal with
    | |- context [slice_to ?e ?l] =>
        destruct (slice_to_firstn _ e l) as [j E]; rewrite E
    end.
    exists j. apply cli_count_loop_fold.
  - exists 0%nat. reflexivity.
Qed.

Lemma lib_stage_step (r : Lib.reason) (files : list file) (k : nat)
    (m : Lib.marks) (L : list (file * Lib.reason)) :
  NoDup (map path_of files) ->
  Lib.files_to_delete m = map fst L ->
  Lib.reasons m = map (fun fr => (path_of (fst fr), snd fr)) L ->
  let P := firstn k (Spec.unmarked (Lib.files_to_delete m) files) in
  let m' := fold_left (fun m f => Lib.mark m f r) P m in
  let L' := (L ++ map (fun f => (f, r)) P)%list in
  Lib.files_to_delete m' = map fst L'
  /\ Lib.reasons m' = map (fun fr => (path_of (fst fr), snd fr)) L'.
Proof.
  intros N H1 H2 P. apply lib_marks_fold; auto.
  - apply NoDup_paths_firstn, NoDup_paths_filter, N.
  - intros f Hf. apply In_firstn in Hf. eapply unmarked_not_in, Hf.
Qed.

Lemma cli_stage_step (r : Cli.reason) (files : list file) (k : nat)
    (m : Cli.marks) (L : list (file * Cli.reason)) :
  NoDup (map path_of files) ->
  Cli.to_delete m = map fst L ->
  Cli.reasons m = map (fun fr => (path_of (fst fr), snd fr)) L ->
  let P := firstn k (Spec.unmarked (Cli.to_delete m) files) in
  let m' := fold_left (fun m f => Cli.mark m f r) P m in
  let L' := (L ++ map (fun f => (f, r)) P)%list in
  Cli.to_delete m' = map fst L'
  /\ Cli.reasons m' = map (fun fr => (path_of (fst fr), snd fr)) L'.
Proof.
  intros N H1 H2 P. apply cli_marks_fold; auto.
  - apply NoDup_paths_firstn, NoDup_paths_filter, N.
  - intros f Hf. apply In_firstn in Hf. eapply unmarked_not_in, Hf.
Qed.

Lemma map_fst_tagged (A B : Type) (r : B) (l : list A) :
  map fst (map (fun f => (f, r)) l) = l.
Proof. rewrite map_map. simpl. apply map_id. Qed.

Lemma skipn_length_app (A : Type) (a b : list A) :
  skipn (List.length a) (a ++ b)%list = b.
Proof. induction a; simpl; auto. Qed.

Lemma lib_select_reasons (cutoff : string) (d : Z) (mb : PrimFloat.float)
    (mf : Z) (st : store) :
  NoDup (map path_of (rglob st)) ->
  let files := sorted_by_mtime (rglob st) in
  let aged := filter (fun f => (parent_name f <? cutoff)%string) files in
  let m1 := Lib.age_stage cutoff d files (Lib.mkMarks [] []) in
  let m2 := Lib.size_stage mb files m1 in
  let m3 := Lib.count_stage mf files m2 in
  exists P E,
    Lib.files_to_delete m1 = aged
    /\ Lib.files_to_delete m2 = (aged ++ P)%list
    /\ Lib.files_to_delete m3 = (aged ++ P ++ E)%list
    /\ Lib.reasons m3
       = (map (fun f => (path_of f, Lib.older_than_days d)) aged
          ++ map (fun f => (path_of f, Lib.over_size_limit mb)) P
          ++ map (fun f => (path_of f, Lib.over_file_limit mf)) E)%list.
Proof.
  intros Nr files aged m1 m2 m3.
  assert (N : NoDup (map path_of files)).
  { apply (NoDup_paths_perm (rglob st)); [|exact Nr].
    symmetry. apply sorted_by_mtime_perm. }
  unfold m3, m2, m1.
  rewrite lib_age_stage_fold. fold aged.
  destruct (lib_marks_fold (Lib.older_than_days d) aged
              (NoDup_paths_filter _ _ N) (Lib.mkMarks [] []) []
              eq_refl eq_refl (fun _ _ => eq_refl)) as [A1 A2].
  simpl app in A1, A2.
  set (n1 := fold_left (fun m f => Lib.mark m f (Lib.older_than_days d))
               aged (Lib.mkMarks [] [])) in *.
  destruct (lib_size_stage_fold mb files n1 N) as [k Ek]. rewrite Ek.
  destruct (lib_stage_step (Lib.over_size_limit mb) files k n1 _ N A1 A2)
    as [B1 B2].
  set (P := firstn k (Spec.unmarked (Lib.files_to_delete n1) files)) in *.
  set (n2 := fold_left (fun m f => Lib.mark m f (Lib.over_size_limit mb))
               P n1) in *.
  destruct (lib_count_stage_fold mf files n2 N) as [j Ej]. rewrite Ej.
  destruct (lib_stage_step (Lib.over_file_limit mf) files j n2 _ N B1 B2)
    as [C1 C2].
  set (E := firstn j (Spec.unmarked (Lib.files_to_delete n2) files)) in *.
  exists P, E. rewrite A1, B1, C1, C2.
  rewrite !map_app, !map_fst_tagged, !map_map.
  simpl. rewrite <- !app_assoc. repeat split; reflexivity.
Qed.

Lemma cli_select_reasons (cutoff : string) (d : Z) (mb : PrimFloat.float)
    (mf : Z) (st : store) :
  NoDup (map path_of (rglob st)) ->
  let files := sorted_by_mtime (rglob st) in
  let aged := filter (fun f => (parent_name f <? cutoff)%string) files in
  let m1 := Cli.age_stage cutoff d files (Cli.mkMarks [] []) in
  let m2 := Cli.size_stage mb files m1 in
  let m3 := Cli.count_stage mf files m2 in
  exists P E,
    Cli.to_delete m1 = aged
    /\ Cli.to_delete m2 = (aged ++ P)%list
    /\ Cli.to_delete m3 = (aged ++ P ++ E)%list
    /\ Cli.reasons m3
       = (map (fun f => (path_of f, Cli.older_than_d d)) aged
          ++ map (fun f => (path_of f, Cli.size_limit)) P
          ++ map (fun f => (path_of f, Cli.file_limit)) E)%list.
Proof.
  intros Nr files aged m1 m2 m3.
  assert (N : NoDup (map path_of files)).
  { apply (NoDup_paths_perm (rglob st)); [|exact Nr].
    symmetry. apply sorted_by_mtime_perm. }
  unfold m3, m2, m1.
  rewrite cli_age_stage_fold. fold aged.
  destruct (cli_marks_fold (Cli.older_than_d d) aged
              (NoDup_paths_filter _ _ N) (Cli.mkMarks [] []) []
              eq_refl eq_refl (fun _ _ => eq_refl)) as [A1 A2].
  simpl app in A1, A2.
  set (n1 := fold_left (fun m f => Cli.mark m f (Cli.older_than_d d))
               aged (Cli.mkMarks [] [])) in *.
  destruct (cli_size_stage_fold mb files n1) as [k Ek]. rewrite Ek.
  destruct (cli_stage_step Cli.size_limit files k n1 _ N A1 A2)
    as [B1 B2].
  set (P := firstn k (Spec.unmarked (Cli.to_delete n1) files)) in *.
  set (n2 := fold_left (fun m f => Cli.mark m f Cli.size_limit) P n1) in *.
  destruct (cli_count_stage_fold mf files n2) as [j Ej]. rewrite Ej.
  destruct (cli_stage_step Cli.file_limit files j n2 _ N B1 B2)
    as [C1 C2].
  set (E := firstn j (Spec.unmarked (Cli.to_delete n2) files)) in *.
  exists P, E. rewrite A1, B1, C1, C2.
  rewrite !map_app, !map_fst_tagged, !map_map.
  simpl. rewrite <- !app_assoc. repeat split; reflexivity.
Qed.

Lemma cli_reasons_get_app (d d' : list (path * Cli.reason)) (p : path) :
  Cli.reasons_get (d ++ d')%list p
  = match Cli.reasons_get d p with
    | Some r => Some r
    | None => Cli.reasons_get d' p
    end.
Proof.
  induction d as [|[q r] d IH]; simpl; [reflexivity|].
  destruct (path_eqb q p); [reflexivity|exact IH].
Qed.

Lemma cli_listing (L : list (file * Cli.reason)) :
  NoDup (map path_of (map fst L)) ->
  let d := map (fun fr => (path_of (fst fr), snd fr)) L in
  map (fun f => (path_of f, Cli.reasons_get d (path_of f))) (map fst L)
  = map (fun fr => (path_of (fst fr), Some (snd fr))) L.
Proof.
  intros N d. rewrite map_map. apply map_ext_in. intros [f r] Hin. simpl.
  f_equal. unfold d. clear d. induction L as [|[g s] L IH]; [destruct Hin|].
  simpl in *. inversion N as [|? ? Ng Nl]; subst.
  destruct Hin as [E|Hin].
  - injection E as -> ->. now rewrite path_eqb_refl.
  - destruct (path_eqb (path_of g) (path_of f)) eqn:E.
    + apply path_eqb_eq in E. exfalso. apply Ng. rewrite E.
      apply in_map. apply (in_map fst) in Hin. exact Hin.
    + apply IH; assumption.
Qed.

(** X14.  The dry run of both retention functions lists every candidate
    once with one reason, in the order of marking, and the reason of a
    file is that of the stage which marked it: with [by_size] the files
    that the size stage adds to the marks of the age stage and
    [by_count] those that the count stage adds after it, the listing is
    the files older than the cutoff with the age reason, then [by_size]
    with the size reason, then [by_count] with the count reason.  A
    file older than the cutoff keeps the age reason even when a limit
    would have evicted it too. *)
Theorem dry_run_lists_each_candidate_with_its_reason (o : os) (st : store)
    (cutoff : string) (retention_days : Z) (max_size_mb : PrimFloat.float)
    (max_files : Z) :
  NoDup (map path_of (st_files st)) ->
  let files := sorted_by_mtime (rglob st) in
  let aged := filter (fun f => (parent_name f <? cutoff)%string) files in
  (let m1 :=
     Lib.age_stage cutoff retention_days files (Lib.mkMarks [] []) in
   let m2 := Lib.size_stage max_size_mb files m1 in
   let m3 := Lib.count_stage max_files files m2 in
   let by_size :=
     skipn (List.length (Lib.files_to_delete m1)) (Lib.files_to_delete m2) in
   let by_count :=
     skipn (List.length (Lib.files_to_delete m2)) (Lib.files_to_delete m3) in
   let dry :=
     snd (Lib.cleanup_logs o (Some st) cutoff retention_days max_size_mb
            max_files true) in
   Lib.files_to_delete m1 = aged
   /\ Lib.files_to_delete m2 = (aged ++ by_size)%list
   /\ Lib.files_to_delete m3 = (aged ++ by_size ++ by_count)%list
   /\ NoDup (map path_of (aged ++ by_size ++ by_count)%list)
   /\ Lib.files dry = map path_of (aged ++ by_size ++ by_count)%list
   /\ Lib.report_reasons dry
      = (map (fun f => (path_of f, Lib.older_than_days retention_days))
           aged
         ++ map (fun f => (path_of f, Lib.over_size_limit max_size_mb))
              by_size
         ++ map (fun f => (path_of f, Lib.over_file_limit max_files))
              by_count)%list)
  /\ (let m1 :=
        Cli.age_stage cutoff retention_days files (Cli.mkMarks [] []) in
      let m2 := Cli.size_stage max_size_mb files m1 in
      let m3 := Cli.count_stage max_files files m2 in
      let by_size :=
        skipn (List.length (Cli.to_delete m1)) (Cli.to_delete m2) in
      let by_count :=
        skipn (List.length (Cli.to_delete m2)) (Cli.to_delete m3) in
      let dry :=
        snd (Cli.cleanup o (Some st) cutoff retention_days max_size_mb
               max_files true) in
      Cli.to_delete m1 = aged
      /\ Cli.to_delete m2 = (aged ++ by_size)%list
      /\ Cli.to_delete m3 = (aged ++ by_size ++ by_count)%list
      /\ NoDup (map path_of (aged ++ by_size ++ by_count)%list)
      /\ Cli.files dry
         = (map (fun f => (path_of f,
                           Some (Cli.older_than_d retention_days))) aged
            ++ map (fun f => (path_of f, Some Cli.size_limit)) by_size
            ++ map (fun f => (path_of f, Some Cli.file_limit))
                 by_count)%list).
Proof.
  intros N files aged.
  pose proof (NoDup_paths_rglob st N) as Nr. split.
  - intros m1 m2 m3 by_size by_count dry.
    destruct (lib_select_reasons cutoff retention_days max_size_mb max_files
                st Nr) as (P & E & H1 & H2 & H3 & H4).
    destruct (lib_select_marked cutoff retention_days max_size_mb max_files
                st Nr) as [D _].
    fold files aged in H1, H2, H3, H4. fold m1 in H1, H2, H3, H4.
    fold m2 in H2, H3, H4. fold m3 in H3, H4.
    unfold Lib.select in D. fold files m1 m2 m3 in D.
    assert (BS : by_size = P).
    { unfold by_size. rewrite H1, H2. apply skipn_length_app. }
    assert (BC : by_count = E).
    { unfold by_count. rewrite H2, H3, app_assoc. apply skipn_length_app. }
    rewrite BS, BC. split; [exact H1|]. split; [exact H2|].
    split; [exact H3|]. rewrite <- H3. split; [exact D|].
    split; [reflexivity|]. rewrite <- H4. reflexivity.
  - intros m1 m2 m3 by_size by_count dry.
    destruct (cli_select_reasons cutoff retention_days max_size_mb max_files
                st Nr) as (P & E & H1 & H2 & H3 & H4).
    destruct (cli_select_marked cutoff retention_days max_size_mb max_files
                st Nr) as [D _].
    fold files aged in H1, H2, H3, H4. fold m1 in H1, H2, H3, H4.
    fold m2 in H2, H3, H4. fold m3 in H3, H4.
    unfold Cli.select in D. fold files m1 m2 m3 in D.
    assert (BS : by_size = P).
    { unfold by_size. rewrite H1, H2. apply skipn_length_app. }
    assert (BC : by_count = E).
    { unfold by_count. rewrite H2, H3, app_assoc. apply skipn_length_app. }
    rewrite BS, BC. split; [exact H1|]. split; [exact H2|].
    split; [exact H3|]. rewrite <- H3. split; [exact D|].
    assert (Y : Cli.files dry
                = map (fun f => (path_of f,
                                 Cli.reasons_get (Cli.reasons m3) (path_of f)))
                    (Cli.to_delete m3)) by reflexivity.
    rewrite Y, H4.
    set (L := (map (fun f => (f, Cli.older_than_d retention_days)) aged
               ++ map (fun f => (f, Cli.size_limit)) P
               ++ map (fun f => (f, Cli.file_limit)) E)%list).
    assert (F : map fst L = (aged ++ P ++ E)%list).
    { unfold L. rewrite !map_app, !map_fst_tagged. reflexivity. }
    assert (R : (map (fun f => (path_of f, Cli.older_than_d retention_days))
                   aged
                 ++ map (fun f => (path_of f, Cli.size_limit)) P
                 ++ map (fun f => (path_of f, Cli.file_limit)) E)%list
                = map (fun fr => (path_of (fst fr), snd fr)) L).
    { unfold L. rewrite !map_app, !map_map. reflexivity. }
    rewrite R, H3, <- F. rewrite cli_listing by (rewrite F, <- H3; exact D).
    unfold L. rewrite !map_app, !map_map. reflexivity.
Qed.

Lemma dry_run_lists_each_candidate_with_its_reason_witness :
  Cli.files
    (snd (Cli.cleanup Sample.everything_allowed
            (Some Sample.three_file_store) "2020-01-05" 7
            Sample.hundred_bytes 0 true))
  = [(("2020-01-01", "a.jsonl"), Some (Cli.older_than_d 7));
     (("2020-01-09", "b.jsonl"), Some Cli.size_limit);
     (("2020-01-09", "c.jsonl"), Some Cli.file_limit)].
Proof.
  assert (N : NoDup (map path_of (st_files Sample.three_file_store)))
    by distinct_paths.
  destruct (dry_run_lists_each_candidate_with_its_reason
              Sample.everything_allowed Sample.three_file_store "2020-01-05"
              7 Sample.hundred_bytes 0 N) as (_ & _ & _ & _ & _ & H).
  rewrite H. reflexivity.
Defined.

(** ** Compaction passes *)

Lemma lib_compact_file_frame (json_loads : string -> option pyval) (o : os)
    (now : Z) (cutoff : string) (dry_run : bool) (f f' : file) (d : Z) :
  is_jsonl f = true ->
  Lib.compact_file json_loads o now cutoff dry_run f = Ok (Some (f', d)) ->
  path_of f' = path_of f /\ Spec.scanned o cutoff f = true
  /\ dry_run = false /\ st_mtime f' = now.
Proof.
  intros J. unfold Lib.compact_file, Spec.scanned. rewrite J.
  fold (Lib.eligible cutoff f).
  destruct (Lib.eligible cutoff f); simpl; [|discriminate].
  destruct (open_ok o (path_of f)); simpl; [|discriminate].
  destruct (Lib.preserved_lines json_loads f) as [[|l ls]|e];
    try discriminate.
  destruct dry_run; [discriminate|].
  intros H. injection H as <- _. auto.
Qed.

Lemma cli_compact_file_frame (json_loads : string -> option pyval) (o : os)
    (now : Z) (cutoff : string) (dry_run : bool) (f f' : file) (d : Z) :
  is_jsonl f = true ->
  Cli.compact_file json_loads o now cutoff dry_run f = Ok (Some (f', d)) ->
  path_of f' = path_of f /\ Spec.scanned o cutoff f = true
  /\ dry_run = false /\ st_mtime f' = now.
Proof.
  intros J. unfold Cli.compact_file, Spec.scanned. rewrite J.
  fold (Cli.eligible cutoff f).
  destruct (Cli.eligible cutoff f); simpl; [|discriminate].
  destruct (open_ok o (path_of f)); simpl; [|discriminate].
  destruct (Cli.kept json_loads f) as [[|l ls]|e]; try discriminate.
  destruct dry_run; [discriminate|].
  intros H. injection H as <- _. auto.
Qed.

Lemma Forall2_same (A : Type) (P : A -> A -> Prop) (l : list A) :
  (forall x, P x x) -> Forall2 P l l.
Proof. intros H. induction l; constructor; auto. Qed.

Lemma lib_compact_loop_frame (json_loads : string -> option pyval) (o : os)
    (now : Z) (cutoff : string) (dry_run : bool) (fs : list file) :
  forall c s,
    Forall2 (fun f f' => path_of f' = path_of f
                         /\ (Spec.scanned o cutoff f = false -> f' = f)
                         /\ (dry_run = true -> f' = f))
      fs (fst (Lib.compact_loop json_loads o now cutoff dry_run fs c s)).
Proof.
  induction fs as [|f rest IH]; intros c s; simpl; [constructor|].
  destruct (is_jsonl f) eqn:J; simpl.
  - destruct (Lib.compact_file json_loads o now cutoff dry_run f)
      as [[[f' d]|]|e] eqn:E.
    + specialize (IH (c + 1) (s + d)).
      destruct (Lib.compact_loop json_loads o now cutoff dry_run rest
                  (c + 1) (s + d)) as [rest' r].
      simpl in *. constructor; [|exact IH].
      destruct (lib_compact_file_frame _ _ _ _ _ _ _ _ J E)
        as (P1 & P2 & P3 & _).
      split; [exact P1|]. split; intros; congruence.
    + specialize (IH c s).
      destruct (Lib.compact_loop json_loads o now cutoff dry_run rest c s)
        as [rest' r].
      simpl in *. constructor; [auto|exact IH].
    + simpl. apply Forall2_same. auto.
  - specialize (IH c s).
    destruct (Lib.compact_loop json_loads o now cutoff dry_run rest c s)
      as [rest' r].
    simpl in *. constructor; [auto|exact IH].
Qed.

Lemma cli_compact_loop_frame (json_loads : string -> option pyval) (o : os)
    (now : Z) (cutoff : string) (dry_run : bool) (fs : list file) :
  forall c s,
    Forall2 (fun f f' => path_of f' = path_of f
                         /\ (Spec.scanned o cutoff f = false -> f' = f)
                         /\ (dry_run = true -> f' = f))
      fs (fst (Cli.compact_loop json_loads o now cutoff dry_run fs c s)).
Proof.
  induction fs as [|f rest IH]; intros c s; simpl; [constructor|].
  destruct (is_jsonl f) eqn:J; simpl.
  - destruct (Cli.compact_file json_loads o now cutoff dry_run f)
      as [[[f' d]|]|e] eqn:E.
    + specialize (IH (c + 1) (s + d)).
      destruct (Cli.compact_loop json_loads o now cutoff dry_run rest
                  (c + 1) (s + d)) as [rest' r].
      simpl in *. constructor; [|exact IH].
      destruct (cli_compact_file_frame _ _ _ _ _ _ _ _ J E)
        as (P1 & P2 & P3 & _).
      split; [exact P1|]. split; intros; congruence.
    + specialize (IH c s).
      destruct (Cli.compact_loop json_loads o now cutoff dry_run rest c s)
        as [rest' r].
      simpl in *. constructor; [auto|exact IH].
    + simpl. apply Forall2_same. auto.
  - specialize (IH c s).
    destruct (Cli.compact_loop json_loads o now cutoff dry_run rest c s)
      as [rest' r].
    simpl in *. constructor; [auto|exact IH].
Qed.

(** X15.  Whatever a compaction pass does (dry run or not, returning or
    raising), it keeps the directories, the number, the order and the
    paths of the files; a file that the pass does not read (no log
    file, not older than the cutoff, already compacted, or not
    readable) is left exactly as it was, and a dry run changes no
    file. *)
Theorem compaction_keeps_the_layout (json_loads : string -> option pyval)
    (o : os) (now : Z) (st : store) (cutoff : string) (dry_run : bool) :
  let same_layout (after : option store) :=
    exists st',
      after = Some st'
      /\ st_dirs st' = st_dirs st
      /\ Forall2 (fun f f' => path_of f' = path_of f
                              /\ (Spec.scanned o cutoff f = false -> f' = f)
                              /\ (dry_run = true -> f' = f))
           (st_files st) (st_files st') in
  same_layout
    (fst (Lib.compact_old_sessions json_loads o now (Some st) cutoff dry_run))
  /\ same_layout
       (fst (Cli.compact json_loads o now (Some st) cutoff dry_run)).
Proof.
  intros same_layout. split.
  - unfold Lib.compact_old_sessions.
    pose proof (lib_compact_loop_frame json_loads o now cutoff dry_run
                  (st_files st) 0 0) as F.
    destruct (Lib.compact_loop json_loads o now cutoff dry_run (st_files st)
                0 0) as [fs r].
    eexists. split; [reflexivity|]. split; [reflexivity|exact F].
  - unfold Cli.compact.
    pose proof (cli_compact_loop_frame json_loads o now cutoff dry_run
                  (st_files st) 0 0) as F.
    destruct (Cli.compact_loop json_loads o now cutoff dry_run (st_files st)
                0 0) as [fs r].
    eexists. split; [reflexivity|]. split; [reflexivity|exact F].
Qed.

Lemma compaction_keeps_the_layout_witness :
  exists st',
    fst (Lib.compact_old_sessions FlatJson.loads Sample.everything_allowed 9
           (Some Sample.store_with_list) "2020-01-04" false) = Some st'
    /\ st_dirs st' = st_dirs Sample.store_with_list
    /\ map path_of (st_files st') = map path_of (st_files Sample.store_with_list).
Proof.
  destruct (compaction_keeps_the_layout FlatJson.loads
              Sample.everything_allowed 9 Sample.store_with_list "2020-01-04"
              false) as ((st' & E & D & F) & _).
  exists st'. split; [exact E|]. split; [exact D|].
  induction F as [|f f' l l' (P & _) _ IH]; [reflexivity|].
  simpl. now rewrite P, IH.
Defined.

Lemma lib_scan_raises (json_loads : string -> option pyval)
    (lines : list string) (line : string) (v : pyval) :
  In line
    (filter (fun l => negb (l =? "")%string) (map PyStr.strip lines)) ->
  json_loads line = Some v ->
  (forall d, v <> PDict d) ->
  exists e, Lib.scan json_loads lines = Raise e.
Proof.
  intros Hin Hl Hv. induction lines as [|l rest IH]; [destruct Hin|].
  simpl in *. destruct (PyStr.strip l =? "")%string eqn:E; simpl in Hin.
  - auto.
  - destruct (json_loads (PyStr.strip l)) as [entry|] eqn:P.
    + destruct (Lib.keep entry) as [k|e] eqn:K; [|eauto].
      destruct Hin as [Eq|Hin].
      * rewrite Eq, Hl in P. injection P as <-.
        destruct v; try discriminate K. destruct (Hv m eq_refl).
      * destruct (IH Hin) as [e ->]. eauto.
    + destruct Hin as [Eq|Hin]; [congruence|auto].
Qed.

Lemma cli_scan_raises (json_loads : string -> option pyval)
    (lines : list string) (line : string) (v : pyval) :
  In line
    (filter (fun l => negb (PyStr.strip l =? "")%string) lines) ->
  json_loads line = Some v ->
  (forall d, v <> PDict d) ->
  exists e, Cli.scan json_loads lines = Raise e.
Proof.
  intros Hin Hl Hv. induction lines as [|l rest IH]; [destruct Hin|].
  simpl in *. destruct (PyStr.strip l =? "")%string eqn:E; simpl in Hin.
  - auto.
  - destruct (json_loads l) as [entry|] eqn:P.
    + destruct (Cli.keep entry) as [k|e] eqn:K; [|eauto].
      destruct Hin as [Eq|Hin].
      * rewrite Eq, Hl in P. injection P as <-.
        destruct v; try discriminate K. destruct (Hv m eq_refl).
      * destruct (IH Hin) as [e ->]. eauto.
    + destruct Hin as [Eq|Hin]; [congruence|auto].
Qed.

Lemma lib_loop_raises (json_loads : string -> option pyval) (o : os)
    (now : Z) (cutoff : string) (dry_run : bool) (fs : list file)
    (f : file) (e : exn) :
  In f fs -> is_jsonl f = true ->
  Lib.compact_file json_loads o now cutoff dry_run f = Raise e ->
  forall c s, exists e',
    snd (Lib.compact_loop json_loads o now cutoff dry_run fs c s) = Raise e'.
Proof.
  intros Hin J R. induction fs as [|g rest IH]; [destruct Hin|].
  intros c s. simpl.
  destruct (is_jsonl g) eqn:Jg; simpl.
  - destruct (Lib.compact_file json_loads o now cutoff dry_run g)
      as [[[g' d]|]|e0] eqn:E.
    + destruct Hin as [->|Hin]; [congruence|].
      destruct (IH Hin (c + 1) (s + d)) as [e' X]. exists e'.
      destruct (Lib.compact_loop json_loads o now cutoff dry_run rest
                  (c + 1) (s + d)). exact X.
    + destruct Hin as [->|Hin]; [congruence|].
      destruct (IH Hin c s) as [e' X]. exists e'.
      destruct (Lib.compact_loop json_loads o now cutoff dry_run rest c s).
      exact X.
    + exists e0. reflexivity.
  - destruct Hin as [->|Hin]; [congruence|].
    destruct (IH Hin c s) as [e' X]. exists e'.
    destruct (Lib.compact_loop json_loads o now cutoff dry_run rest c s).
    exact X.
Qed.

Lemma cli_loop_raises (json_loads : string -> option pyval) (o : os)
    (now : Z) (cutoff : string) (dry_run : bool) (fs : list file)
    (f : file) (e : exn) :
  In f fs -> is_jsonl f = true ->
  Cli.compact_file json_loads o now cutoff dry_run f = Raise e ->
  forall c s, exists e',
    snd (Cli.compact_loop json_loads o now cutoff dry_run fs c s) = Raise e'.
Proof.
  intros Hin J R. induction fs as [|g rest IH]; [destruct Hin|].
  intros c s. simpl.
  destruct (is_jsonl g) eqn:Jg; simpl.
  - destruct (Cli.compact_file json_loads o now cutoff dry_run g)
      as [[[g' d]|]|e0] eqn:E.
    + destruct Hin as [->|Hin]; [congruence|].
      destruct (IH Hin (c + 1) (s + d)) as [e' X]. exists e'.
      destruct (Cli.compact_loop json_loads o now cutoff dry_run rest
                  (c + 1) (s + d)). exact X.
    + destruct Hin as [->|Hin]; [congruence|].
      destruct (IH Hin c s) as [e' X]. exists e'.
      destruct (Cli.compact_loop json_loads o now cutoff dry_run rest c s).
      exact X.
    + exists e0. reflexivity.
  - destruct Hin as [->|Hin]; [congruence|].
    destruct (IH Hin c s) as [e' X]. exists e'.
    destruct (Cli.compact_loop json_loads o now cutoff dry_run rest c s).
    exact X.
Qed.

(** X16.  One line that is valid JSON but no object (a list, a number, a
    string, ...) in a file that a compaction pass reads makes the whole
    pass raise, in the library and in the tool, dry run or not: the
    test of the loop calls [entry.get] and the exception is not
    caught. *)
Theorem line_that_is_no_object_aborts_compaction
    (json_loads : string -> option pyval) (o : os) (now : Z) (st : store)
    (cutoff : string) (dry_run : bool) (f : file) (line : string)
    (v : pyval) :
  In f (st_files st) ->
  Spec.scanned o cutoff f = true ->
  json_loads line = Some v ->
  (forall d, v <> PDict d) ->
  (In line (Spec.lib_lines (content f)) ->
   exists e,
     snd (Lib.compact_old_sessions json_loads o now (Some st) cutoff dry_run)
     = Raise e)
  /\ (In line (Spec.cli_lines (content f)) ->
      exists e,
        snd (Cli.compact json_loads o now (Some st) cutoff dry_run)
        = Raise e).
Proof.
  intros Hin Hs Hl Hv. unfold Spec.scanned in Hs.
  apply andb_true_iff in Hs. destruct Hs as [Hs Ho].
  apply andb_true_iff in Hs. destruct Hs as [J He].
  split; intros Hline.
  - destruct (lib_scan_raises json_loads _ line v Hline Hl Hv) as [e E].
    assert (R : Lib.compact_file json_loads o now cutoff dry_run f = Raise e).
    { unfold Lib.compact_file, Lib.eligible, Lib.preserved_lines.
      rewrite He, Ho, E. reflexivity. }
    destruct (lib_loop_raises json_loads o now cutoff dry_run (st_files st)
                f e Hin J R 0 0) as [e' X].
    exists e'. unfold Lib.compact_old_sessions.
    destruct (Lib.compact_loop json_loads o now cutoff dry_run (st_files st)
                0 0). exact X.
  - destruct (cli_scan_raises json_loads _ line v Hline Hl Hv) as [e E].
    assert (R : Cli.compact_file json_loads o now cutoff dry_run f = Raise e).
    { unfold Cli.compact_file, Cli.eligible, Cli.kept.
      rewrite He, Ho, E. reflexivity. }
    destruct (cli_loop_raises json_loads o now cutoff dry_run (st_files st)
                f e Hin J R 0 0) as [e' X].
    exists e'. unfold Cli.compact.
    destruct (Cli.compact_loop json_loads o now cutoff dry_run (st_files st)
                0 0). exact X.
Qed.

Lemma line_that_is_no_object_aborts_compaction_witness :
  (exists e,
     snd (Lib.compact_old_sessions FlatJson.loads Sample.everything_allowed 9
            (Some Sample.store_with_list) "2020-01-04" true) = Raise e)
  /\ (exists e,
        snd (Cli.compact FlatJson.loads Sample.everything_allowed 9
               (Some Sample.store_with_list) "2020-01-04" true) = Raise e).
Proof.
  destruct (line_that_is_no_object_aborts_compaction FlatJson.loads
              Sample.everything_allowed 9 Sample.store_with_list "2020-01-04"
              true Sample.list_file "[]" (PList [])) as [L C].
  - simpl. auto.
  - reflexivity.
  - reflexivity.
  - discriminate.
  - split; [apply L|apply C]; simpl; auto.
Defined.

(** *** The tool, a second pass *)

Lemma splitlines_shape_upto (n : nat) (s l : string) :
  (String.length s <= n)%nat ->
  In l (PyStr.splitlines s) ->
  PyStr.all_chars (fun c => negb (PyStr.islinebreak c)) l = true.
Proof.
  revert s l. induction n as [|n IH]; intros s l Hn Hin.
  - destruct s; [destruct Hin|simpl in Hn; lia].
  - destruct s as [|c rest]; [destruct Hin|].
    simpl in Hn. cbn [PyStr.splitlines] in Hin.
    destruct (PyStr.islinebreak c) eqn:B.
    + destruct rest as [|d rest'].
      * destruct Hin as [<-|[]]. reflexivity.
      * destruct (Ascii.eqb c PyStr.CR && Ascii.eqb d PyStr.LF).
        -- destruct Hin as [<-|Hin]; [reflexivity|].
           apply (IH rest'); [simpl in Hn; lia|exact Hin].
        -- destruct Hin as [<-|Hin]; [reflexivity|].
           apply (IH (String d rest')); [lia|exact Hin].
    + destruct (PyStr.splitlines rest) as [|l0 ls] eqn:E.
      * destruct Hin as [<-|[]]. simpl. now rewrite B.
      * destruct Hin as [<-|Hin].
        -- simpl. rewrite B. simpl. apply (IH rest); [lia|].
           rewrite E. now left.
        -- apply (IH rest); [lia|]. rewrite E. now right.
Qed.

Lemma splitlines_shape (s l : string) :
  In l (PyStr.splitlines s) ->
  PyStr.all_chars (fun c => negb (PyStr.islinebreak c)) l = true.
Proof. apply (splitlines_shape_upto (String.length s)). lia. Qed.

Lemma splitlines_join_lines (l : string) (ls : list string) :
  Forall (fun x => PyStr.all_chars (fun c => negb (PyStr.islinebreak c)) x
                   = true) (l :: ls) ->
  PyStr.splitlines (PyStr.join_lines (l :: ls)) = l :: ls.
Proof.
  revert l. induction ls as [|l2 ls IH]; intros l H.
  - inversion H as [|? ? Hl _]; subst. unfold PyStr.join_lines. simpl.
    rewrite splitlines_line by exact Hl. reflexivity.
  - inversion H as [|? ? Hl Hr]; subst.
    rewrite join_lines_cons, splitlines_line by exact Hl.
    now rewrite IH.
Qed.

Lemma cli_scan_kept (json_loads : string -> option pyval)
    (lines kept : list string) :
  Cli.scan json_loads lines = Ok kept ->
  Forall (fun l => In l lines
                   /\ PyStr.strip l <> ""
                   /\ Spec.kept_line json_loads l = true) kept.
Proof.
  revert kept. induction lines as [|l lines IH]; intros kept;
    cbn [Cli.scan].
  - intros H. injection H as <-. constructor.
  - assert (W : forall ks,
              Forall (fun x => In x lines /\ PyStr.strip x <> ""
                               /\ Spec.kept_line json_loads x = true) ks ->
              Forall (fun x => In x (l :: lines) /\ PyStr.strip x <> ""
                               /\ Spec.kept_line json_loads x = true) ks).
    { intros ks. apply Forall_impl. intros x (A & B & C).
      split; [now right|auto]. }
    destruct (String.eqb_spec (PyStr.strip l) "") as [E|E];
      [intros H; apply W, IH, H|].
    destruct (json_loads l) as [e|] eqn:J; [|intros H; apply W, IH, H].
    destruct (Cli.keep e) as [k|] eqn:K; [|discriminate].
    destruct (Cli.scan json_loads lines) as [ls|]; [|discriminate].
    intros H. injection H as <-.
    specialize (IH ls eq_refl). apply W in IH.
    destruct k; [|exact IH].
    constructor; [|exact IH].
    split; [now left|]. split; [exact E|].
    unfold Spec.kept_line. rewrite J, <- cli_keep_eq, K. reflexivity.
Qed.

Lemma cli_scan_again (json_loads : string -> option pyval)
    (ks : list string) :
  Forall (fun l => PyStr.strip l <> ""
                   /\ Spec.kept_line json_loads l = true) ks ->
  Cli.scan json_loads ks = Ok ks.
Proof.
  induction 1 as [|l ks [Hne Hk] _ IH]; [reflexivity|].
  cbn [Cli.scan].
  destruct (String.eqb_spec (PyStr.strip l) "") as [E|_]; [contradiction|].
  unfold Spec.kept_line in Hk.
  destruct (json_loads l) as [e|]; [|discriminate].
  rewrite cli_keep_eq.
  destruct (Lib.keep e) as [k|]; [|discriminate].
  subst k. rewrite IH. reflexivity.
Qed.

Lemma cli_kept_again (json_loads : string -> option pyval)
    (f : file) (l : string) (ls : list string) (p n : string) (t : Z) :
  Cli.kept json_loads f = Ok (l :: ls) ->
  Cli.kept json_loads (mkFile p n t (PyStr.join_lines (l :: ls)))
  = Ok (l :: ls).
Proof.
  intros H. unfold Cli.kept in H. apply cli_scan_kept in H.
  assert (B : Forall (fun x => PyStr.all_chars
                                 (fun c => negb (PyStr.islinebreak c)) x
                               = true) (l :: ls)).
  { eapply Forall_impl; [|exact H]. intros x (Hx & _).
    eapply splitlines_shape, Hx. }
  assert (N : Forall (fun x => PyStr.all_chars PyStr.not_newline x = true)
                (l :: ls)).
  { eapply Forall_impl; [|exact B]. intros x. apply no_break_not_newline. }
  unfold Cli.kept. cbn [content].
  rewrite universal_newlines_id by (apply join_lines_no_cr, N).
  rewrite splitlines_join_lines by exact B.
  apply cli_scan_again. eapply Forall_impl; [|exact H]. simpl. tauto.
Qed.

Lemma cli_compact_file_again (json_loads : string -> option pyval) (o : os)
    (now : Z) (cutoff : string) (f f1 : file) (d : Z) :
  Cli.compact_file json_loads o now cutoff false f = Ok (Some (f1, d)) ->
  path_of f1 = path_of f
  /\ forall o2 now2 cutoff2,
       Cli.compact_file json_loads o2 now2 cutoff2 false f1
       = Ok (if Cli.eligible cutoff2 f1 && open_ok o2 (path_of f1)
             then Some (mkFile (parent_name f1) (name f1) now2 (content f1),
                        0)
             else None).
Proof.
  unfold Cli.compact_file at 1.
  destruct (Cli.eligible cutoff f); cbn [negb]; [|discriminate].
  destruct (open_ok o (path_of f)); cbn [negb]; [|discriminate].
  destruct (Cli.kept json_loads f) as [[|l ls]|] eqn:P;
    try discriminate.
  intros H. injection H as <- _. split; [reflexivity|].
  intros o2 now2 cutoff2. unfold Cli.compact_file.
  destruct (Cli.eligible cutoff2 _); cbn [negb andb]; [|reflexivity].
  destruct (open_ok o2 _); cbn [negb]; [|reflexivity].
  rewrite (cli_kept_again json_loads f l ls _ _ _ P).
  cbn [parent_name name content]. do 3 f_equal.
  unfold st_size. cbn [content]. lia.
Qed.

Lemma cli_eligible_older (cutoff cutoff2 : string) (f : file) :
  (cutoff2 <=? cutoff)%string = true ->
  Cli.eligible cutoff2 f = true -> Cli.eligible cutoff f = true.
Proof.
  unfold Cli.eligible. rewrite !andb_true_iff. intros L [A B].
  split; [|exact B]. exact (ltb_leb_trans _ _ _ A L).
Qed.

Lemma cli_compact_file_none_again (json_loads : string -> option pyval)
    (o : os) (now now2 : Z) (cutoff cutoff2 : string) (f : file) :
  (cutoff2 <=? cutoff)%string = true ->
  Cli.compact_file json_loads o now cutoff false f = Ok None ->
  Cli.compact_file json_loads o now2 cutoff2 false f = Ok None.
Proof.
  intros L. unfold Cli.compact_file.
  destruct (Cli.eligible cutoff2 f) eqn:E2; cbn [negb]; [|reflexivity].
  rewrite (cli_eligible_older cutoff cutoff2 f L E2). cbn [negb].
  destruct (open_ok o (path_of f)); cbn [negb]; [|reflexivity].
  destruct (Cli.kept json_loads f) as [[|l ls]|];
    try reflexivity; discriminate.
Qed.

Lemma cli_loop_second_pass (json_loads : string -> option pyval) (o : os)
    (now now2 : Z) (cutoff cutoff2 : string) (fs : list file) :
  (cutoff2 <=? cutoff)%string = true ->
  forall fs1 c s r,
    Cli.compact_loop json_loads o now cutoff false fs c s = (fs1, Ok r) ->
    forall c2 s2,
    exists fs2 n2,
      Cli.compact_loop json_loads o now2 cutoff2 false fs1 c2 s2
      = (fs2, Ok (n2, s2))
      /\ map content fs2 = map content fs1
      /\ map path_of fs2 = map path_of fs1.
Proof.
  intros L. induction fs as [|f fs IH]; intros fs1 c s r H c2 s2.
  - cbn in H. injection H as <- _. exists [], c2. repeat split.
  - cbn [Cli.compact_loop] in H.
    destruct (is_jsonl f) eqn:J; cbn [negb] in H.
    + destruct (Cli.compact_file json_loads o now cutoff false f)
        as [[[f1 d]|]|] eqn:F.
      * destruct (Cli.compact_loop json_loads o now cutoff false fs (c + 1)
                    (s + d)) as [rest r'] eqn:R.
        injection H as <- ->.
        destruct (cli_compact_file_again _ _ _ _ _ _ _ F) as [Hp Hagain].
        cbn [Cli.compact_loop].
        rewrite (is_jsonl_path f f1 Hp), J. cbn [negb].
        rewrite (Hagain o now2 cutoff2).
        destruct (Cli.eligible cutoff2 f1 && open_ok o (path_of f1)).
        -- destruct (IH rest _ _ _ R (c2 + 1) (s2 + 0))
             as [fs2 [n2 [E [Hc Hq]]]].
           rewrite E. eexists _, n2. split; [do 3 f_equal; lia|].
           cbn [map content path_of parent_name name]. split.
           ++ f_equal. exact Hc.
           ++ f_equal. exact Hq.
        -- destruct (IH rest _ _ _ R c2 s2) as [fs2 [n2 [E [Hc Hq]]]].
           rewrite E. eexists _, n2. split; [reflexivity|].
           cbn [map]. split; f_equal; assumption.
      * destruct (Cli.compact_loop json_loads o now cutoff false fs c s)
          as [rest r'] eqn:R.
        injection H as <- ->.
        cbn [Cli.compact_loop]. rewrite J. cbn [negb].
        rewrite (cli_compact_file_none_again json_loads o now now2 cutoff
                   cutoff2 f L F).
        destruct (IH rest _ _ _ R c2 s2) as [fs2 [n2 [E [Hc Hq]]]].
        rewrite E. eexists _, n2. split; [reflexivity|].
        cbn [map]. split; f_equal; assumption.
      * discriminate.
    + destruct (Cli.compact_loop json_loads o now cutoff false fs c s)
        as [rest r'] eqn:R.
      injection H as <- ->.
      cbn [Cli.compact_loop]. rewrite J. cbn [negb].
      destruct (IH rest _ _ _ R c2 s2) as [fs2 [n2 [E [Hc Hq]]]].
      rewrite E. eexists _, n2. split; [reflexivity|].
      cbn [map]. split; f_equal; assumption.
Qed.

(** X17.  The tool's [compact] is idempotent on contents: after a pass
    that is no dry run and returns, a second such pass with the same or
    an older cutoff returns too, leaves the content, the paths and the
    directories as they are, and reports zero bytes saved. *)
Theorem tool_compaction_idempotent (json_loads : string -> option pyval)
    (o : os) (now now2 : Z) (cutoff cutoff2 : string) (st st1 : store)
    (r1 : Z * Z) :
  Cli.compact json_loads o now (Some st) cutoff false = (Some st1, Ok r1) ->
  (cutoff2 <=? cutoff)%string = true ->
  exists st2 n2,
    Cli.compact json_loads o now2 (Some st1) cutoff2 false
    = (Some st2, Ok (n2, 0))
    /\ map content (st_files st2) = map content (st_files st1)
    /\ map path_of (st_files st2) = map path_of (st_files st1)
    /\ st_dirs st2 = st_dirs st1.
Proof.
  intros H L. unfold Cli.compact in H.
  destruct (Cli.compact_loop json_loads o now cutoff false (st_files st) 0 0)
    as [fs1 r] eqn:R.
  injection H as <- ->.
  destruct (cli_loop_second_pass json_loads o now now2 cutoff cutoff2
              (st_files st) L fs1 0 0 r1 R 0 0) as (fs2 & n2 & E & Hc & Hp).
  exists (mkStore (st_dirs st) fs2), n2.
  unfold Cli.compact. cbn [st_files st_dirs]. rewrite E.
  repeat split; assumption.
Qed.

Lemma tool_compaction_idempotent_witness :
  exists st2 n2,
    Cli.compact FlatJson.loads Sample.everything_allowed 12
      (Some (mkStore ["2020-01-01"]
               [mkFile "2020-01-01" "s1.jsonl" 9
                  (FlatJson.dumps Sample.decision_record ++ Sample.nl)]))
      "2020-01-04" false
    = (Some st2, Ok (n2, 0))
    /\ map content (st_files st2)
       = [FlatJson.dumps Sample.decision_record ++ Sample.nl].
Proof.
  destruct (tool_compaction_idempotent FlatJson.loads
              Sample.everything_allowed 9 12 "2020-01-04" "2020-01-04"
              Sample.session_store
              (mkStore ["2020-01-01"]
                 [mkFile "2020-01-01" "s1.jsonl" 9
                    (FlatJson.dumps Sample.decision_record ++ Sample.nl)])
              (1, 48))
    as (st2 & n2 & E & C & _).
  - reflexivity.
  - reflexivity.
  - exists st2, n2. split; [exact E|exact C].
Defined.

Lemma scans_agree (json_loads : string -> option pyval)
    (lines : list string) :
  Forall (fun l => PyStr.strip l = l) lines ->
  Cli.scan json_loads lines
  = Lib.scan json_loads (map (fun l => l ++ String PyStr.LF "") lines).
Proof.
  induction 1 as [|l ls H _ IH]; [reflexivity|].
  cbn [map Cli.scan Lib.scan]. rewrite strip_append_lf, H, IH.
  destruct (l =? "")%string; [reflexivity|].
  destruct (json_loads l) as [e|]; [|reflexivity].
  rewrite cli_keep_eq. reflexivity.
Qed.

(** X18.  On a file of whole lines that are stripped and contain no line
    boundary (as the writer produces them) the tool and the library
    keep the same lines, and compacting the file gives the same result
    in both. *)
Theorem compactors_agree_on_written_files
    (json_loads : string -> option pyval) (lines : list string)
    (p n : string) (t : Z) :
  Forall (fun l => PyStr.all_chars (fun c => negb (PyStr.islinebreak c)) l
                   = true
                   /\ PyStr.strip l = l) lines ->
  let f := mkFile p n t (Writer.written lines) in
  Cli.kept json_loads f = Lib.preserved_lines json_loads f
  /\ forall o now cutoff dry_run,
       Cli.compact_file json_loads o now cutoff dry_run f
       = Lib.compact_file json_loads o now cutoff dry_run f.
Proof.
  intros H f.
  assert (B : Forall (fun x => PyStr.all_chars
                                 (fun c => negb (PyStr.islinebreak c)) x
                               = true) lines)
    by (eapply Forall_impl; [|exact H]; simpl; tauto).
  assert (S : Forall (fun l => PyStr.strip l = l) lines)
    by (eapply Forall_impl; [|exact H]; simpl; tauto).
  assert (N : Forall (fun x => PyStr.all_chars PyStr.not_newline x = true)
                lines)
    by (eapply Forall_impl; [|exact B]; intros x; apply no_break_not_newline).
  assert (K : Cli.kept json_loads f = Lib.preserved_lines json_loads f).
  { unfold Cli.kept, Lib.preserved_lines, f. cbn [content].
    rewrite universal_newlines_id by (apply written_no_cr, N).
    rewrite splitlines_written by exact B.
    rewrite readlines_written by exact N.
    apply scans_agree, S. }
  split; [exact K|]. intros o now cutoff dry_run.
  unfold Cli.compact_file, Lib.compact_file, Cli.eligible, Lib.eligible.
  rewrite K. reflexivity.
Qed.

Lemma compactors_agree_on_written_files_witness :
  Cli.kept FlatJson.loads
    (mkFile "2020-01-01" "s1.jsonl" 5
       (Writer.written
          [FlatJson.dumps Sample.debug_record;
           FlatJson.dumps Sample.decision_record]))
  = Lib.preserved_lines FlatJson.loads
      (mkFile "2020-01-01" "s1.jsonl" 5
         (Writer.written
            [FlatJson.dumps Sample.debug_record;
             FlatJson.dumps Sample.decision_record])).
Proof.
  apply compactors_agree_on_written_files.
  repeat (constructor; [split; reflexivity|]). constructor.
Defined.

(** ** Statistics *)

Lemma compare_refl (a : string) : String.compare a a = Eq.
Proof. apply (proj2 (String_as_OT.cmp_eq a a)). reflexivity. Qed.

Lemma leb_refl (a : string) : (a <=? a)%string = true.
Proof. unfold String.leb. now rewrite compare_refl. Qed.

Lemma ltb_leb (a b : string) :
  (a <? b)%string = true -> (a <=? b)%string = true.
Proof.
  unfold String.ltb, String.leb. destruct (String.compare a b); auto.
Qed.

Lemma ltb_trans (a b c : string) :
  (a <? b)%string = true -> (b <? c)%string = true -> (a <? c)%string = true.
Proof.
  intros H1 H2. apply (ltb_leb_trans a b c H1). apply ltb_leb, H2.
Qed.

Lemma compare_gt_ltb (a b : string) :
  String.compare a b = Gt -> (b <? a)%string = true.
Proof.
  intros H. unfold String.ltb. rewrite String.compare_antisym, H.
  reflexivity.
Qed.

Lemma insert_str_In (s x : string) (l : list string) :
  In x (PyStr.insert_str s l) <-> x = s \/ In x l.
Proof.
  induction l as [|t l IH]; simpl.
  - split; intros [H|H]; auto.
  - destruct (String.compare s t) eqn:C; simpl.
    + apply String.compare_eq_iff in C. subst t.
      split; intros H; [tauto|]. destruct H as [->|H]; auto.
    + split; intros H; intuition (subst; auto).
    + rewrite IH. split; intros H; intuition (subst; auto).
Qed.

Lemma insert_str_sorted (s : string) (l : list string) :
  Sorted (fun a b => (a <? b)%string = true) l ->
  Sorted (fun a b => (a <? b)%string = true) (PyStr.insert_str s l).
Proof.
  induction 1 as [|t l Hs IH Hd]; simpl.
  - repeat constructor.
  - destruct (String.compare s t) eqn:C.
    + constructor; auto.
    + constructor; [constructor; auto|]. constructor.
      unfold String.ltb. now rewrite C.
    + constructor; [exact IH|].
      destruct l as [|u l]; simpl.
      * constructor. now apply compare_gt_ltb.
      * destruct (String.compare s u) eqn:C2.
        -- constructor. now inversion Hd.
        -- constructor. now apply compare_gt_ltb.
        -- constructor. now inversion Hd.
Qed.

Lemma sorted_set_In (x : string) (l : list string) :
  In x (PyStr.sorted_set l) <-> In x l.
Proof.
  unfold PyStr.sorted_set. induction l as [|s l IH]; simpl; [tauto|].
  rewrite insert_str_In, IH. split; intros [H|H]; auto.
Qed.

Lemma sorted_set_sorted (l : list string) :
  StronglySorted (fun a b => (a <? b)%string = true) (PyStr.sorted_set l).
Proof.
  apply Sorted_StronglySorted.
  - intros a b c. apply ltb_trans.
  - unfold PyStr.sorted_set. induction l as [|s l IH]; simpl.
    + constructor.
    + apply insert_str_sorted, IH.
Qed.

Lemma sorted_first (d : string) (l : list string) (x : string) :
  StronglySorted (fun a b => (a <? b)%string = true) (d :: l) ->
  In x (d :: l) -> (d <=? x)%string = true.
Proof.
  intros S [<-|H]; [apply leb_refl|].
  inversion S as [|? ? _ F]; subst.
  apply ltb_leb. rewrite Forall_forall in F. auto.
Qed.

Lemma sorted_last (l : list string) (n x : string) :
  StronglySorted (fun a b => (a <? b)%string = true) (l ++ [n])%list ->
  In x (l ++ [n])%list -> (x <=? n)%string = true.
Proof.
  induction l as [|a l IH]; simpl; intros S H.
  - destruct H as [<-|[]]. apply leb_refl.
  - inversion S as [|? ? S' F]; subst. destruct H as [<-|H].
    + apply ltb_leb. rewrite Forall_forall in F. apply F.
      apply in_or_app. right. now left.
    + apply IH; assumption.
Qed.

Lemma dates_of_store (st : store) (d : string) :
  In d (PyStr.sorted_set
          (filter (fun d => PyStr.startswith d "20")
             (map parent_name (rglob st))))
  <-> PyStr.startswith d "20" = true
      /\ exists f, In f (st_files st) /\ is_jsonl f = true
                   /\ parent_name f = d.
Proof.
  rewrite sorted_set_In, filter_In, in_map_iff. unfold rglob.
  split.
  - intros [(f & E & Hf) S]. apply filter_In in Hf. split; [exact S|].
    exists f. tauto.
  - intros [S (f & H1 & H2 & H3)]. split; [|exact S].
    exists f. rewrite filter_In. tauto.
Qed.

(** X19.  For an existing log directory [get_log_stats] counts the log
    files and sums their sizes; [dates] lists, once each and in strictly
    ascending order, the names starting with "20" of the directories
    that hold a log file; [oldest_date] and [newest_date] are the first
    and the last of them (every date lies between the two), and both
    are [None] when there is none. *)
Theorem stats_list_dates_in_ascending_order (round2 : Q -> Q) (st : store) :
  let s := Lib.get_log_stats round2 (Some st) in
  exists dates,
    dict_get s "dates" = Some (PList (map PStr dates))
    /\ dict_get s "total_files"
       = Some (PInt (Z.of_nat (List.length (rglob st))))
    /\ dict_get s "total_size_bytes" = Some (PInt (total_size (rglob st)))
    /\ StronglySorted (fun a b => (a <? b)%string = true) dates
    /\ (forall d,
          In d dates
          <-> PyStr.startswith d "20" = true
              /\ exists f, In f (st_files st) /\ is_jsonl f = true
                           /\ parent_name f = d)
    /\ (dates = [] ->
        dict_get s "oldest_date" = Some PNone
        /\ dict_get s "newest_date" = Some PNone)
    /\ (dates <> [] ->
        exists first last,
          dict_get s "oldest_date" = Some (PStr first)
          /\ dict_get s "newest_date" = Some (PStr last)
          /\ In first dates /\ In last dates
          /\ forall d, In d dates ->
               (first <=? d)%string = true /\ (d <=? last)%string = true).
Proof.
  intros s.
  set (dates := PyStr.sorted_set
                  (filter (fun d => PyStr.startswith d "20")
                     (map parent_name (rglob st)))).
  exists dates.
  assert (S : StronglySorted (fun a b => (a <? b)%string = true) dates)
    by apply sorted_set_sorted.
  split; [reflexivity|]. split; [reflexivity|]. split; [reflexivity|].
  split; [exact S|]. split; [apply dates_of_store|].
  unfold s, Lib.get_log_stats. fold dates. simpl dict_get. split.
  - intros ->. split; reflexivity.
  - intros Hne. destruct dates as [|first rest] eqn:D; [congruence|].
    destruct (rev (first :: rest)) as [|last front] eqn:R.
    { apply (f_equal (@List.length string)) in R. rewrite length_rev in R.
      discriminate R. }
    assert (E : (first :: rest) = (rev front ++ [last])%list).
    { rewrite <- (rev_involutive (first :: rest)), R. reflexivity. }
    exists first, last. split; [reflexivity|]. split; [reflexivity|].
    split; [now left|]. split.
    + rewrite E. apply in_or_app. right. now left.
    + intros d Hd. split.
      * apply (sorted_first first rest d S Hd).
      * rewrite E in S, Hd. apply (sorted_last (rev front) last d S Hd).
Qed.

Lemma stats_list_dates_in_ascending_order_witness :
  exists first last,
    dict_get (Lib.get_log_stats (fun q => q) (Some Sample.two_day_store))
      "oldest_date" = Some (PStr first)
    /\ dict_get (Lib.get_log_stats (fun q => q) (Some Sample.two_day_store))
         "newest_date" = Some (PStr last)
    /\ (first <=? last)%string = true.
Proof.
  destruct (stats_list_dates_in_ascending_order (fun q => q)
              Sample.two_day_store)
    as (dates & D & _ & _ & _ & _ & _ & H).
  destruct H as (first & last & O & W & _ & I & B).
  - intros ->. discriminate D.
  - exists first, last. split; [exact O|]. split; [exact W|].
    apply (B last I).
Defined.

(** X20.  The tool's [get_stats] and the library's [get_log_stats] agree
    on the number of files and on the oldest and newest dates for every
    log directory, and on the size in megabytes and the list of dates
    whenever the directory holds a log file.  For an existing directory
    without log files the tool returns its four-key zero result (no
    [dates], an integer zero size) where the library returns an empty
    list of dates. *)
Theorem tool_stats_agree_with_library_stats (round2 round1 : Q -> Q)
    (log_dir : option store) :
  let t := Cli.get_stats round2 round1 log_dir in
  let l := Lib.get_log_stats round2 log_dir in
  dict_get t "files" = dict_get l "total_files"
  /\ dict_get t "oldest" = dict_get l "oldest_date"
  /\ dict_get t "newest" = dict_get l "newest_date"
  /\ (forall st, log_dir = Some st -> rglob st <> [] ->
        dict_get t "size_mb" = dict_get l "total_size_mb"
        /\ dict_get t "dates" = dict_get l "dates"
        /\ dict_get t "size_kb"
           = Some (PFloat (round1 (inject_Z (total_size (rglob st))
                                   / inject_Z 1024)%Q)))
  /\ (forall st, log_dir = Some st -> rglob st = [] ->
        t = Cli.no_logs
        /\ dict_get t "size_mb" = Some (PInt 0)
        /\ dict_get t "dates" = None
        /\ dict_get l "dates" = Some (PList [])).
Proof.
  intros t l. unfold t, l. destruct log_dir as [st|].
  - unfold Cli.get_stats, Lib.get_log_stats.
    destruct (rglob st) as [|f fs] eqn:R.
    + split; [reflexivity|]. split; [reflexivity|]. split; [reflexivity|].
      split; intros st' E H; injection E as <-.
      * congruence.
      * repeat split; reflexivity.
    + split; [reflexivity|]. split; [reflexivity|]. split; [reflexivity|].
      split; intros st' E H; injection E as <-.
      * rewrite R. repeat split; reflexivity.
      * congruence.
  - split; [reflexivity|]. split; [reflexivity|]. split; [reflexivity|].
    split; intros st E; discriminate E.
Qed.

Lemma tool_stats_agree_with_library_stats_witness :
  dict_get (Cli.get_stats (fun q => q) (fun q => q)
              (Some Sample.two_day_store)) "dates"
  = dict_get (Lib.get_log_stats (fun q => q) (Some Sample.two_day_store))
      "dates".
Proof.
  destruct (tool_stats_agree_with_library_stats (fun q => q) (fun q => q)
              (Some Sample.two_day_store)) as (_ & _ & _ & H & _).
  apply (H Sample.two_day_store eq_refl). discriminate.
Defined.

(** ** Finding log files *)

Lemma ltb_lt (a b : string) :
  (a <? b)%string = true <-> String_as_OT.lt a b.
Proof.
  unfold String.ltb. rewrite <- String_as_OT.cmp_lt.
  unfold String_as_OT.cmp. destruct (String.compare a b); split; intros H;
    try reflexivity; discriminate H.
Qed.

Lemma lt_irrefl (a : string) : ~ String_as_OT.lt a a.
Proof. intros H. exact (String_as_OT.lt_not_eq _ _ H eq_refl). Qed.

Lemma compare_cases (a b : string) :
  (String.compare a b = Eq /\ a = b)
  \/ (String.compare a b = Lt /\ String_as_OT.lt a b)
  \/ (String.compare a b = Gt /\ String_as_OT.lt b a).
Proof.
  destruct (String.compare a b) eqn:C.
  - left. split; [reflexivity|]. now apply String_as_OT.cmp_eq.
  - right. left. split; [reflexivity|]. now apply String_as_OT.cmp_lt.
  - right. right. split; [reflexivity|]. apply String_as_OT.cmp_lt.
    unfold String_as_OT.cmp. rewrite String.compare_antisym, C. reflexivity.
Qed.

Lemma path_ltb_lt (p q : path) :
  QueryLogs.path_ltb p q = true
  <-> String_as_OT.lt (fst p) (fst q)
      \/ (fst p = fst q /\ String_as_OT.lt (snd p) (snd q)).
Proof.
  unfold QueryLogs.path_ltb.
  destruct (compare_cases (fst p) (fst q)) as [[C E]|[[C L]|[C L]]];
    rewrite C.
  - rewrite ltb_lt. split; [auto|]. intros [H|[_ H]]; [|exact H].
    rewrite E in H. destruct (lt_irrefl _ H).
  - split; auto.
  - split; [discriminate|]. intros [H|[H _]].
    + destruct (lt_irrefl _ (String_as_OT.lt_trans _ _ _ H L)).
    + rewrite H in L. destruct (lt_irrefl _ L).
Qed.

Lemma path_lt_trans (p q r : path) :
  QueryLogs.path_ltb p q = true -> QueryLogs.path_ltb q r = true ->
  QueryLogs.path_ltb p r = true.
Proof.
  rewrite !path_ltb_lt. intros [H1|[E1 H1]] [H2|[E2 H2]].
  - left. eapply String_as_OT.lt_trans; eauto.
  - left. congruence.
  - left. congruence.
  - right. split; [congruence|]. eapply String_as_OT.lt_trans; eauto.
Qed.

Lemma path_lt_irrefl (p : path) : QueryLogs.path_ltb p p = false.
Proof.
  destruct (QueryLogs.path_ltb p p) eqn:E; [|reflexivity].
  apply path_ltb_lt in E. destruct E as [H|[_ H]]; destruct (lt_irrefl _ H).
Qed.

Lemma path_lt_total (p q : path) :
  QueryLogs.path_ltb p q = true \/ p = q \/ QueryLogs.path_ltb q p = true.
Proof.
  rewrite !path_ltb_lt. destruct p as [a b], q as [c d]. simpl.
  destruct (compare_cases a c) as [[_ E]|[[_ L]|[_ L]]]; auto.
  subst c. destruct (compare_cases b d) as [[_ E]|[[_ L]|[_ L]]]; subst; auto.
Qed.

Lemma path_le_trans (p q r : path) :
  QueryLogs.path_ltb q p = false -> QueryLogs.path_ltb r q = false ->
  QueryLogs.path_ltb r p = false.
Proof.
  intros H1 H2. destruct (QueryLogs.path_ltb r p) eqn:E; [|reflexivity].
  destruct (path_lt_total p q) as [L|[->|L]]; try congruence.
  rewrite (path_lt_trans r p q E L) in H2. discriminate H2.
Qed.

Lemma path_lt_le (p q : path) :
  QueryLogs.path_ltb p q = true -> QueryLogs.path_ltb q p = false.
Proof.
  intros H. destruct (QueryLogs.path_ltb q p) eqn:E; [|reflexivity].
  rewrite <- (path_lt_irrefl p). symmetry. eapply path_lt_trans; eauto.
Qed.

Lemma insert_by_path_perm (f : file) (l : list file) :
  Permutation (QueryLogs.insert_by_path f l) (f :: l).
Proof.
  induction l as [|g l IH]; simpl; [reflexivity|].
  destruct (QueryLogs.path_ltb (path_of g) (path_of f)); [|reflexivity].
  rewrite IH. apply perm_swap.
Qed.

Lemma sorted_by_path_perm (l : list file) :
  Permutation (QueryLogs.sorted_by_path l) l.
Proof.
  induction l as [|f l IH]; simpl; [reflexivity|].
  rewrite insert_by_path_perm. now constructor.
Qed.

Lemma insert_by_path_sorted (f : file) (l : list file) :
  Sorted (fun a b => QueryLogs.path_ltb (path_of b) (path_of a) = false) l ->
  Sorted (fun a b => QueryLogs.path_ltb (path_of b) (path_of a) = false)
    (QueryLogs.insert_by_path f l).
Proof.
  induction 1 as [|g l Hs IH Hd]; simpl.
  - repeat constructor.
  - destruct (QueryLogs.path_ltb (path_of g) (path_of f)) eqn:C.
    + constructor; [exact IH|].
      destruct l as [|h l]; simpl.
      * constructor. now apply path_lt_le.
      * destruct (QueryLogs.path_ltb (path_of h) (path_of f)).
        -- constructor. now inversion Hd.
        -- constructor. now apply path_lt_le.
    + constructor; [constructor; auto|]. constructor. exact C.
Qed.

Lemma sorted_by_path_sorted (l : list file) :
  StronglySorted
    (fun a b => QueryLogs.path_ltb (path_of b) (path_of a) = false)
    (QueryLogs.sorted_by_path l).
Proof.
  apply Sorted_StronglySorted.
  - intros a b c. apply path_le_trans.
  - induction l as [|f l IH]; simpl; [constructor|].
    apply insert_by_path_sorted, IH.
Qed.

Lemma prefix_append (p s : string) :
  String.prefix p s = true <-> exists b, s = p ++ b.
Proof.
  revert p. induction s as [|d s IH]; intros p.
  - destruct p as [|c p]; simpl.
    + split; [intros _; exists ""; reflexivity|reflexivity].
    + split; [discriminate|]. intros [b H]. discriminate H.
  - destruct p as [|c p]; simpl.
    + split; [intros _; exists (String d s); reflexivity|reflexivity].
    + destruct (Ascii.ascii_dec c d) as [->|N].
      * rewrite IH. split; intros [b H]; exists b; [now rewrite H|].
        now injection H.
      * split; [discriminate|]. intros [b H]. injection H as H _.
        congruence.
Qed.

Lemma contains_spec (sub s : string) :
  PyStr.contains sub s = true <-> exists a b, s = a ++ sub ++ b.
Proof.
  induction s as [|c s IH].
  - cbn [PyStr.contains]. rewrite orb_false_r. unfold PyStr.startswith.
    rewrite prefix_append. split.
    + intros [b H]. exists "", b. exact H.
    + intros (a & b & H). destruct a; [exists b; exact H|discriminate H].
  - cbn [PyStr.contains]. rewrite orb_true_iff, IH.
    unfold PyStr.startswith. rewrite prefix_append. split.
    + intros [[b H]|(a & b & H)].
      * exists "", b. exact H.
      * exists (String c a), b. simpl. now rewrite H.
    + intros (a & b & H). destruct a as [|d a].
      * left. exists b. exact H.
      * right. simpl in H. injection H as _ H. exists a, b. exact H.
Qed.

Lemma lower_char_idem (c : ascii) :
  PyStr.lower_char (PyStr.lower_char c) = PyStr.lower_char c.
Proof.
  destruct c as [[] [] [] [] [] [] [] []]; reflexivity.
Qed.

Lemma lower_idem (s : string) : PyStr.lower (PyStr.lower s) = PyStr.lower s.
Proof.
  induction s as [|c s IH]; simpl; [reflexivity|].
  now rewrite lower_char_idem, IH.
Qed.

Lemma lower_empty (s : string) :
  (PyStr.lower s =? "")%string = (s =? "")%string.
Proof. destruct s; reflexivity. Qed.

(** X21.  [find_logs] returns the log files of the directory, each as
    often as [rglob] lists it, sorted by path; with a non-empty session
    filter it returns those whose name contains the filter, letter case
    ignored on both sides; an empty filter or none selects every log
    file; a directory that does not exist gives the empty list. *)
Theorem find_logs_sorted_and_filtered (log_dir : option store)
    (session_filter : option string) :
  let found := QueryLogs.find_logs log_dir session_filter in
  let wanted (f : file) :=
    match session_filter with
    | Some s =>
        (s =? "")%string
        || PyStr.contains (PyStr.lower s) (PyStr.lower (name f))
    | None => true
    end in
  StronglySorted
    (fun a b => QueryLogs.path_ltb (path_of b) (path_of a) = false) found
  /\ match log_dir with
     | None => found = []
     | Some st =>
         Permutation found
           (filter (fun f => is_jsonl f && wanted f) (st_files st))
     end
  /\ (forall f,
        wanted f = true
        <-> match session_filter with
            | Some s =>
                s = ""
                \/ exists a b,
                     PyStr.lower (name f) = a ++ PyStr.lower s ++ b
            | None => True
            end)
  /\ (forall s, session_filter = Some s ->
        QueryLogs.find_logs log_dir (Some (PyStr.lower s)) = found).
Proof.
  intros found wanted. unfold found. split; [|split; [|split]].
  - destruct log_dir as [st|]; simpl;
      [apply sorted_by_path_sorted|constructor].
  - destruct log_dir as [st|]; simpl; [|reflexivity].
    rewrite sorted_by_path_perm. unfold rglob.
    rewrite <- filter_filter_and.
    unfold wanted. destruct session_filter as [s|].
    + simpl. destruct (s =? "")%string; simpl.
      * rewrite (filter_all _ (fun _ => true)); auto.
      * reflexivity.
    + rewrite (filter_all _ (fun _ => true)); auto.
  - intros f. unfold wanted. destruct session_filter as [s|]; [|tauto].
    rewrite orb_true_iff, contains_spec, String.eqb_eq. tauto.
  - intros s ->. destruct log_dir as [st|]; [|reflexivity].
    unfold QueryLogs.find_logs. simpl truthy.
    rewrite lower_empty, lower_idem. reflexivity.
Qed.

Lemma find_logs_sorted_and_filtered_witness :
  QueryLogs.find_logs (Some Sample.mixed_case_store)
    (Some (PyStr.lower "SESS"))
  = QueryLogs.find_logs (Some Sample.mixed_case_store) (Some "SESS").
Proof.
  apply (proj2 (proj2 (proj2 (find_logs_sorted_and_filtered
                                (Some Sample.mixed_case_store)
                                (Some "SESS"))))).
  reflexivity.
Defined.

(** ** The fields of a record *)

Lemma dict_get_absent (d : dict) (k : string) :
  ~ In k (dict_keys d) -> dict_get d k = None.
Proof.
  induction d as [|[k' v] d IH]; simpl; intros H; [reflexivity|].
  destruct (String.eqb_spec k' k) as [E|E]; [tauto|]. apply IH. tauto.
Qed.

Lemma distinct_cons (k : string) (l : list string) :
  distinct (k :: l) = true <-> ~ In k l /\ distinct l = true.
Proof.
  simpl. rewrite andb_true_iff, negb_true_iff, mem_string_false. tauto.
Qed.

(** With distinct keywords, the display that ends in [**kw] holds each
    keyword's value. *)
Lemma dict_get_update_keyword (kw d : dict) (k : string) (v : pyval) :
  distinct (dict_keys kw) = true ->
  dict_get kw k = Some v ->
  dict_get (dict_update d kw) k = Some v.
Proof.
  unfold dict_update. revert d.
  induction kw as [|[k' v'] kw IH]; intros d D H; [discriminate H|].
  simpl in H, D. apply (proj1 (distinct_cons k' (dict_keys kw))) in D.
  destruct D as [N D]. simpl fold_left.
  destruct (String.eqb_spec k' k) as [E|E].
  - injection H as <-. subst k'.
    fold (dict_update (dict_set d k v') kw).
    rewrite dict_get_update by exact N.
    rewrite dict_get_set, String.eqb_refl. reflexivity.
  - apply IH; assumption.
Qed.

Lemma filter_keys_distinct (p : string * pyval -> bool) (kw : dict) :
  distinct (dict_keys kw) = true -> distinct (dict_keys (filter p kw)) = true.
Proof.
  induction kw as [|[k v] kw IH]; [reflexivity|].
  intros D. apply (proj1 (distinct_cons k (dict_keys kw))) in D.
  destruct D as [N D]. simpl. destruct (p (k, v)).
  - apply (proj2 (distinct_cons k _)). split; [|apply IH, D].
    intros I. apply N. apply (keys_filter_incl p kw k I).
  - apply IH, D.
Qed.

Lemma dict_get_filter_other (kw : dict) (k c : string) :
  k <> c ->
  dict_get (filter (fun kv => negb (fst kv =? c)%string) kw) k
  = dict_get kw k.
Proof.
  intros Hk. induction kw as [|[k' v] kw IH]; [reflexivity|].
  simpl. destruct (String.eqb_spec k' c) as [E|E]; simpl.
  - destruct (String.eqb_spec k' k) as [E'|E']; [congruence|exact IH].
  - destruct (String.eqb_spec k' k); [reflexivity|exact IH].
Qed.

Lemma dict_get_none (d : dict) (k : string) :
  dict_get d k = None -> ~ In k (dict_keys d).
Proof.
  induction d as [|[k' v] d IH]; simpl; [tauto|].
  destruct (String.eqb_spec k' k) as [E|E]; [discriminate|].
  intros H [X|X]; [contradiction|]. exact (IH H X).
Qed.

Lemma keys_dict_set (d : dict) (k k' : string) (v : pyval) :
  In k (dict_keys (dict_set d k' v)) <-> k = k' \/ In k (dict_keys d).
Proof.
  induction d as [|[q w] d IH]; simpl.
  - split; intros [H|H]; auto.
  - destruct (String.eqb_spec q k') as [E|E]; simpl.
    + subst q. split; intros H; [tauto|]. destruct H as [->|H]; tauto.
    + rewrite IH. tauto.
Qed.

Lemma keys_dict_update (kw d : dict) (k : string) :
  In k (dict_keys (dict_update d kw))
  <-> In k (dict_keys d) \/ In k (dict_keys kw).
Proof.
  unfold dict_update. revert d.
  induction kw as [|[q w] kw IH]; intros d; simpl; [tauto|].
  rewrite IH, keys_dict_set. simpl. split; intros H; intuition (subst; auto).
Qed.

Lemma keys_filter_other (kw : dict) (k c : string) :
  In k (dict_keys (filter (fun kv => negb (fst kv =? c)%string) kw))
  <-> k <> c /\ In k (dict_keys kw).
Proof.
  induction kw as [|[q w] kw IH]; simpl; [tauto|].
  destruct (String.eqb_spec q c) as [E|E]; simpl.
  - rewrite IH. subst q. split; intros H; [tauto|].
    destruct H as [N [H|H]]; [congruence|tauto].
  - rewrite IH. split; intros H; [|tauto].
    destruct H as [H|H]; [subst; tauto|tauto].
Qed.

(** X22.  The keywords of a call of [log] overwrite the fields of the
    record: the record holds every keyword (other than [cid]) with the
    value given, also when the keyword is [ts] or [aid], so that a
    caller can replace the time stamp and the agent id of the writer;
    [lvl], [evt] and [msg] cannot be given as keywords: a call with one
    of them raises a [TypeError] and writes nothing.  The [cid] of the
    record is the id that the call returns, and the record has no other
    keys than the six fields and the keywords. *)
Theorem keywords_overwrite_the_fields_of_a_record
    (json_dumps : dict -> string) (self : Writer.AgentLogger)
    (ts lvl evt msg : string) (kw : dict) (self' : Writer.AgentLogger)
    (id : pyval) :
  (forall k, In k ["lvl"; "evt"; "msg"] -> In k (dict_keys kw) ->
             Writer.call_log json_dumps self ts lvl evt msg kw
             = Raise TypeError)
  /\ (Writer.call_log json_dumps self ts lvl evt msg kw = Ok (self', id) ->
      exists e,
        Writer._log_file self'
        = Writer._log_file self ++ json_dumps e ++ String PyStr.LF ""
        /\ dict_get e "cid" = Some id
        /\ (forall k v, k <> "cid" -> dict_get kw k = Some v ->
                        dict_get e k = Some v)
        /\ (dict_get kw "ts" = None -> dict_get e "ts" = Some (PStr ts))
        /\ (dict_get kw "aid" = None ->
            dict_get e "aid" = Some (PStr (Writer.agent_id self)))
        /\ (forall k, In k (dict_keys e) <->
                      In k ["ts"; "lvl"; "cid"; "aid"; "evt"; "msg"]
                      \/ (k <> "cid" /\ In k (dict_keys kw)))).
Proof.
  unfold Writer.call_log, Writer.bind_log.
  destruct (bindable ["self"; "lvl"; "evt"; "msg"] kw) eqn:B; simpl.
  2:{ split; [reflexivity|discriminate]. }
  split.
  { intros k Hk Hin. apply bindable_spec in B. destruct B as [_ NB].
    exfalso. apply (NB k); [right; exact Hk|exact Hin]. }
  intros H. injection H as H.
  set (cid := dict_get_default kw "cid" PNone) in *.
  set (kwargs := filter (fun kv => negb (fst kv =? "cid")%string) kw) in *.
  apply bindable_spec in B. destruct B as [D NB].
  assert (Dk : distinct (dict_keys kwargs) = true)
    by apply filter_keys_distinct, D.
  assert (Nc : ~ In "cid" (dict_keys kwargs)).
  { intros I. apply keys_filter_other in I. destruct I as [I _]. now apply I. }
  exists (Writer.entry self ts lvl evt msg cid kwargs).
  unfold Writer.log in H.
  destruct (Writer.correlation self cid) as [s0 c0] eqn:C.
  injection H as <- <-. simpl.
  assert (F : Writer._log_file s0 = Writer._log_file self).
  { unfold Writer.correlation in C.
    destruct (truthy cid); simpl in C; injection C as <- _; reflexivity. }
  split; [now rewrite F|]. split; [|split; [|split; [|split]]].
  - unfold Writer.entry. rewrite dict_get_update by exact Nc. simpl.
    now rewrite C.
  - intros k v Hk Hv. unfold Writer.entry.
    apply dict_get_update_keyword; [exact Dk|].
    unfold kwargs. rewrite dict_get_filter_other by exact Hk. exact Hv.
  - intros Hn. unfold Writer.entry. rewrite dict_get_update; [reflexivity|].
    intros I. apply keys_filter_other in I. destruct I as [_ I].
    exact (dict_get_none _ _ Hn I).
  - intros Hn. unfold Writer.entry. rewrite dict_get_update; [reflexivity|].
    intros I. apply keys_filter_other in I. destruct I as [_ I].
    exact (dict_get_none _ _ Hn I).
  - intros k. unfold Writer.entry. rewrite keys_dict_update.
    unfold kwargs. rewrite keys_filter_other. simpl. tauto.
Qed.

Lemma keywords_overwrite_the_fields_of_a_record_witness :
  let r :=
    Writer.log FlatJson.dumps Sample.writer "t" "info" "task.started" "build"
      PNone [("aid", PStr "someone:else")] in
  exists e,
    Writer._log_file (fst r)
    = Writer._log_file Sample.writer ++ FlatJson.dumps e
      ++ String PyStr.LF ""
    /\ dict_get e "aid" = Some (PStr "someone:else").
Proof.
  destruct (keywords_overwrite_the_fields_of_a_record FlatJson.dumps
              Sample.writer "t" "info" "task.started" "build"
              [("aid", PStr "someone:else")]
              (fst (Writer.log FlatJson.dumps Sample.writer "t" "info"
                      "task.started" "build" PNone
                      [("aid", PStr "someone:else")]))
              (snd (Writer.log FlatJson.dumps Sample.writer "t" "info"
                      "task.started" "build" PNone
                      [("aid", PStr "someone:else")])))
    as [_ H].
  destruct (H eq_refl) as (e & F & _ & K & _).
  exists e. split; [exact F|]. apply K; [discriminate|reflexivity].
Defined.
